(** * HealthCheck-MCP: the alert aggregator and its caches

    A shallow embedding of [src/system/alerts.js] (the primary entrypoint
    [getHealthAlerts] with its collectors, recommender, summary and score),
    of [src/system/thermal.js] ([getThermalStatus]) and of
    [src/system/network.js] ([checkInternetConnectivity],
    [getNetworkStatus]), followed by the properties of the specification
    that concern them.  The collectors of the two probes, the system probe
    ([src/system/systemHealth.js]), the performance probe
    ([src/system/performance.js]), the battery probe
    ([src/system/battery.js]) and the uptime of the legacy report
    ([src/system/health.js]) are embedded as well, with properties read
    off their code. *)

From Stdlib Require Import ZArith List Bool Lia.
From Stdlib Require Import Strings.String Strings.Ascii Numbers.DecimalString.
From Stdlib Require Import QArith Qround.
Import ListNotations.

Open Scope string_scope.
Open Scope Z_scope.

(** ** JavaScript values used by the modules *)

Module Js.

(** A JavaScript number as the modules produce it.  Every finite reading
    is rounded to two decimals before it is used
    ([Math.round(x * 100) / 100], PowerShell's [[math]::Round(x, 2)]) or
    is an integer count, so a finite number is kept as its number of
    hundredths: [Num 9050] is 90.5.  [NaN] is what [parseFloat],
    [parseInt] and [0 / 0] yield on a missing reading.  Percentages,
    temperatures and counts stay far below the magnitudes where a double
    loses hundredths or prints with an exponent, and no collector
    produces an infinity ([getCPUQuick] caps its result with
    [Math.min(100, ...)]). *)
Inductive number : Type :=
| NaN
| Num (hundredths : Z).

(** An integer literal of the source, e.g. the [90] of [cpuUsage > 90]. *)
Definition int (n : Z) : number := Num (n * 100).

(** [a > b] and [a < b] on numbers: false as soon as one side is NaN. *)
Definition gt (a b : number) : bool :=
  match a, b with
  | Num x, Num y => y <? x
  | _, _ => false
  end.

Definition lt (a b : number) : bool :=
  match a, b with
  | Num x, Num y => x <? y
  | _, _ => false
  end.

Definition le (a b : number) : bool :=
  match a, b with
  | Num x, Num y => x <=? y
  | _, _ => false
  end.

Definition isNaN (a : number) : bool :=
  match a with NaN => true | Num _ => false end.

(** Decimal digits of a non-negative integer. *)
Definition digits (n : Z) : string :=
  NilZero.string_of_uint (N.to_uint (Z.to_N n)).

(** [String(x)] / [`${x}`] for a number: the shortest decimal, so no
    trailing zero in the fraction and no fraction for an integer. *)
Definition toString (a : number) : string :=
  match a with
  | NaN => "NaN"
  | Num h =>
      let m := Z.abs h in
      let ip := m / 100 in
      let fp := m mod 100 in
      (if h <? 0 then "-" else "") ++ digits ip ++
      (if fp =? 0 then ""
       else "." ++ digits (fp / 10) ++
            (if fp mod 10 =? 0 then "" else digits (fp mod 10)))
  end.

(** A field that holds a number or the string ["N/A"]
    ([percentFree], [temperatureCelsius], device counts). *)
Inductive value : Type :=
| NA
| Val (n : number).

(** [typeof v === "number"]; NaN is a number. *)
Definition isNumber (v : value) : bool :=
  match v with NA => false | Val _ => true end.

(** Relational operators convert the string ["N/A"] to NaN. *)
Definition toNumber (v : value) : number :=
  match v with NA => NaN | Val n => n end.

Definition vtoString (v : value) : string :=
  match v with NA => "N/A" | Val n => toString n end.

(** [a.includes(needle)]. *)
Fixpoint includes (needle s : string) : bool :=
  String.prefix needle s ||
  match s with
  | EmptyString => false
  | String _ rest => includes needle rest
  end.

(** [xs.join(sep)]. *)
Fixpoint join (sep : string) (xs : list string) : string :=
  match xs with
  | [] => ""
  | [x] => x
  | x :: rest => x ++ sep ++ join sep rest
  end.

(** [s || fallback] on strings: the empty string is falsy. *)
Definition orElse (s fallback : string) : string :=
  if String.eqb s "" then fallback else s.

(** [xs.slice(0, n)]. *)
Definition slice0 {A} (n : nat) (xs : list A) : list A := firstn n xs.

(** [a === b] on numbers: NaN equals nothing. *)
Definition strictEq (a b : number) : bool :=
  match a, b with
  | Num x, Num y => x =? y
  | _, _ => false
  end.

(** White space that [trim] and [parseInt] strip.  Collector output is
    ASCII, so the ASCII white space and line terminators are modelled
    (TAB, LF, VT, FF, CR, SP); the non-ASCII ones are left in place. *)
Definition isWhiteSpace (c : ascii) : bool :=
  let n := nat_of_ascii c in
  (Nat.eqb n 32 || (Nat.leb 9 n && Nat.leb n 13))%bool.

Fixpoint trimStart (s : string) : string :=
  match s with
  | EmptyString => ""
  | String c rest => if isWhiteSpace c then trimStart rest else s
  end.

Fixpoint trimEnd (s : string) : string :=
  match s with
  | EmptyString => ""
  | String c rest =>
      let rest' := trimEnd rest in
      if (isWhiteSpace c && String.eqb rest' "")%bool then ""
      else String c rest'
  end.

(** [s.trim()]. *)
Definition trim (s : string) : string := trimEnd (trimStart s).

(** Value of a digit in the given radix (10 or 16). *)
Definition digitValue (radix : Z) (c : ascii) : option Z :=
  let n := Z.of_nat (nat_of_ascii c) in
  let v :=
    if (48 <=? n) && (n <=? 57) then Some (n - 48)
    else if (97 <=? n) && (n <=? 102) then Some (n - 87)
    else if (65 <=? n) && (n <=? 70) then Some (n - 55)
    else None in
  match v with
  | Some d => if d <? radix then Some d else None
  | None => None
  end.

(** The longest prefix of radix digits, as an integer; [None] when the
    prefix is empty. *)
Fixpoint parseDigits (radix : Z) (s : string) (acc : Z) (seen : bool)
  : option Z :=
  match s with
  | EmptyString => if seen then Some acc else None
  | String c rest =>
      match digitValue radix c with
      | Some d => parseDigits radix rest (acc * radix + d) true
      | None => if seen then Some acc else None
      end
  end.

(** [parseInt(s)] with no radix argument: leading white space, a sign,
    an optional [0x] prefix, then the longest digit prefix; NaN when
    there is no digit.  The result is the parsed integer itself. *)
Definition parseInt (s : string) : number :=
  let s0 := trimStart s in
  let '(sign, s1) :=
    match s0 with
    | String "-" rest => (-1, rest)
    | String "+" rest => (1, rest)
    | _ => (1, s0)
    end in
  let '(radix, s2) :=
    match s1 with
    | String "0" (String "x" rest) => (16, rest)
    | String "0" (String "X" rest) => (16, rest)
    | _ => (10, s1)
    end in
  match parseDigits radix s2 0 false with
  | Some n => int (sign * n)
  | None => NaN
  end.

(** Outcome of one [execPromise(command)] call: the promise resolves
    with the command's standard output, rejects (the command failed or
    could not be started), or the call itself throws before a promise
    exists. *)
Inductive exec_result : Type :=
| Resolved (stdout : string)
| Rejected
| Thrown.

End Js.

(** ** The primary entrypoint: [src/system/alerts.js] *)

Module Alerts.

Import Js.

(** [const CACHE_TTL = 3000], in milliseconds. *)
Definition CACHE_TTL : Z := 3000.

(** The object [alerts] of [getHealthAlerts].  A time stamp is kept as
    the millisecond time value of its [Date]; [toISOString] prints it in
    a fixed-width form that keeps equality and order. *)
Record AlertLists : Type := {
  timestamp : Z;
  critical : list string;
  warning : list string;
  info : list string;
}.

Definition pushCritical (msg : string) (a : AlertLists) : AlertLists :=
  {| timestamp := timestamp a; critical := (critical a ++ [msg])%list;
     warning := warning a; info := info a |}.

Definition pushWarning (msg : string) (a : AlertLists) : AlertLists :=
  {| timestamp := timestamp a; critical := critical a;
     warning := (warning a ++ [msg])%list; info := info a |}.

(** Result of [getMemoryQuick]. *)
Record MemUsage : Type := {
  totalGB : number;
  usedGB : number;
  freeGB : number;
  usagePercent : number;
}.

(** Result of [getDiskQuickCheck]; its [warning] and [critical] flags are
    named [diskWarning] and [diskCritical] here. *)
Record DiskUsage : Type := {
  percentFree : value;
  diskWarning : bool;
  diskCritical : bool;
}.

(** Result of [getSecurityQuickCheck]. *)
Record SecurityStatus : Type := {
  defenderDisabled : bool;
  firewallDisabled : bool;
}.

Record HealthScore : Type := {
  score : Z;
  status : string;
}.

(** The [alertCount] object. *)
Record AlertCount : Type := {
  countCritical : nat;
  countWarning : nat;
  countInfo : nat;
  countTotal : nat;
}.

Record CacheInfo : Type := {
  cachedAt : Z;
  staleAfter : Z;
}.

(** The object [result]; the spread [...alerts] contributes the four
    fields of [alerts]. *)
Record Report : Type := {
  alerts : AlertLists;
  alertCount : AlertCount;
  systemHealthScore : HealthScore;
  nextStepsToCheck : list string;
  actionableSummary : string;
  cacheInfo : CacheInfo;
}.

(** *** calculateHealthScore *)

(** [Math.round(x * 100) / 100] on an integer. *)
Definition round2 (x : Z) : Z := (x * 100) / 100.

Definition calculateHealthScore (a : AlertLists) : HealthScore :=
  let criticalPenalty := Z.of_nat (List.length (critical a)) * 15 in
  let warningPenalty := Z.of_nat (List.length (warning a)) * 5 in
  let score := Z.max 0 (100 - criticalPenalty - warningPenalty) in
  {| score := round2 score;
     status :=
       if 80 <=? score then "Good"
       else if 60 <=? score then "Fair"
       else if 40 <=? score then "Poor"
       else "Critical" |}.

(** *** buildNextSteps *)

Definition buildNextSteps (a : AlertLists) (cpuUsage : number)
    (memUsage : MemUsage) (diskUsage : DiskUsage) : list string :=
  let nextSteps := [] in
  let nextSteps :=
    if gt cpuUsage (int 80) || gt (usagePercent memUsage) (int 85)
    then (nextSteps ++ ["get_performance_stats"])%list else nextSteps in
  let nextSteps :=
    if lt (toNumber (percentFree diskUsage)) (int 20)
    then (nextSteps ++ ["get_system_health"])%list else nextSteps in
  let nextSteps :=
    if existsb (includes "Defender") (critical a)
    then (nextSteps ++ ["get_system_health"])%list else nextSteps in
  slice0 2 nextSteps.

(** *** generateSummary *)

Definition generateSummary (a : AlertLists) (nextSteps : list string)
  : string :=
  let healthScore := calculateHealthScore a in
  if (0 <? List.length (critical a))%nat then
    let criticalIssues := join "; " (slice0 2 (critical a)) in
    "🔴 CRITICAL: " ++ criticalIssues ++ ". Run: " ++
    orElse (join ", " nextSteps) "get_performance_stats"
  else if (0 <? List.length (warning a))%nat then
    let warningIssues := join "; " (slice0 2 (warning a)) in
    "🟡 WARNING: " ++ warningIssues ++ ". Run: " ++
    orElse (join ", " nextSteps) "investigate further"
  else if (0 <? List.length (info a))%nat then
    "ℹ️ INFO: System health good overall. " ++
    orElse (hd "" (info a)) "No immediate action needed."
  else
    "✅ System healthy (score: " ++
    toString (int (score healthScore)) ++ "/100)".

(** *** The collectors guarded by try/catch *)

Section Collectors.

(** The host's [parseFloat], read as a number of the model. *)
Variable parseFloat : string -> number.

(** [getDiskQuickCheck]; the argument is the outcome of its one
    PowerShell call. *)
Definition getDiskQuickCheck (volume : exec_result) : DiskUsage :=
  match volume with
  | Resolved stdout =>
      let percentFree := parseFloat (trim stdout) in
      {| percentFree := if isNaN percentFree then NA else Val percentFree;
         diskWarning := lt percentFree (int 20);
         diskCritical := lt percentFree (int 5) |}
  | Rejected | Thrown =>
      {| percentFree := NA; diskWarning := false; diskCritical := false |}
  end.

End Collectors.

(** [execPromise(...).catch(() => ({ stdout: "" }))]: a rejection is
    replaced by an empty output; a call that throws has no promise to
    attach the handler to. *)
Definition caught (r : exec_result) : option string :=
  match r with
  | Resolved stdout => Some stdout
  | Rejected => Some ""
  | Thrown => None
  end.

(** [getSecurityQuickCheck]; the arguments are the outcomes of the
    Defender and of the firewall PowerShell calls.  The outer [catch] is
    reached only when one of the two calls throws. *)
Definition getSecurityQuickCheck (defender firewall : exec_result)
  : SecurityStatus :=
  match caught defender, caught firewall with
  | Some defenderStdout, Some firewallStdout =>
      let defenderDisabled := String.eqb (trim defenderStdout) "True" in
      let firewallEnabledProfiles :=
        parseInt (orElse (trim firewallStdout) "0") in
      {| defenderDisabled := defenderDisabled;
         firewallDisabled := strictEq firewallEnabledProfiles (int 0) |}
  | _, _ =>
      {| defenderDisabled := false; firewallDisabled := false |}
  end.

(** *** getHealthAlerts *)

(** What the four quick collectors hand to [getHealthAlerts]: the array
    awaited from [Promise.all]. *)
Record Readings : Type := {
  cpuUsage : number;
  memUsage : MemUsage;
  diskUsage : DiskUsage;
  securityStatus : SecurityStatus;
}.

(** The four collectors side by side: [getCPUQuick] and [getMemoryQuick]
    read the operating system directly and are taken by their results; the
    other two by the outcomes of their PowerShell calls. *)
Definition collect (parseFloat : string -> number) (cpu : number)
    (mem : MemUsage) (volume defender firewall : exec_result) : Readings :=
  {| cpuUsage := cpu;
     memUsage := mem;
     diskUsage := getDiskQuickCheck parseFloat volume;
     securityStatus := getSecurityQuickCheck defender firewall |}.

(** What one invocation reads from its environment: [Date.now()], the
    [new Date()] of [alerts.timestamp], the collectors' results and the
    [new Date()] of [cacheInfo.cachedAt]. *)
Record Invocation : Type := {
  now : Z;
  stamp : Z;
  readings : Readings;
  cachedStamp : Z;
}.

(** The module-level variables [alertCache] and [cacheTimestamp]. *)
Record Cache : Type := {
  alertCache : option Report;
  cacheTimestamp : Z;
}.

Definition initialCache : Cache :=
  {| alertCache := None; cacheTimestamp := 0 |}.

Definition cpuAlerts (cpuUsage : number) (a : AlertLists) : AlertLists :=
  if gt cpuUsage (int 90) then
    pushCritical ("⚠️ CPU critically high: " ++ toString cpuUsage ++ "%") a
  else if gt cpuUsage (int 80) then
    pushWarning ("CPU elevated: " ++ toString cpuUsage ++ "%") a
  else a.

Definition memoryAlerts (memUsage : MemUsage) (a : AlertLists)
  : AlertLists :=
  if gt (usagePercent memUsage) (int 90) then
    pushCritical ("⚠️ Memory critically high: " ++
                  toString (usagePercent memUsage) ++ "%") a
  else if gt (usagePercent memUsage) (int 85) then
    pushWarning ("Memory elevated: " ++
                 toString (usagePercent memUsage) ++ "%") a
  else a.

Definition diskAlerts (diskUsage : DiskUsage) (a : AlertLists)
  : AlertLists :=
  if lt (toNumber (percentFree diskUsage)) (int 5) then
    pushCritical ("⚠️ Disk space critical: " ++
                  vtoString (percentFree diskUsage) ++ "% free") a
  else if lt (toNumber (percentFree diskUsage)) (int 20) then
    pushWarning ("Low disk space: " ++
                 vtoString (percentFree diskUsage) ++ "% free") a
  else a.

Definition securityAlerts (securityStatus : SecurityStatus)
    (a : AlertLists) : AlertLists :=
  let a :=
    if defenderDisabled securityStatus
    then pushCritical "⚠️ Windows Defender is disabled" a else a in
  if firewallDisabled securityStatus
  then pushCritical "⚠️ Windows Firewall is disabled" a else a.

(** The alert lists after the four groups of checks, in source order. *)
Definition classify (stamp : Z) (r : Readings) : AlertLists :=
  let a := {| timestamp := stamp; critical := []; warning := [];
              info := [] |} in
  let a := cpuAlerts (cpuUsage r) a in
  let a := memoryAlerts (memUsage r) a in
  let a := diskAlerts (diskUsage r) a in
  securityAlerts (securityStatus r) a.

(** The body of [getHealthAlerts] past the cache test: the object
    [result]. *)
Definition freshReport (i : Invocation) : Report :=
  let r := readings i in
  let a := classify (stamp i) r in
  let nextStepsToCheck :=
    buildNextSteps a (cpuUsage r) (memUsage r) (diskUsage r) in
  let actionableSummary := generateSummary a nextStepsToCheck in
  {| alerts := a;
     alertCount :=
       {| countCritical := List.length (critical a);
          countWarning := List.length (warning a);
          countInfo := List.length (info a);
          countTotal := (List.length (critical a) + List.length (warning a)
                         + List.length (info a))%nat |};
     systemHealthScore := calculateHealthScore a;
     nextStepsToCheck := nextStepsToCheck;
     actionableSummary := actionableSummary;
     cacheInfo := {| cachedAt := cachedStamp i; staleAfter := CACHE_TTL |} |}.

(** [getHealthAlerts]: the returned report and the cache afterwards. *)
Definition getHealthAlerts (c : Cache) (i : Invocation) : Report * Cache :=
  match alertCache c with
  | Some cached =>
      if now i - cacheTimestamp c <? CACHE_TTL then (cached, c)
      else
        let result := freshReport i in
        (result, {| alertCache := Some result; cacheTimestamp := now i |})
  | None =>
      let result := freshReport i in
      (result, {| alertCache := Some result; cacheTimestamp := now i |})
  end.

(** A session: the reports of successive invocations, threading the
    cache.  Invocations are taken one after the other: none starts while
    another still awaits its collectors. *)
Fixpoint run (c : Cache) (calls : list Invocation) : list Report * Cache :=
  match calls with
  | [] => ([], c)
  | i :: rest =>
      let '(r, c1) := getHealthAlerts c i in
      let '(rs, c2) := run c1 rest in
      (r :: rs, c2)
  end.

End Alerts.

(** ** The thermal probe: [src/system/thermal.js] *)

Module Thermal.

Import Js.

(** [const CACHE_TTL = 10000], in milliseconds. *)
Definition CACHE_TTL : Z := 10000.

(** Result of [checkThermalThrottling]: a boolean or ["Unknown"]. *)
Inductive throttle : Type :=
| Known (b : bool)
| Unknown.

Definition isTrue (t : throttle) : bool :=
  match t with Known true => true | _ => false end.

(** Result of [getFanSpeeds]. *)
Record Fans : Type := {
  available : bool;
  note : string;
}.

Record Temperature : Type := {
  temperatureCelsius : value;
  unit : string;
}.

Record CacheInfo : Type := {
  cachedAt : Z;
  staleAfter : Z;
}.

Record Report : Type := {
  timestamp : Z;
  severity : string;
  cpu : Temperature;
  gpu : Temperature;
  thermalThrottling : throttle;
  fans : Fans;
  actionableSummary : string;
  recommendations : list string;
  nextStepsToCheck : list string;
  cacheInfo : CacheInfo;
}.

(** What one invocation reads: [Date.now()], the four collectors'
    results, and the two [new Date()] of the result. *)
Record Invocation : Type := {
  now : Z;
  cpuTemp : value;
  gpuTemp : value;
  throttling : throttle;
  fanSpeeds : Fans;
  stamp : Z;
  cachedStamp : Z;
}.

(** The module-level variables [thermalCache] and [cacheTimestamp]. *)
Record Cache : Type := {
  thermalCache : option Report;
  cacheTimestamp : Z;
}.

Definition initialCache : Cache :=
  {| thermalCache := None; cacheTimestamp := 0 |}.

(** Severity, recommendations and next steps: the if/else chain. *)
Definition assess (cpuTemp gpuTemp : value) (throttling : throttle)
  : string * list string * list string :=
  if isNumber cpuTemp && gt (toNumber cpuTemp) (int 95) then
    ("critical",
     ["CPU temperature critical - shut down unnecessary applications immediately";
      "Ensure proper ventilation and check for dust buildup"],
     ["get_performance_stats"])
  else if isTrue throttling then
    ("critical",
     ["Thermal throttling detected - performance is being reduced to prevent overheating";
      "Close resource-intensive applications and improve cooling"],
     ["get_performance_stats"])
  else if isNumber cpuTemp && gt (toNumber cpuTemp) (int 85) then
    ("warning",
     ["CPU temperature elevated at " ++ vtoString cpuTemp ++
      "°C - monitor closely";
      "Consider improving airflow or reducing workload"],
     [])
  else if isNumber gpuTemp && gt (toNumber gpuTemp) (int 85) then
    ("warning",
     ["GPU temperature elevated at " ++ vtoString gpuTemp ++ "°C";
      "Close GPU-intensive applications if temperature persists"],
     [])
  else if isNumber cpuTemp && le (toNumber cpuTemp) (int 85) then
    ("info", ["Thermal status normal"], [])
  else
    ("info",
     ["Temperature monitoring unavailable - requires WMI access or hardware sensors";
      "Run PowerShell as Administrator for temperature data"],
     []).

Definition summary (cpuTemp gpuTemp : value) (throttling : throttle)
  : string :=
  if isNumber cpuTemp then
    let s := "CPU: " ++ vtoString cpuTemp ++ "°C" in
    let s :=
      if isNumber gpuTemp
      then s ++ ", GPU: " ++ vtoString gpuTemp ++ "°C" else s in
    if isTrue throttling then s ++ " ⚠️ THROTTLING" else s
  else
    "Temperature data unavailable (requires elevated privileges or hardware sensors)".

(** The object [result] of a fresh computation. *)
Definition freshReport (i : Invocation) : Report :=
  let '(severity, recommendations, nextStepsToCheck) :=
    assess (cpuTemp i) (gpuTemp i) (throttling i) in
  {| timestamp := stamp i;
     severity := severity;
     cpu := {| temperatureCelsius := cpuTemp i;
               unit := if isNumber (cpuTemp i) then "°C" else "N/A" |};
     gpu := {| temperatureCelsius := gpuTemp i;
               unit := if isNumber (gpuTemp i) then "°C" else "N/A" |};
     thermalThrottling := throttling i;
     fans := fanSpeeds i;
     actionableSummary := summary (cpuTemp i) (gpuTemp i) (throttling i);
     recommendations := recommendations;
     nextStepsToCheck := nextStepsToCheck;
     cacheInfo := {| cachedAt := cachedStamp i; staleAfter := CACHE_TTL |} |}.

(** [getThermalStatus]: the returned report and the cache afterwards. *)
Definition getThermalStatus (c : Cache) (i : Invocation) : Report * Cache :=
  match thermalCache c with
  | Some cached =>
      if now i - cacheTimestamp c <? CACHE_TTL then (cached, c)
      else
        let result := freshReport i in
        (result, {| thermalCache := Some result; cacheTimestamp := now i |})
  | None =>
      let result := freshReport i in
      (result, {| thermalCache := Some result; cacheTimestamp := now i |})
  end.

End Thermal.

(** ** The network probe: [src/system/network.js] *)

Module Network.

Import Js.

(** [const CONNECTIVITY_CACHE_TTL = 30000], in milliseconds. *)
Definition CONNECTIVITY_CACHE_TTL : Z := 30000.

(** One entry of [getNetworkInterfaces]. *)
Record Interface : Type := {
  name : string;
  ipv4 : string;
  ipv6 : string;
  mac : string;
}.

(** Result of [checkInternetConnectivity]; [error] and [fromCache] are
    absent ([None]) unless the code sets them. *)
Record Connectivity : Type := {
  connected : bool;
  checkedServer : string;
  error : option string;
  fromCache : option bool;
}.

(** Result of [getConnectedDevices]. *)
Record Devices : Type := {
  usbDevices : value;
  bluetoothDevices : value;
  totalConnectedDevices : value;
  method : option string;
  deviceNote : option string;
  deviceError : option string;
}.

Record Report : Type := {
  timestamp : Z;
  severity : string;
  interfaces : list Interface;
  internetConnectivity : Connectivity;
  connectedDevices : Devices;
  actionableSummary : string;
  recommendations : list string;
  nextStepsToCheck : list string;
}.

(** The module-level variables [connectivityCache] and
    [connectivityTimestamp]. *)
Record Cache : Type := {
  connectivityCache : option Connectivity;
  connectivityTimestamp : Z;
}.

Definition initialCache : Cache :=
  {| connectivityCache := None; connectivityTimestamp := 0 |}.

(** The ping of a cache miss: the [try] and the [catch] branch. *)
Definition pingResult (ping : exec_result) : Connectivity :=
  match ping with
  | Resolved stdout =>
      let isConnected := String.eqb (trim stdout) "True" in
      {| connected := isConnected;
         checkedServer := "8.8.8.8 (Google DNS)";
         error := None; fromCache := None |}
  | Rejected | Thrown =>
      {| connected := false;
         checkedServer := "8.8.8.8 (Google DNS)";
         error := Some "Unable to verify connectivity";
         fromCache := None |}
  end.

(** [checkInternetConnectivity]; [now] is its [Date.now()] and [ping]
    the outcome of the [Test-Connection] call, made on a miss only. *)
Definition checkInternetConnectivity (c : Cache) (now : Z)
    (ping : exec_result) : Connectivity * Cache :=
  match connectivityCache c with
  | Some cached =>
      if now - connectivityTimestamp c <? CONNECTIVITY_CACHE_TTL then
        ({| connected := connected cached;
            checkedServer := checkedServer cached;
            error := error cached;
            fromCache := Some true |}, c)
      else
        let result := pingResult ping in
        (result, {| connectivityCache := Some result;
                    connectivityTimestamp := now |})
  | None =>
      let result := pingResult ping in
      (result, {| connectivityCache := Some result;
                  connectivityTimestamp := now |})
  end.

(** What one invocation of [getNetworkStatus] reads. *)
Record Invocation : Type := {
  now : Z;
  netInterfaces : list Interface;
  ping : exec_result;
  devices : Devices;
  stamp : Z;
}.

Definition isNA (v : value) : bool :=
  match v with NA => true | Val _ => false end.

(** [v !== 1] for a field that holds a number or ["N/A"]. *)
Definition notOne (v : value) : bool :=
  match v with NA => true | Val n => negb (strictEq n (int 1)) end.

Definition plural (many : bool) : string := if many then "s" else "".

Definition assess (connectivity : Connectivity) (devices : Devices)
  : string * list string :=
  if negb (connected connectivity) then
    ("critical",
     ["No internet connectivity detected";
      "Check network cables, Wi-Fi connection, or router status";
      "Try: ipconfig /release && ipconfig /renew (run as Administrator)"])
  else if isNA (usbDevices devices) || isNA (bluetoothDevices devices) then
    ("warning",
     ["Device enumeration incomplete - requires elevated permissions";
      "Run PowerShell as Administrator for full device visibility"])
  else
    let connectedLine :=
      if gt (toNumber (usbDevices devices)) (int 0)
         || gt (toNumber (bluetoothDevices devices)) (int 0)
      then ["Connected devices: " ++
            vtoString (totalConnectedDevices devices) ++ " (" ++
            vtoString (usbDevices devices) ++ " USB, " ++
            vtoString (bluetoothDevices devices) ++ " Bluetooth)"]
      else [] in
    ("info", "Network status normal" :: connectedLine).

Definition summary (ifaces : list Interface) (connectivity : Connectivity)
    (devices : Devices) : string :=
  let activeInterfaces :=
    filter (fun i => negb (String.eqb (ipv4 i) "N/A")
                     || negb (String.eqb (ipv6 i) "N/A")) ifaces in
  let n := Z.of_nat (List.length activeInterfaces) in
  if connected connectivity then
    let s := "✅ Internet connected (" ++ toString (int n) ++
             " active interface" ++ plural (negb (n =? 1)) ++ ")" in
    if negb (isNA (totalConnectedDevices devices)) then
      s ++ ". " ++ vtoString (totalConnectedDevices devices) ++
      " device" ++ plural (notOne (totalConnectedDevices devices))
    else s
  else
    "❌ No internet connectivity - " ++ toString (int n) ++
    " interface" ++ plural (negb (n =? 1)) ++ " detected but unreachable".

(** [getNetworkStatus]: the returned report and the cache afterwards. *)
Definition getNetworkStatus (c : Cache) (i : Invocation) : Report * Cache :=
  let '(connectivity, c') := checkInternetConnectivity c (now i) (ping i) in
  let '(severity, recommendations) := assess connectivity (devices i) in
  ({| timestamp := stamp i;
      severity := severity;
      interfaces := netInterfaces i;
      internetConnectivity := connectivity;
      connectedDevices := devices i;
      actionableSummary := summary (netInterfaces i) connectivity (devices i);
      recommendations := recommendations;
      nextStepsToCheck := [] |}, c').

End Network.

(** ** Sample readings used by the examples below *)

Module Samples.

Import Alerts.

Definition memory (percent : Js.number) : MemUsage :=
  {| totalGB := Js.int 16; usedGB := Js.int 8; freeGB := Js.int 8;
     usagePercent := percent |}.

(** A disk reading as [getDiskQuickCheck] builds it from a parsed
    number. *)
Definition disk (free : Js.number) : DiskUsage :=
  {| percentFree := Js.Val free;
     diskWarning := Js.lt free (Js.int 20);
     diskCritical := Js.lt free (Js.int 5) |}.

Definition security (defenderOff firewallOff : bool) : SecurityStatus :=
  {| defenderDisabled := defenderOff; firewallDisabled := firewallOff |}.

(** An invocation at time [t] whose collectors answer after 60 ms. *)
Definition at_time (t : Z) (r : Readings) : Invocation :=
  {| now := t; stamp := t; readings := r; cachedStamp := t + 60 |}.

(** CPU 20%, memory 30%, 60% of the disk free, Defender and firewall
    on. *)
Definition nominal : Readings :=
  {| cpuUsage := Js.int 20; memUsage := memory (Js.int 30);
     diskUsage := disk (Js.int 60);
     securityStatus := security false false |}.

Definition withCpu (cpu : Js.number) : Readings :=
  {| cpuUsage := cpu; memUsage := memory (Js.int 30);
     diskUsage := disk (Js.int 60);
     securityStatus := security false false |}.

Definition withMemory (percent : Js.number) : Readings :=
  {| cpuUsage := Js.int 20; memUsage := memory percent;
     diskUsage := disk (Js.int 60);
     securityStatus := security false false |}.

(** Only the firewall is reported disabled. *)
Definition firewallOnly : Readings :=
  {| cpuUsage := Js.int 20; memUsage := memory (Js.int 30);
     diskUsage := disk (Js.int 60);
     securityStatus := security false true |}.

(** 10% of the disk free and Defender disabled, CPU and memory calm. *)
Definition lowDiskDefenderOff : Readings :=
  {| cpuUsage := Js.int 20; memUsage := memory (Js.int 30);
     diskUsage := disk (Js.int 10);
     securityStatus := security true false |}.

(** Everything over its critical threshold (scenario 3 of the
    specification). *)
Definition allCritical : Readings :=
  {| cpuUsage := Js.int 95; memUsage := memory (Js.int 95);
     diskUsage := disk (Js.int 2);
     securityStatus := security true true |}.

End Samples.

(** ** Sample invocations of the two probes *)

Module ProbeSamples.

Import Js.

(** A thermal invocation at time [t]: CPU at 58 degrees, no GPU sensor,
    no throttling; the collectors answer after 150 ms. *)
Definition thermalCall (t : Z) : Thermal.Invocation :=
  {| Thermal.now := t;
     Thermal.cpuTemp := Val (int 58);
     Thermal.gpuTemp := NA;
     Thermal.throttling := Thermal.Known false;
     Thermal.fanSpeeds :=
       {| Thermal.available := false;
          Thermal.note :=
            "Fan speed data not available through standard Windows APIs" |};
     Thermal.stamp := t + 150;
     Thermal.cachedStamp := t + 150 |}.

Definition wifi : Network.Interface :=
  {| Network.name := "Wi-Fi"; Network.ipv4 := "192.168.1.20";
     Network.ipv6 := "N/A"; Network.mac := "00:11:22:33:44:55" |}.

Definition fiveDevices : Network.Devices :=
  {| Network.usbDevices := Val (int 3);
     Network.bluetoothDevices := Val (int 2);
     Network.totalConnectedDevices := Val (int 5);
     Network.method := Some "Get-PnpDevice";
     Network.deviceNote := None;
     Network.deviceError := None |}.

(** A network invocation at time [t] whose report is stamped at [st]: one
    interface, a ping that succeeds, five devices. *)
Definition networkCall (t st : Z) : Network.Invocation :=
  {| Network.now := t;
     Network.netInterfaces := [wifi];
     Network.ping := Resolved "True";
     Network.devices := fiveDevices;
     Network.stamp := st |}.

End ProbeSamples.

(** ** Notions used to state the properties *)

Module Props.

Import Js Alerts.

(** The score as the specification words it, from the two counts. *)
Definition specScore (criticalCount warningCount : nat) : Z :=
  Z.max 0 (100 - 15 * Z.of_nat criticalCount - 5 * Z.of_nat warningCount).

(** Every character of [s] satisfies [p]. *)
Fixpoint allChars (p : ascii -> bool) (s : string) : bool :=
  match s with
  | EmptyString => true
  | String c rest => p c && allChars p rest
  end.

Definition notD (c : ascii) : bool := negb (Ascii.eqb c "D").

(** The three rules of [buildNextSteps], read on the readings. *)
Definition performanceRule (r : Readings) : bool :=
  gt (cpuUsage r) (int 80) || gt (usagePercent (memUsage r)) (int 85).

Definition diskRule (r : Readings) : bool :=
  lt (toNumber (percentFree (diskUsage r))) (int 20).

Definition defenderRule (r : Readings) : bool :=
  defenderDisabled (securityStatus r).

(** The probes of the rules that fire, in rule order, one entry per
    rule. *)
Definition firedRules (r : Readings) : list string :=
  ((if performanceRule r then ["get_performance_stats"] else []) ++
   (if diskRule r then ["get_system_health"] else []) ++
   (if defenderRule r then ["get_system_health"] else []))%list.

(** The summary as the specification words it: critical messages
    followed by the recommended probes; else the warnings first; else
    healthy with the score. *)
Definition SummaryAsSpecified (r : Report) : Prop :=
  (critical (alerts r) <> [] ->
   actionableSummary r =
   "🔴 CRITICAL: " ++ join "; " (firstn 2 (critical (alerts r))) ++
   ". Run: " ++ join ", " (nextStepsToCheck r)) /\
  (critical (alerts r) = [] -> warning (alerts r) <> [] ->
   exists tail,
     actionableSummary r =
     "🟡 WARNING: " ++ join "; " (firstn 2 (warning (alerts r))) ++ tail) /\
  (critical (alerts r) = [] -> warning (alerts r) = [] ->
   actionableSummary r =
   "✅ System healthy (score: " ++
   toString (int (score (systemHealthScore r))) ++ "/100)").

(** [alerts.timestamp] is read right after [Date.now()], with nothing
    awaited in between: it is not earlier, and less than the time-to-live
    later. *)
Definition promptStamp (i : Invocation) : Prop :=
  now i <= stamp i < now i + CACHE_TTL.

(** The cached report was stamped within the time-to-live of the instant
    recorded with it. *)
Definition stampedCache (c : Cache) : Prop :=
  forall r, alertCache c = Some r ->
    cacheTimestamp c <= timestamp (alerts r) < cacheTimestamp c + CACHE_TTL.

End Props.

(** ** More JavaScript operators *)

Module JsOps.

Import Js.

(** [a + b] on numbers. *)
Definition add (a b : number) : number :=
  match a, b with
  | Num x, Num y => Num (x + y)
  | _, _ => NaN
  end.

(** [a >= b] on numbers. *)
Definition ge (a b : number) : bool :=
  match a, b with
  | Num x, Num y => y <=? x
  | _, _ => false
  end.

(** [n || 0]: NaN and 0 are falsy. *)
Definition orZero (n : number) : number :=
  match n with
  | NaN => int 0
  | Num h => if h =? 0 then int 0 else Num h
  end.

(** A non-empty string is truthy. *)
Definition truthy (s : string) : bool := negb (String.eqb s "").

End JsOps.

(** ** The collectors of the thermal probe *)

Module ThermalCollectors.

Import Js JsOps Thermal.

(** [getGPUTemperature]; the argument is the outcome of the [nvidia-smi]
    call.  A rejection is replaced by [{ stdout: null }], and [null] like
    the empty output is falsy. *)
Definition getGPUTemperature (nvidia : exec_result) : value :=
  match nvidia with
  | Resolved nvidiaOutput =>
      if truthy nvidiaOutput then Val (parseInt (trim nvidiaOutput)) else NA
  | Rejected => NA
  | Thrown => NA
  end.

(** [checkThermalThrottling]. *)
Definition checkThermalThrottling (query : exec_result) : throttle :=
  match query with
  | Resolved stdout => Known (String.eqb (trim stdout) "True")
  | Rejected | Thrown => Unknown
  end.

(** [getFanSpeeds]. *)
Definition getFanSpeeds (query : exec_result) : Fans :=
  match query with
  | Resolved _ =>
      {| available := false;
         note := "Fan speed data not available through standard Windows APIs" |}
  | Rejected | Thrown =>
      {| available := false;
         note := "Unable to retrieve fan information" |}
  end.

(** One invocation of [getThermalStatus], from the result of
    [getCPUTemperature] and the outcomes of the three other queries. *)
Definition invocation (now : Z) (cpuTemp : value)
    (nvidia throttlingQuery fanQuery : exec_result) (stamp cachedStamp : Z)
  : Invocation :=
  {| Thermal.now := now;
     Thermal.cpuTemp := cpuTemp;
     Thermal.gpuTemp := getGPUTemperature nvidia;
     Thermal.throttling := checkThermalThrottling throttlingQuery;
     Thermal.fanSpeeds := getFanSpeeds fanQuery;
     Thermal.stamp := stamp;
     Thermal.cachedStamp := cachedStamp |}.

(** The reading is a number above [n]. *)
Definition above (v : value) (n : Z) : Prop :=
  exists h, v = Val (Num h) /\ n * 100 < h.

End ThermalCollectors.

(** ** The collectors of the network probe *)

Module NetworkCollectors.

Import Js JsOps Network.

(** One address of [os.networkInterfaces()]. *)
Record Address : Type := {
  family : string;
  address : string;
  addrMac : string;
}.

(** [addrs.find(a => a.family === f)]. *)
Definition findFamily (f : string) (addrs : list Address) : option Address :=
  find (fun a => String.eqb (family a) f) addrs.

(** [x?.address || "N/A"] and [x?.mac]: an absent address gives
    [undefined], which is falsy like the empty string. *)
Definition addressOf (a : option Address) : string :=
  match a with Some x => address x | None => "" end.

Definition macOf (a : option Address) : string :=
  match a with Some x => addrMac x | None => "" end.

(** [getNetworkInterfaces]; the argument lists the entries of
    [os.networkInterfaces()] in order. *)
Fixpoint getNetworkInterfaces (entries : list (string * list Address))
  : list Interface :=
  match entries with
  | [] => []
  | (name, addrs) :: rest =>
      let ipv4 := findFamily "IPv4" addrs in
      let ipv6 := findFamily "IPv6" addrs in
      match ipv4, ipv6 with
      | None, None => getNetworkInterfaces rest
      | _, _ =>
          {| Network.name := name;
             Network.ipv4 := orElse (addressOf ipv4) "N/A";
             Network.ipv6 := orElse (addressOf ipv6) "N/A";
             Network.mac := orElse (orElse (macOf ipv4) (macOf ipv6)) "N/A" |}
          :: getNetworkInterfaces rest
      end
  end.

(** [getPnpDeviceCount]: [None] stands for a rejected promise, either
    because a query failed or because both counts are zero. *)
Definition getPnpDeviceCount (usbQuery btQuery : exec_result)
  : option Devices :=
  match usbQuery with
  | Resolved usbOutput =>
      let usbCount := orZero (parseInt (trim usbOutput)) in
      match btQuery with
      | Resolved btOutput =>
          let btCount := orZero (parseInt (trim btOutput)) in
          if strictEq usbCount (int 0) && strictEq btCount (int 0) then None
          else Some {| usbDevices := Val usbCount;
                       bluetoothDevices := Val btCount;
                       totalConnectedDevices := Val (add usbCount btCount);
                       method := Some "Get-PnpDevice";
                       deviceNote := None;
                       deviceError := None |}
      | Rejected | Thrown => None
      end
  | Rejected | Thrown => None
  end.

(** [getWMIDeviceCount]. *)
Definition getWMIDeviceCount (usbQuery : exec_result) : option Devices :=
  match usbQuery with
  | Resolved usbOutput =>
      let usbCount := orZero (parseInt (trim usbOutput)) in
      Some {| usbDevices := Val usbCount;
              bluetoothDevices := NA;
              totalConnectedDevices := Val usbCount;
              method := Some "WMI (USB only)";
              deviceNote :=
                Some "Bluetooth device count requires elevated permissions";
              deviceError := None |}
  | Rejected | Thrown => None
  end.

(** [getConnectedDevices]: both methods carry [.catch(() => null)], so
    nothing is left for the outer [catch] to handle. *)
Definition getConnectedDevices (pnpUsb pnpBt wmiUsb : exec_result)
  : Devices :=
  match getPnpDeviceCount pnpUsb pnpBt with
  | Some pnpData => pnpData
  | None =>
      match getWMIDeviceCount wmiUsb with
      | Some wmiData => wmiData
      | None =>
          {| usbDevices := NA;
             bluetoothDevices := NA;
             totalConnectedDevices := NA;
             method := None;
             deviceNote :=
               Some "Device enumeration requires elevated permissions. Try running PowerShell as Administrator.";
             deviceError := None |}
      end
  end.

(** One invocation of [getNetworkStatus], from what the operating system
    lists and from the outcomes of the PowerShell queries. *)
Definition invocation (now : Z) (entries : list (string * list Address))
    (ping pnpUsb pnpBt wmiUsb : exec_result) (stamp : Z) : Invocation :=
  {| Network.now := now;
     Network.netInterfaces := getNetworkInterfaces entries;
     Network.ping := ping;
     Network.devices := getConnectedDevices pnpUsb pnpBt wmiUsb;
     Network.stamp := stamp |}.

(** An address as a network stack reports it: not empty, and not the
    placeholder text. *)
Definition realAddress (a : Address) : Prop :=
  address a <> "" /\ address a <> "N/A".

(** An entry as the operating system lists it: all its addresses are
    real. *)
Definition wellFormedEntry (e : string * list Address) : Prop :=
  Forall realAddress (snd e).

End NetworkCollectors.

(** ** The system probe: [src/system/systemHealth.js] *)

Module SystemHealth.

Import Js JsOps.

(** A field that holds a boolean or the string ["Unknown"]. *)
Inductive tri : Type :=
| Known (b : bool)
| Unknown.

(** [t === true] and [t === false]. *)
Definition isTrue (t : tri) : bool :=
  match t with Known true => true | _ => false end.

Definition isFalse (t : tri) : bool :=
  match t with Known false => true | _ => false end.

(** A field that holds a number or the string ["Unknown"]. *)
Inductive count : Type :=
| CountUnknown
| Count (n : number).

Record Defender : Type := {
  active : tri;
  realTimeMonitoring : tri;
  defenderError : option string;
}.

Record Firewall : Type := {
  firewallActive : tri;
  enabledProfiles : count;
  firewallError : option string;
}.

Record Updates : Type := {
  pending : tri;
  updateCount : value;
  updateNote : option string;
}.

Record SystemErrors : Type := {
  errors24h : value;
  errorsCritical : tri;
  errorsError : option string;
}.

Record Disk : Type := {
  percentFree : value;
  diskWarning : bool;
  diskCritical : bool;
  diskError : option string;
}.

(** [getDefenderStatus]. *)
Definition getDefenderStatus (query : exec_result) : Defender :=
  match query with
  | Resolved stdout =>
      let disabled := String.eqb (trim stdout) "True" in
      {| active := Known (negb disabled);
         realTimeMonitoring := Known (negb disabled);
         defenderError := None |}
  | Rejected | Thrown =>
      {| active := Unknown;
         realTimeMonitoring := Unknown;
         defenderError := Some "Unable to determine Defender status" |}
  end.

(** [getFirewallStatus]. *)
Definition getFirewallStatus (query : exec_result) : Firewall :=
  match query with
  | Resolved stdout =>
      let enabledProfiles := parseInt (trim stdout) in
      {| firewallActive := Known (gt enabledProfiles (int 0));
         enabledProfiles := Count enabledProfiles;
         firewallError := None |}
  | Rejected | Thrown =>
      {| firewallActive := Unknown;
         enabledProfiles := CountUnknown;
         firewallError := Some "Unable to determine Firewall status" |}
  end.

(** [getPendingUpdates]. *)
Definition getPendingUpdates (query : exec_result) : Updates :=
  match query with
  | Resolved stdout =>
      let pendingCount := orZero (parseInt (trim stdout)) in
      {| pending := Known (gt pendingCount (int 0));
         updateCount := Val pendingCount;
         updateNote := None |}
  | Rejected | Thrown =>
      {| pending := Unknown;
         updateCount := NA;
         updateNote := Some "Check Windows Update settings manually" |}
  end.

(** [getSystemErrors]. *)
Definition getSystemErrors (query : exec_result) : SystemErrors :=
  match query with
  | Resolved stdout =>
      let errorCount := orZero (parseInt (trim stdout)) in
      {| errors24h := Val errorCount;
         errorsCritical := Known (gt errorCount (int 10));
         errorsError := None |}
  | Rejected | Thrown =>
      {| errors24h := NA;
         errorsCritical := Unknown;
         errorsError := Some "Unable to retrieve system logs" |}
  end.

(** [getDiskHealth]; unlike [getDiskQuickCheck] it keeps a NaN reading. *)
Definition getDiskHealth (parseFloat : string -> number)
    (query : exec_result) : Disk :=
  match query with
  | Resolved stdout =>
      let percentFree := parseFloat (trim stdout) in
      {| percentFree := Val percentFree;
         diskWarning := lt percentFree (int 20);
         diskCritical := lt percentFree (int 5);
         diskError := None |}
  | Rejected | Thrown =>
      {| percentFree := NA;
         diskWarning := false;
         diskCritical := false;
         diskError := Some "Unable to retrieve disk information" |}
  end.

(** The local variables that [getSystemHealth] updates as it goes. *)
Record Findings : Type := {
  severity : string;
  recommendations : list string;
  nextStepsToCheck : list string;
  criticalIssues : list string;
  warnings : list string;
}.

(** [v !== 1] for a field that holds a number or ["N/A"]. *)
Definition notOne (v : value) : bool :=
  match v with NA => true | Val n => negb (strictEq n (int 1)) end.

Definition isNA (v : value) : bool :=
  match v with NA => true | Val _ => false end.

(** The four critical checks, in source order. *)
Definition criticalChecks (defender : Defender) (firewall : Firewall)
    (errors : SystemErrors) (disk : Disk) (f : Findings) : Findings :=
  let f :=
    if isFalse (active defender) then
      {| severity := "critical";
         recommendations :=
           (recommendations f ++
            ["⚠️ CRITICAL: Enable Windows Defender immediately";
             "Run: Set-MpPreference -DisableRealtimeMonitoring $false (as Administrator)"])%list;
         nextStepsToCheck := nextStepsToCheck f;
         criticalIssues :=
           (criticalIssues f ++ ["Windows Defender is disabled"])%list;
         warnings := warnings f |}
    else f in
  let f :=
    if isFalse (firewallActive firewall) then
      {| severity := "critical";
         recommendations :=
           (recommendations f ++
            ["⚠️ CRITICAL: Enable Windows Firewall";
             "Run: Set-NetFirewallProfile -Profile Domain,Public,Private -Enabled True"])%list;
         nextStepsToCheck := nextStepsToCheck f;
         criticalIssues :=
           (criticalIssues f ++ ["Windows Firewall is disabled"])%list;
         warnings := warnings f |}
    else f in
  let f :=
    if isNumber (percentFree disk)
       && lt (toNumber (percentFree disk)) (int 5) then
      {| severity := "critical";
         recommendations :=
           (recommendations f ++
            ["⚠️ CRITICAL: Free up disk space immediately";
             "Run Disk Cleanup (cleanmgr) or delete unnecessary files"])%list;
         nextStepsToCheck := nextStepsToCheck f;
         criticalIssues :=
           (criticalIssues f ++
            [("Disk space critical: " ++ vtoString (percentFree disk)
              ++ "% free")%string])%list;
         warnings := warnings f |}
    else f in
  if isNumber (errors24h errors)
     && gt (toNumber (errors24h errors)) (int 10) then
    {| severity := "critical";
       recommendations :=
         (recommendations f ++
          ["Review Event Viewer for system stability issues"])%list;
       nextStepsToCheck :=
         (nextStepsToCheck f ++ ["get_performance_stats"])%list;
       criticalIssues :=
         (criticalIssues f ++
          [("High system error count: " ++ vtoString (errors24h errors)
            ++ " in last 24h")%string])%list;
       warnings := warnings f |}
  else f.

(** The warnings, looked at only when nothing is critical. *)
Definition warningChecks (updates : Updates) (errors : SystemErrors)
    (disk : Disk) (f : Findings) : Findings :=
  if String.eqb (severity f) "critical" then f
  else
    let f :=
      if isNumber (percentFree disk)
         && ge (toNumber (percentFree disk)) (int 5)
         && lt (toNumber (percentFree disk)) (int 20) then
        {| severity := "warning";
           recommendations :=
             (recommendations f ++
              ["Consider freeing up disk space soon"])%list;
           nextStepsToCheck := nextStepsToCheck f;
           criticalIssues := criticalIssues f;
           warnings :=
             (warnings f ++
              [("Low disk space: " ++ vtoString (percentFree disk)
                ++ "% free")%string])%list |}
      else f in
    let f :=
      if isNumber (errors24h errors)
         && ge (toNumber (errors24h errors)) (int 5)
         && le (toNumber (errors24h errors)) (int 10) then
        {| severity := "warning";
           recommendations :=
             (recommendations f ++
              ["Monitor system logs for recurring issues"])%list;
           nextStepsToCheck := nextStepsToCheck f;
           criticalIssues := criticalIssues f;
           warnings :=
             (warnings f ++
              [("Moderate system errors: " ++ vtoString (errors24h errors)
                ++ " in last 24h")%string])%list |}
      else f in
    if isTrue (pending updates) && negb (isNA (updateCount updates)) then
      {| severity := severity f;
         recommendations :=
           (recommendations f ++
            ["Install pending Windows updates when convenient"])%list;
         nextStepsToCheck := nextStepsToCheck f;
         criticalIssues := criticalIssues f;
         warnings :=
           (warnings f ++
            [(vtoString (updateCount updates) ++ " Windows update" ++
              (if notOne (updateCount updates) then "s" else "") ++
              " pending")%string])%list |}
    else f.

(** The reassurances of the normal state. *)
Definition infoChecks (defender : Defender) (firewall : Firewall)
    (disk : Disk) (f : Findings) : Findings :=
  if String.eqb (severity f) "info" then
    let recs :=
      (recommendations f ++ ["System security and stability look good"])%list in
    let recs :=
      if isTrue (active defender)
      then (recs ++ ["✅ Windows Defender active"])%list else recs in
    let recs :=
      if isTrue (firewallActive firewall)
      then (recs ++ ["✅ Windows Firewall active"])%list else recs in
    let recs :=
      if isNumber (percentFree disk)
         && ge (toNumber (percentFree disk)) (int 20)
      then (recs ++ [("✅ Disk space healthy (" ++
                      vtoString (percentFree disk) ++ "% free)")%string])%list
      else recs in
    {| severity := severity f;
       recommendations := recs;
       nextStepsToCheck := nextStepsToCheck f;
       criticalIssues := criticalIssues f;
       warnings := warnings f |}
  else f.

Definition buildSummary (defender : Defender) (firewall : Firewall)
    (disk : Disk) (f : Findings) : string :=
  if (0 <? List.length (criticalIssues f))%nat then
    "🔴 CRITICAL: " ++ join "; " (criticalIssues f)
  else if (0 <? List.length (warnings f))%nat then
    "🟡 " ++ join "; " (warnings f)
  else
    let goodItems := [] in
    let goodItems :=
      if isTrue (active defender)
      then (goodItems ++ ["Defender"])%list else goodItems in
    let goodItems :=
      if isTrue (firewallActive firewall)
      then (goodItems ++ ["Firewall"])%list else goodItems in
    let s := "✅ System healthy (" ++ join ", " goodItems ++ " active" in
    let s :=
      if isNumber (percentFree disk)
      then s ++ ", " ++ vtoString (percentFree disk) ++ "% disk free"
      else s in
    s ++ ")".

Record Report : Type := {
  timestamp : Z;
  reportSeverity : string;
  antivirus : Defender;
  firewall : Firewall;
  updates : Updates;
  systemLogs : SystemErrors;
  disk : Disk;
  actionableSummary : string;
  reportRecommendations : list string;
  reportNextSteps : list string;
}.

(** The findings of [getSystemHealth] once all checks have run. *)
Definition findings (defender : Defender) (firewall : Firewall)
    (updates : Updates) (errors : SystemErrors) (disk : Disk) : Findings :=
  let f := {| severity := "info"; recommendations := [];
              nextStepsToCheck := []; criticalIssues := [];
              warnings := [] |} in
  let f := criticalChecks defender firewall errors disk f in
  let f := warningChecks updates errors disk f in
  infoChecks defender firewall disk f.

(** [getSystemHealth], from the results of its five collectors and the
    [new Date()] of its time stamp.  [systemLogs] keeps [errors24h] and
    [critical] only. *)
Definition getSystemHealth (defender : Defender) (firewall : Firewall)
    (updates : Updates) (errors : SystemErrors) (disk : Disk) (stamp : Z)
  : Report :=
  let f := findings defender firewall updates errors disk in
  {| timestamp := stamp;
     reportSeverity := severity f;
     antivirus := defender;
     firewall := firewall;
     updates := updates;
     systemLogs := {| errors24h := errors24h errors;
                      errorsCritical := errorsCritical errors;
                      errorsError := None |};
     disk := disk;
     actionableSummary := buildSummary defender firewall disk f;
     reportRecommendations := recommendations f;
     reportNextSteps := nextStepsToCheck f |}.

(** [getSystemHealth] on the outcomes of its five PowerShell queries. *)
Definition probe (parseFloat : string -> number)
    (defenderQuery firewallQuery updatesQuery errorsQuery diskQuery
       : exec_result) (stamp : Z) : Report :=
  getSystemHealth (getDefenderStatus defenderQuery)
                  (getFirewallStatus firewallQuery)
                  (getPendingUpdates updatesQuery)
                  (getSystemErrors errorsQuery)
                  (getDiskHealth parseFloat diskQuery) stamp.

End SystemHealth.

(** ** Notions used to state the properties of the system probe *)

Module SystemHealthProps.

Import Js JsOps SystemHealth.

(** The reading is a number below [n]. *)
Definition below (v : value) (n : Z) : Prop :=
  exists h, v = Val (Num h) /\ h < n * 100.

(** The reading is a number from [a] up to, but not including, [b]. *)
Definition fromTo (v : value) (a b : Z) : Prop :=
  exists h, v = Val (Num h) /\ a * 100 <= h < b * 100.

(** The reading is a number from [a] up to and including [b]. *)
Definition fromUpTo (v : value) (a b : Z) : Prop :=
  exists h, v = Val (Num h) /\ a * 100 <= h <= b * 100.

(** One of the four critical conditions of [getSystemHealth] holds. *)
Definition criticalCondition (defender : Defender) (firewall : Firewall)
    (errors : SystemErrors) (disk : Disk) : Prop :=
  active defender = Known false \/
  firewallActive firewall = Known false \/
  below (percentFree disk) 5 \/
  ThermalCollectors.above (errors24h errors) 10.

(** One of the two conditions that make a warning holds. *)
Definition warningCondition (errors : SystemErrors) (disk : Disk) : Prop :=
  fromTo (percentFree disk) 5 20 \/ fromUpTo (errors24h errors) 5 10.

End SystemHealthProps.

(** ** The performance probe: [src/system/performance.js] *)

Module Performance.

Import Js JsOps.

(** One process of the JSON printed by [Get-Process]: a name and two
    numbers rounded to two decimals. *)
Record Process : Type := {
  Name : string;
  CPU : number;
  MemoryMB : number;
}.

(** What [getTopProcesses] gets from its query: the parsed JSON, an array
    of processes or a single process, or a failure of the query or of
    [JSON.parse]. *)
Inductive processes_result : Type :=
| ParsedArray (ps : list Process)
| ParsedOne (p : Process)
| Failed.

(** [getTopProcesses]. *)
Definition getTopProcesses (r : processes_result) : list Process :=
  match r with
  | ParsedArray ps => ps
  | ParsedOne p => [p]
  | Failed => []
  end.

(** Result of [getDiskIOStats]. *)
Record DiskIO : Type := {
  readMBps : value;
  writeMBps : value;
  ioError : option string;
}.

(** The [options] argument, with its defaults filled in. *)
Record Options : Type := {
  includeProcesses : bool;
  processLimit : Z;
}.

Definition defaultOptions : Options :=
  {| includeProcesses := true; processLimit := 5 |}.

(** [xs.slice(0, n)] for any integer [n]: a negative [n] counts from the
    end. *)
Definition sliceTo {A} (n : Z) (xs : list A) : list A :=
  if n <? 0
  then firstn (Z.to_nat (Z.max 0 (Z.of_nat (List.length xs) + n))) xs
  else firstn (Z.to_nat n) xs.

(** The field [topProcesses]: a list, or the text that says it was
    skipped. *)
Inductive top_processes : Type :=
| Listed (ps : list Process)
| Skipped (text : string).

Record Cpu : Type := {
  cpuUsagePercent : number;
  coreCount : Z;
}.

Record Report : Type := {
  timestamp : Z;
  severity : string;
  cpu : Cpu;
  memory : Alerts.MemUsage;
  diskIO : DiskIO;
  actionableSummary : string;
  recommendations : list string;
  nextStepsToCheck : list string;
  topProcesses : top_processes;
}.

(** [getPerformanceStats(options)], from the results of [getCPUUsage],
    [getMemoryBreakdown] and [getDiskIOStats], the outcome of the process
    query (looked at only when processes are asked for), the number of
    cores and the [new Date()] of the time stamp. *)
Definition getPerformanceStats (options : Options) (cpuUsage : number)
    (memory : Alerts.MemUsage) (diskIO : DiskIO)
    (processQuery : processes_result) (cores : Z) (stamp : Z) : Report :=
  let topProcesses :=
    if includeProcesses options then getTopProcesses processQuery else [] in
  let severity :=
    if gt cpuUsage (int 90) || gt (Alerts.usagePercent memory) (int 90)
    then "critical"
    else if gt cpuUsage (int 80) || gt (Alerts.usagePercent memory) (int 85)
         then "warning"
         else "info" in
  let actionableSummary :=
    "CPU: " ++ toString cpuUsage ++ "%, Memory: " ++
    toString (Alerts.usagePercent memory) ++ "%" in
  let actionableSummary :=
    if includeProcesses options && (0 <? List.length topProcesses)%nat then
      match topProcesses with
      | topProcess :: _ =>
          actionableSummary ++ ". Top process: " ++ Name topProcess ++ " (" ++
          toString (CPU topProcess) ++ "% CPU, " ++
          toString (MemoryMB topProcess) ++ "MB)"
      | [] => actionableSummary
      end
    else actionableSummary in
  let recommendations := [] in
  let recommendations :=
    if gt cpuUsage (int 80)
    then (recommendations ++
          ["Check top processes for CPU-intensive tasks"])%list
    else recommendations in
  let recommendations :=
    if gt (Alerts.usagePercent memory) (int 85)
    then (recommendations ++
          ["Close unused applications to free memory"])%list
    else recommendations in
  let recommendations :=
    if gt (toNumber (readMBps diskIO)) (int 100)
    then (recommendations ++
          ["Disk I/O is high - heavy file operations in progress"])%list
    else recommendations in
  {| timestamp := stamp;
     severity := severity;
     cpu := {| cpuUsagePercent := cpuUsage; coreCount := cores |};
     memory := memory;
     diskIO := diskIO;
     actionableSummary := actionableSummary;
     recommendations := recommendations;
     nextStepsToCheck :=
       if String.eqb severity "critical" then ["get_thermal_status"] else [];
     topProcesses :=
       if includeProcesses options
       then Listed (sliceTo (processLimit options) topProcesses)
       else Skipped "Skipped (set includeProcesses: true to enumerate)" |}.

End Performance.

(** ** The uptime of the legacy report: [src/system/health.js] *)

Module Health.

Import Js.

(** [os.uptime()] is a double that carries a fraction of a second, 920.14
    for instance; it is taken as the rational number it denotes. *)
Record Uptime : Type := {
  uptimeSeconds : Q;
  formatted : string;
}.

(** Rounding towards zero, and [%] on numbers: the remainder has the sign
    of the dividend, [a % b = a - b * trunc (a / b)]. *)
Definition trunc (q : Q) : Z := Z.quot (Qnum q) (Zpos (Qden q)).

Definition rem (a b : Q) : Q := (a - inject_Z (trunc (a / b)) * b)%Q.

(** The four numbers that [getUptime] prints, each the [Math.floor]
    ([Qfloor]) of a quotient or of a remainder. *)
Definition days (uptimeSeconds : Q) : Z :=
  Qfloor (uptimeSeconds / inject_Z (24 * 3600)).

Definition hours (uptimeSeconds : Q) : Z :=
  Qfloor (rem uptimeSeconds (inject_Z (24 * 3600)) / inject_Z 3600).

Definition minutes (uptimeSeconds : Q) : Z :=
  Qfloor (rem uptimeSeconds (inject_Z 3600) / inject_Z 60).

Definition seconds (uptimeSeconds : Q) : Z :=
  Qfloor (rem uptimeSeconds (inject_Z 60)).

(** [getUptime]. *)
Definition getUptime (uptimeSeconds : Q) : Uptime :=
  {| uptimeSeconds := uptimeSeconds;
     formatted :=
       toString (int (days uptimeSeconds)) ++ "d " ++
       toString (int (hours uptimeSeconds)) ++ "h " ++
       toString (int (minutes uptimeSeconds)) ++ "m " ++
       toString (int (seconds uptimeSeconds)) ++ "s" |}.

End Health.

(** ** The battery probe: [src/system/battery.js] *)

Module Battery.

Import Js JsOps.

(** The object that [JSON.parse] yields for one [Win32_Battery]; a field
    that is [null] or missing is [None]. *)
Record BatteryJson : Type := {
  EstimatedChargeRemaining : option number;
  BatteryStatus : option Z;
  Chemistry : option number;
}.

(** What [getBatteryBasic] gets from its query: one battery object, or
    anything else (a failed query, text that is not JSON, a falsy value or
    a value without the fields, such as an array). *)
Inductive basic_query : Type :=
| BatteryObject (b : BatteryJson)
| NoBatteryObject.

(** The field [chemistry]: a number, ["Unknown"] or ["N/A"]. *)
Inductive chemistry_value : Type :=
| Chem (n : number)
| ChemUnknown
| ChemNA.

Record Basic : Type := {
  basicCharge : number;
  basicStatus : string;
  basicChemistry : chemistry_value;
}.

(** [statusMap[code] || "Unknown"]. *)
Definition statusMap (code : option Z) : string :=
  match code with
  | Some 1 => "Discharging"
  | Some 2 => "AC Power"
  | Some 3 => "Fully Charged"
  | Some 4 => "Low"
  | Some 5 => "Critical"
  | _ => "Unknown"
  end.

(** [battery.Chemistry || "Unknown"]: 0 and NaN are falsy. *)
Definition chemistryOf (c : option number) : chemistry_value :=
  match c with
  | Some (Num h) => if h =? 0 then ChemUnknown else Chem (Num h)
  | Some NaN => ChemUnknown
  | None => ChemUnknown
  end.

(** [getBatteryBasic]: [None] stands for a rejected promise. *)
Definition getBatteryBasic (q : basic_query) : option Basic :=
  match q with
  | BatteryObject battery =>
      match EstimatedChargeRemaining battery with
      | None => None
      | Some charge =>
          Some {| basicCharge := charge;
                  basicStatus := statusMap (BatteryStatus battery);
                  basicChemistry := chemistryOf (Chemistry battery) |}
      end
  | NoBatteryObject => None
  end.

(** [checkBatteryExists]: a query that fails is taken as a battery. *)
Definition checkBatteryExists (query : exec_result) : bool :=
  match query with
  | Resolved stdout => gt (parseInt (trim stdout)) (int 0)
  | Rejected | Thrown => true
  end.

(** [getPowerPlanOnly().catch(() => "Unknown")]. *)
Definition powerPlanOrUnknown (query : exec_result) : string :=
  match query with
  | Resolved stdout => orElse (trim stdout) "Unknown"
  | Rejected | Thrown => "Unknown"
  end.

(** [getACStatus().catch(() => "Unknown")]. *)
Definition acStatusOrUnknown (query : exec_result) : string :=
  match query with
  | Resolved stdout =>
      let acConnected :=
        negb (String.eqb (trim stdout) "")
        && negb (String.eqb (trim stdout) "0") in
      if acConnected then "AC Power" else "Discharging"
  | Rejected | Thrown => "Unknown"
  end.

Record Report : Type := {
  timestamp : Z;
  chargePercent : value;
  status : string;
  healthPercent : string;
  powerPlan : string;
  chemistry : chemistry_value;
  note : option string;
  method : string;
  severity : string;
  actionableSummary : string;
  recommendations : list string;
  nextStepsToCheck : list string;
}.

(** [getBatteryStatus], from the [new Date()] of its time stamp and the
    outcomes of its four queries.  Every awaited call carries its own
    handler, so the outer [catch] has nothing to handle. *)
Definition getBatteryStatus (stamp : Z) (countQuery planQuery : exec_result)
    (basicQuery : basic_query) (acQuery : exec_result) : Report :=
  let hasBattery := checkBatteryExists countQuery in
  let powerPlan := powerPlanOrUnknown planQuery in
  if negb hasBattery then
    {| timestamp := stamp;
       chargePercent := NA;
       status := "Desktop System";
       healthPercent := "N/A";
       powerPlan := powerPlan;
       chemistry := ChemNA;
       note := Some "No battery detected. Desktop system or battery unavailable.";
       method := "No Battery";
       severity := "info";
       actionableSummary := "Desktop system without battery. This is normal.";
       recommendations :=
         ["No action needed - battery data not applicable to desktop systems"];
       nextStepsToCheck := [] |}
  else
    match getBatteryBasic basicQuery with
    | Some basicBattery =>
        let severity :=
          if lt (basicCharge basicBattery) (int 25) then "warning"
          else "info" in
        {| timestamp := stamp;
           chargePercent := Val (basicCharge basicBattery);
           status := basicStatus basicBattery;
           healthPercent :=
             "Unavailable via standard permissions (requires OEM telemetry or battery report)";
           powerPlan := powerPlan;
           chemistry := basicChemistry basicBattery;
           note := None;
           method := "WMI Basic";
           severity := severity;
           actionableSummary :=
             "Battery: " ++ toString (basicCharge basicBattery) ++ "% (" ++
             basicStatus basicBattery ++ ")";
           recommendations :=
             if lt (basicCharge basicBattery) (int 25)
             then ["Consider connecting to power soon"]
             else ["Battery status normal"];
           nextStepsToCheck := [] |}
    | None =>
        let acStatus := acStatusOrUnknown acQuery in
        {| timestamp := stamp;
           chargePercent := NA;
           status := acStatus;
           healthPercent := "N/A";
           powerPlan := powerPlan;
           chemistry := ChemNA;
           note := Some "Limited battery data available. System may restrict battery telemetry.";
           method := "Fallback";
           severity := "info";
           actionableSummary :=
             "Power plan: " ++ powerPlan ++ ". Full battery data unavailable.";
           recommendations :=
             ["Run PowerShell as Administrator for detailed battery information"];
           nextStepsToCheck := [] |}
    end.

End Battery.

(** ** Invocations of [getHealthAlerts] that overlap

    [getHealthAlerts] tests the cache before its [await] and writes it
    after: a second invocation can start while the first still awaits
    its collectors.  The function is split here at its [await]. *)

Module AlertsOverlap.

Import Js Alerts.

(** What an invocation keeps across its [await]: the [now] and the
    [alerts.timestamp] it read before it. *)
Record Pending : Type := {
  startedAt : Z;
  startStamp : Z;
}.

Inductive started : Type :=
| Served (cached : Report)
| Awaiting (p : Pending).

(** [getHealthAlerts] up to its [await]: the cache test, and on a miss
    the time stamp of the alerts. *)
Definition start (c : Cache) (now stamp : Z) : started :=
  match alertCache c with
  | Some cached =>
      if now - cacheTimestamp c <? CACHE_TTL then Served cached
      else Awaiting {| startedAt := now; startStamp := stamp |}
  | None => Awaiting {| startedAt := now; startStamp := stamp |}
  end.

(** [getHealthAlerts] after its [await]: the report is built from what
    the collectors answered and written to the cache, whatever the cache
    holds by then, with the [now] read before the [await]. *)
Definition resume (p : Pending) (r : Readings) (cachedStamp : Z)
  : Report * Cache :=
  let result :=
    freshReport {| now := startedAt p; stamp := startStamp p;
                   readings := r; cachedStamp := cachedStamp |} in
  (result, {| alertCache := Some result; cacheTimestamp := startedAt p |}).

(** The module between two turns of the event loop: the cache and the
    invocations that await their collectors, oldest first. *)
Record State : Type := {
  cache : Cache;
  awaiting : list Pending;
}.

(** A turn of the event loop: a new invocation runs up to its [await],
    or the collectors of the [k]-th awaiting invocation have answered and
    it runs to its end. *)
Inductive event : Type :=
| Call (now stamp : Z)
| Settle (k : nat) (r : Readings) (cachedStamp : Z).

Definition dropNth {A : Type} (k : nat) (l : list A) : list A :=
  (firstn k l ++ skipn (S k) l)%list.

Definition step (s : State) (e : event) : State :=
  match e with
  | Call now stamp =>
      match start (cache s) now stamp with
      | Served _ => s
      | Awaiting p =>
          {| cache := cache s; awaiting := (awaiting s ++ [p])%list |}
      end
  | Settle k r cachedStamp =>
      match nth_error (awaiting s) k with
      | Some p =>
          {| cache := snd (resume p r cachedStamp);
             awaiting := dropNth k (awaiting s) |}
      | None => s
      end
  end.

Definition exec (s : State) (events : list event) : State :=
  fold_left step events s.

Definition idle (c : Cache) : State := {| cache := c; awaiting := [] |}.

(** An invocation that runs alone: it starts and, if it missed the
    cache, its collectors answer before anything else happens. *)
Definition alone (i : Invocation) : list event :=
  [Call (now i) (stamp i); Settle 0 (readings i) (cachedStamp i)].

End AlertsOverlap.

(** ** Sample invocations built from query outcomes *)

Module ExtraSamples.

Import Js.

(** No temperature sensor and no [nvidia-smi], but the throttling query
    answers True. *)
Definition throttledNoSensor : Thermal.Invocation :=
  ThermalCollectors.invocation 1000 NA Rejected (Resolved "True
") (Resolved "3") 1150 1150.

(** CPU at 61.5 degrees, [nvidia-smi] answering that the GPU does not
    report its temperature, and a throttling query that fails. *)
Definition unsupportedGpu : Thermal.Invocation :=
  ThermalCollectors.invocation 1000 (Val (Num 6150)) (Resolved "[N/A]
") Rejected (Resolved "3") 1150 1150.

(** A Wi-Fi adapter with both families and the loopback interface. *)
Definition twoEntries : list (string * list NetworkCollectors.Address) :=
  [("Wi-Fi",
    [{| NetworkCollectors.family := "IPv6";
        NetworkCollectors.address := "fe80::1c2d:3e4f";
        NetworkCollectors.addrMac := "00:11:22:33:44:55" |};
     {| NetworkCollectors.family := "IPv4";
        NetworkCollectors.address := "192.168.1.20";
        NetworkCollectors.addrMac := "00:11:22:33:44:55" |}]);
   ("Loopback Pseudo-Interface 1",
    [{| NetworkCollectors.family := "IPv4";
        NetworkCollectors.address := "127.0.0.1";
        NetworkCollectors.addrMac := "00:00:00:00:00:00" |}])].

(** A disk with 60% free, as [getDiskHealth] reports it. *)
Definition roomyDisk : SystemHealth.Disk :=
  {| SystemHealth.percentFree := Val (Num 6000);
     SystemHealth.diskWarning := false;
     SystemHealth.diskCritical := false;
     SystemHealth.diskError := None |}.

End ExtraSamples.

(** ** Checks of the JavaScript helpers *)

Example toString_examples :
  Js.toString (Js.Num 9050) = "90.5" /\ Js.toString (Js.int 92) = "92" /\
  Js.toString (Js.Num 1805) = "18.05" /\ Js.toString (Js.Num (-5)) = "-0.05" /\
  Js.toString (Js.Num 0) = "0".
Proof. repeat split; reflexivity. Qed.


Example parseInt_examples :
  Js.parseInt "3" = Js.int 3 /\ Js.parseInt "  -12abc" = Js.int (-12) /\
  Js.parseInt "0x1F" = Js.int 31 /\ Js.parseInt "" = Js.NaN /\
  Js.parseInt "abc" = Js.NaN /\ Js.parseInt "0" = Js.int 0.
Proof. repeat split; reflexivity. Qed.

Example trim_examples :
  Js.trim "  True
" = "True" /\ Js.trim "" = "" /\ Js.trim " a b " = "a b".
Proof. repeat split; reflexivity. Qed.

(** ** Properties of the primary entrypoint *)

Module AlertsSpec.

Import Js Alerts Samples Props.

(** *** What a session can return *)

Lemma getHealthAlerts_cases (c : Cache) (i : Invocation) :
  (exists cached, alertCache c = Some cached /\
                  getHealthAlerts c i = (cached, c)) \/
  getHealthAlerts c i =
    (freshReport i,
     {| alertCache := Some (freshReport i); cacheTimestamp := now i |}).
Proof.
  unfold getHealthAlerts.
  destruct (alertCache c) as [cached|] eqn:E; [|now right].
  destruct (now i - cacheTimestamp c <? CACHE_TTL); [left|now right].
  now exists cached.
Qed.

(** A property of every fresh report that also holds of the report in
    the starting cache holds of every report a session returns. *)
Lemma run_reports (P : Report -> Prop) (calls : list Invocation) :
  forall c,
    (forall i, In i calls -> P (freshReport i)) ->
    (forall r, alertCache c = Some r -> P r) ->
    forall r, In r (fst (run c calls)) -> P r.
Proof.
  induction calls as [|i rest IH]; intros c Hfresh Hcache r Hin.
  - destruct Hin.
  - simpl in Hin.
    destruct (getHealthAlerts c i) as [r1 c1] eqn:Estep.
    destruct (run c1 rest) as [rs c2] eqn:Erun.
    simpl in Hin.
    assert (Hr1 : P r1 /\ forall r', alertCache c1 = Some r' -> P r').
    { destruct (getHealthAlerts_cases c i) as [[cached [Hc Hhit]]|Hmiss].
      - rewrite Hhit in Estep. inversion Estep; subst. split; auto.
      - rewrite Hmiss in Estep. inversion Estep; subst.
        split; [apply Hfresh; now left|].
        simpl. intros r' Hr'. inversion Hr'; subst.
        apply Hfresh. now left. }
    destruct Hin as [<-|Hin]; [exact (proj1 Hr1)|].
    apply (IH c1); [ | exact (proj2 Hr1) | now rewrite Erun ].
    intros j Hj. apply Hfresh. now right.
Qed.

(** From the empty cache, every returned report is the fresh report of
    one of the invocations. *)
Lemma returned_is_fresh (calls : list Invocation) (r : Report) :
  In r (fst (run initialCache calls)) ->
  exists i, In i calls /\ r = freshReport i.
Proof.
  apply (run_reports (fun r => exists i, In i calls /\ r = freshReport i)).
  - intros i Hi. now exists i.
  - simpl. discriminate.
Qed.

(** *** The alert lists *)

Lemma cpuAlerts_info cpu a : info (cpuAlerts cpu a) = info a.
Proof. unfold cpuAlerts. now repeat destruct (gt _ _). Qed.

Lemma memoryAlerts_info m a : info (memoryAlerts m a) = info a.
Proof. unfold memoryAlerts. now repeat destruct (gt _ _). Qed.

Lemma diskAlerts_info d a : info (diskAlerts d a) = info a.
Proof. unfold diskAlerts. now repeat destruct (lt _ _). Qed.

Lemma securityAlerts_info s a : info (securityAlerts s a) = info a.
Proof.
  unfold securityAlerts.
  now destruct (defenderDisabled s), (firewallDisabled s).
Qed.

Lemma classify_info stamp r : info (classify stamp r) = [].
Proof.
  unfold classify.
  now rewrite securityAlerts_info, diskAlerts_info, memoryAlerts_info,
    cpuAlerts_info.
Qed.

Lemma classify_timestamp stamp r : timestamp (classify stamp r) = stamp.
Proof.
  unfold classify, securityAlerts, diskAlerts, memoryAlerts, cpuAlerts.
  repeat match goal with
    | |- context [if ?b then _ else _] => destruct b
    end; reflexivity.
Qed.

Lemma freshReport_timestamp (i : Invocation) :
  timestamp (alerts (freshReport i)) = stamp i.
Proof. apply classify_timestamp. Qed.

(** *** The health score *)

Lemma round2_id (x : Z) : round2 x = x.
Proof. unfold round2. apply Z.div_mul. lia. Qed.

Lemma calculateHealthScore_score (a : AlertLists) :
  score (calculateHealthScore a) =
  specScore (List.length (critical a)) (List.length (warning a)).
Proof.
  unfold calculateHealthScore, specScore. cbn [score].
  rewrite round2_id. lia.
Qed.

Lemma calculateHealthScore_status (a : AlertLists) :
  let s := score (calculateHealthScore a) in
  (80 <= s -> status (calculateHealthScore a) = "Good") /\
  (60 <= s < 80 -> status (calculateHealthScore a) = "Fair") /\
  (40 <= s < 60 -> status (calculateHealthScore a) = "Poor") /\
  (s < 40 -> status (calculateHealthScore a) = "Critical").
Proof.
  unfold calculateHealthScore. cbn [score status]. rewrite round2_id.
  set (s := Z.max 0 _).
  repeat split; intros H;
    destruct (80 <=? s) eqn:E80; destruct (60 <=? s) eqn:E60;
    destruct (40 <=? s) eqn:E40; try reflexivity; lia.
Qed.

(** C1.  For every report that [getHealthAlerts] returns in a session
    started with the empty cache, fresh or served from the cache, the
    score is [max(0, 100 - 15 * |critical| - 5 * |warning|)], a function
    of the two counts alone, and the status is Good from 80, Fair from
    60, Poor from 40 and Critical below. *)
Theorem health_score_formula (calls : list Invocation) (r : Report) :
  In r (fst (run initialCache calls)) ->
  let s := specScore (List.length (critical (alerts r)))
                     (List.length (warning (alerts r))) in
  score (systemHealthScore r) = s /\
  (80 <= s -> status (systemHealthScore r) = "Good") /\
  (60 <= s < 80 -> status (systemHealthScore r) = "Fair") /\
  (40 <= s < 60 -> status (systemHealthScore r) = "Poor") /\
  (s < 40 -> status (systemHealthScore r) = "Critical").
Proof.
  intros Hin.
  destruct (returned_is_fresh calls r Hin) as [i [_ ->]].
  cbv zeta. cbn [systemHealthScore alerts freshReport].
  rewrite <- calculateHealthScore_score.
  split; [reflexivity|apply calculateHealthScore_status].
Qed.

Lemma health_score_formula_witness :
  let r := freshReport (at_time 1000 allCritical) in
  score (systemHealthScore r) = 25 /\
  status (systemHealthScore r) = "Critical".
Proof.
  pose proof (health_score_formula
                [at_time 1000 allCritical; at_time 2000 nominal]
                (freshReport (at_time 1000 allCritical))) as H.
  cbv zeta in H.
  destruct H as [Hs [_ [_ [_ Hc]]]].
  - vm_compute. left. reflexivity.
  - split.
    + rewrite Hs. vm_compute. reflexivity.
    + apply Hc. vm_compute. reflexivity.
Defined.

(** C9.  In every returned report the four counts of [alertCount] are
    the lengths of the three lists and their sum. *)
Theorem alert_counts_consistent (calls : list Invocation) (r : Report) :
  In r (fst (run initialCache calls)) ->
  countCritical (alertCount r) = List.length (critical (alerts r)) /\
  countWarning (alertCount r) = List.length (warning (alerts r)) /\
  countInfo (alertCount r) = List.length (info (alerts r)) /\
  countTotal (alertCount r) =
    (List.length (critical (alerts r)) + List.length (warning (alerts r))
     + List.length (info (alerts r)))%nat.
Proof.
  intros Hin.
  destruct (returned_is_fresh calls r Hin) as [i [_ ->]].
  repeat split.
Qed.

Lemma alert_counts_consistent_witness :
  let r := freshReport (at_time 1000 allCritical) in
  countCritical (alertCount r) = 5%nat /\ countTotal (alertCount r) = 5%nat.
Proof.
  destruct (alert_counts_consistent
              [at_time 1000 allCritical]
              (freshReport (at_time 1000 allCritical)))
    as [Hc [_ [_ Ht]]].
  - vm_compute. left. reflexivity.
  - split; [rewrite Hc | rewrite Ht]; vm_compute; reflexivity.
Defined.

(** C10.  No returned report carries an info-level alert: the info list
    is empty and [alertCount.info] is 0, so the total counts critical
    and warning alerts only and the score is settled by those two
    counts. *)
Theorem info_list_always_empty (calls : list Invocation) (r : Report) :
  In r (fst (run initialCache calls)) ->
  info (alerts r) = [] /\
  countInfo (alertCount r) = 0%nat /\
  countTotal (alertCount r) =
    (List.length (critical (alerts r))
     + List.length (warning (alerts r)))%nat /\
  score (systemHealthScore r) =
    specScore (List.length (critical (alerts r)))
              (List.length (warning (alerts r))).
Proof.
  intros Hin.
  destruct (returned_is_fresh calls r Hin) as [i [_ ->]].
  cbn [alerts alertCount systemHealthScore freshReport countInfo countTotal].
  rewrite classify_info. simpl List.length.
  repeat split; [lia|apply calculateHealthScore_score].
Qed.

Lemma info_list_always_empty_witness :
  info (alerts (freshReport (at_time 1000 allCritical))) = [].
Proof.
  apply (info_list_always_empty [at_time 1000 allCritical]).
  vm_compute. left. reflexivity.
Defined.

(** *** Which critical messages mention Defender *)

Lemma allChars_app p s t :
  allChars p (s ++ t) = allChars p s && allChars p t.
Proof.
  induction s as [|c s IH]; simpl; [reflexivity|].
  now rewrite IH, andb_assoc.
Qed.

Lemma no_D_no_Defender (s : string) :
  allChars notD s = true -> includes "Defender" s = false.
Proof.
  induction s as [|c s IH]; intros H; [reflexivity|].
  simpl in H. apply andb_true_iff in H as [Hc Hs].
  cbn [includes]. rewrite (IH Hs), orb_false_r.
  unfold notD in Hc. apply negb_true_iff in Hc.
  cbn [String.prefix].
  destruct (ascii_dec "D" c) as [E|Hne]; [|reflexivity].
  subst c. discriminate Hc.
Qed.

Lemma uint_digits_no_D (d : Decimal.uint) :
  allChars notD (NilEmpty.string_of_uint d) = true.
Proof. induction d; simpl; auto. Qed.

Lemma digits_no_D (n : Z) : allChars notD (digits n) = true.
Proof.
  unfold digits, NilZero.string_of_uint.
  destruct (N.to_uint (Z.to_N n)); try reflexivity;
    apply (uint_digits_no_D (_ _)).
Qed.

Lemma toString_no_D (n : number) : allChars notD (toString n) = true.
Proof.
  destruct n as [|h]; [reflexivity|].
  unfold toString.
  destruct (h <? 0), (Z.abs h mod 100 =? 0), (Z.abs h mod 100 mod 10 =? 0);
    repeat (rewrite allChars_app || rewrite digits_no_D); reflexivity.
Qed.

Lemma vtoString_no_D (v : value) : allChars notD (vtoString v) = true.
Proof. destruct v; [reflexivity|apply toString_no_D]. Qed.

(** The critical list grows by at most one message per check. *)
Lemma cpuAlerts_critical cpu a :
  critical (cpuAlerts cpu a) =
  (critical a ++
   if gt cpu (int 90)
   then [("⚠️ CPU critically high: " ++ toString cpu ++ "%")%string] else [])%list.
Proof.
  unfold cpuAlerts.
  destruct (gt cpu (int 90)); [reflexivity|].
  destruct (gt cpu (int 80)); simpl; now rewrite app_nil_r.
Qed.

Lemma memoryAlerts_critical m a :
  critical (memoryAlerts m a) =
  (critical a ++
   if gt (usagePercent m) (int 90)
   then [("⚠️ Memory critically high: " ++ toString (usagePercent m) ++ "%")%string]
   else [])%list.
Proof.
  unfold memoryAlerts.
  destruct (gt (usagePercent m) (int 90)); [reflexivity|].
  destruct (gt (usagePercent m) (int 85)); simpl; now rewrite app_nil_r.
Qed.

Lemma diskAlerts_critical d a :
  critical (diskAlerts d a) =
  (critical a ++
   if lt (toNumber (percentFree d)) (int 5)
   then [("⚠️ Disk space critical: " ++ vtoString (percentFree d) ++ "% free")%string]
   else [])%list.
Proof.
  unfold diskAlerts.
  destruct (lt (toNumber (percentFree d)) (int 5)); [reflexivity|].
  destruct (lt (toNumber (percentFree d)) (int 20)); simpl;
    now rewrite app_nil_r.
Qed.

Lemma securityAlerts_critical s a :
  critical (securityAlerts s a) =
  (critical a ++
   (if defenderDisabled s then ["⚠️ Windows Defender is disabled"] else []) ++
   (if firewallDisabled s then ["⚠️ Windows Firewall is disabled"] else []))%list.
Proof.
  unfold securityAlerts.
  destruct (defenderDisabled s), (firewallDisabled s); simpl;
    rewrite <- ?app_assoc, ?app_nil_r; reflexivity.
Qed.

Lemma classify_critical stamp r :
  critical (classify stamp r) =
  ((if gt (cpuUsage r) (int 90)
    then [("⚠️ CPU critically high: " ++ toString (cpuUsage r) ++ "%")%string]
    else []) ++
   (if gt (usagePercent (memUsage r)) (int 90)
    then [("⚠️ Memory critically high: " ++
          toString (usagePercent (memUsage r)) ++ "%")%string]
    else []) ++
   (if lt (toNumber (percentFree (diskUsage r))) (int 5)
    then [("⚠️ Disk space critical: " ++
          vtoString (percentFree (diskUsage r)) ++ "% free")%string]
    else []) ++
   (if defenderDisabled (securityStatus r)
    then ["⚠️ Windows Defender is disabled"] else []) ++
   (if firewallDisabled (securityStatus r)
    then ["⚠️ Windows Firewall is disabled"] else []))%list.
Proof.
  unfold classify.
  rewrite securityAlerts_critical, diskAlerts_critical,
    memoryAlerts_critical, cpuAlerts_critical.
  simpl. now rewrite <- !app_assoc.
Qed.

(** Of the five critical messages only the Defender one contains
    ["Defender"], whatever the readings printed in the others. *)
Lemma defender_rule_fires_iff_disabled stamp r :
  existsb (includes "Defender") (critical (classify stamp r)) =
  defenderDisabled (securityStatus r).
Proof.
  rewrite classify_critical, !existsb_app.
  assert (Hcpu : includes "Defender"
            ("⚠️ CPU critically high: " ++ toString (cpuUsage r) ++ "%")
          = false).
  { cbn. apply no_D_no_Defender.
    now rewrite allChars_app, toString_no_D. }
  assert (Hmem : includes "Defender"
            ("⚠️ Memory critically high: " ++
             toString (usagePercent (memUsage r)) ++ "%") = false).
  { cbn. apply no_D_no_Defender.
    now rewrite allChars_app, toString_no_D. }
  assert (Hdisk : includes "Defender"
            ("⚠️ Disk space critical: " ++
             vtoString (percentFree (diskUsage r)) ++ "% free") = false).
  { cbn. apply no_D_no_Defender.
    now rewrite allChars_app, vtoString_no_D. }
  destruct (gt (cpuUsage r) (int 90)),
    (gt (usagePercent (memUsage r)) (int 90)),
    (lt (toNumber (percentFree (diskUsage r))) (int 5)),
    (defenderDisabled (securityStatus r)),
    (firewallDisabled (securityStatus r));
    cbn [existsb]; rewrite ?Hcpu, ?Hmem, ?Hdisk; reflexivity.
Qed.

(** *** The recommendation set *)

Lemma nextSteps_of_fresh (i : Invocation) :
  nextStepsToCheck (freshReport i) = firstn 2 (firedRules (readings i)).
Proof.
  cbn [nextStepsToCheck freshReport]. unfold buildNextSteps.
  rewrite defender_rule_fires_iff_disabled.
  unfold firedRules, performanceRule, diskRule, defenderRule, slice0.
  destruct (gt (cpuUsage (readings i)) (int 80)
            || gt (usagePercent (memUsage (readings i))) (int 85)),
    (lt (toNumber (percentFree (diskUsage (readings i)))) (int 20)),
    (defenderDisabled (securityStatus (readings i))); reflexivity.
Qed.

(** The report holds one of five recommendation sets. *)
Lemma nextSteps_cases (i : Invocation) :
  let n := nextStepsToCheck (freshReport i) in
  n = [] \/ n = ["get_performance_stats"] \/ n = ["get_system_health"] \/
  n = ["get_performance_stats"; "get_system_health"] \/
  n = ["get_system_health"; "get_system_health"].
Proof.
  cbv zeta. rewrite nextSteps_of_fresh. unfold firedRules.
  destruct (performanceRule _), (diskRule _), (defenderRule _); simpl; tauto.
Qed.

Lemma system_health_twice_not_NoDup :
  ~ NoDup ["get_system_health"; "get_system_health"].
Proof.
  intros H. inversion H as [|x l Hnotin _]; subst.
  apply Hnotin. now left.
Qed.

(** C2, as amended.  Every returned report is the fresh report of an
    invocation whose recommendation set has at most two entries and is the
    first two probes of the rules that fire, in rule order (performance,
    then system health for the disk, then system health for Defender).
    Nothing removes a repeated probe: the set is duplicate-free exactly
    when it is not the case that the performance rule stays silent while
    both the disk rule and the Defender rule fire. *)
Theorem recommendation_set_shape (calls : list Invocation) (r : Report) :
  In r (fst (run initialCache calls)) ->
  exists i, In i calls /\ r = freshReport i /\
    (List.length (nextStepsToCheck r) <= 2)%nat /\
    nextStepsToCheck r = firstn 2 (firedRules (readings i)) /\
    (NoDup (nextStepsToCheck r) <->
     ~ (performanceRule (readings i) = false /\
        diskRule (readings i) = true /\
        defenderRule (readings i) = true)).
Proof.
  intros Hin.
  destruct (returned_is_fresh calls r Hin) as [i [Hi ->]].
  exists i. split; [exact Hi|]. split; [reflexivity|].
  rewrite nextSteps_of_fresh.
  split; [apply firstn_le_length|]. split; [reflexivity|].
  unfold firedRules.
  destruct (performanceRule _), (diskRule _), (defenderRule _); simpl;
    (split;
     [ intros Hnd;
       first [ exfalso; exact (system_health_twice_not_NoDup Hnd)
             | intros [H1 [H2 H3]]; discriminate ]
     | intros Hno;
       first [ exfalso; apply Hno; repeat split; reflexivity
             | repeat constructor; simpl; intuition discriminate ] ]).
Qed.

Lemma recommendation_set_shape_witness :
  nextStepsToCheck (freshReport (at_time 1000 allCritical)) =
  ["get_performance_stats"; "get_system_health"].
Proof.
  destruct (recommendation_set_shape
              [at_time 1000 allCritical]
              (freshReport (at_time 1000 allCritical)))
    as [i [Hi [_ [_ [Heq _]]]]].
  - vm_compute. left. reflexivity.
  - rewrite Heq. destruct Hi as [<-|[]]. vm_compute. reflexivity.
Defined.

(** C2, as stated, fails: with 10% of the disk free and Defender disabled
    (CPU 20%, memory 30%) the first call of a session recommends
    [get_system_health] twice. *)
Lemma recommendation_set_has_duplicate :
  nextStepsToCheck
    (fst (getHealthAlerts initialCache (at_time 1000 lowDiskDefenderOff))) =
  ["get_system_health"; "get_system_health"] /\
  ~ NoDup (nextStepsToCheck
             (fst (getHealthAlerts initialCache
                     (at_time 1000 lowDiskDefenderOff)))).
Proof.
  split; [vm_compute; reflexivity|].
  change (~ NoDup ["get_system_health"; "get_system_health"]).
  exact system_health_twice_not_NoDup.
Qed.

(** A disabled Defender always brings [get_system_health] into the
    recommendation set. *)
Lemma defender_rule_in_fresh (i : Invocation) :
  defenderDisabled (securityStatus (readings i)) = true ->
  In "get_system_health" (nextStepsToCheck (freshReport i)).
Proof.
  intros Hd. rewrite nextSteps_of_fresh.
  unfold firedRules, defenderRule. rewrite Hd.
  destruct (performanceRule _), (diskRule _); simpl; tauto.
Qed.

(** The firewall flag plays no part in the recommendation set. *)
Lemma firewall_flag_ignored (i : Invocation) :
  diskRule (readings i) = false ->
  defenderDisabled (securityStatus (readings i)) = false ->
  ~ In "get_system_health" (nextStepsToCheck (freshReport i)).
Proof.
  intros Hk Hd. rewrite nextSteps_of_fresh.
  unfold firedRules, defenderRule. rewrite Hk, Hd.
  destruct (performanceRule _); simpl; intuition discriminate.
Qed.

(** C3, as amended.  Whenever a critical alert of a returned report
    mentions Defender, [get_system_health] is in its recommendation set.
    The probe is pushed without regard to the disk rule: when the disk
    rule has fired too and the performance rule has not, the set lists
    [get_system_health] twice. *)
Theorem defender_alert_recommends_system_health
    (calls : list Invocation) (r : Report) :
  In r (fst (run initialCache calls)) ->
  existsb (includes "Defender") (critical (alerts r)) = true ->
  In "get_system_health" (nextStepsToCheck r) /\
  exists i, In i calls /\ r = freshReport i /\
    defenderRule (readings i) = true /\
    (performanceRule (readings i) = false -> diskRule (readings i) = true ->
     nextStepsToCheck r = ["get_system_health"; "get_system_health"]).
Proof.
  intros Hin Hdef.
  destruct (returned_is_fresh calls r Hin) as [i [Hi ->]].
  cbn [alerts freshReport] in Hdef.
  rewrite defender_rule_fires_iff_disabled in Hdef.
  split; [now apply defender_rule_in_fresh|].
  exists i. split; [exact Hi|]. split; [reflexivity|].
  split; [exact Hdef|].
  intros Hp Hk. rewrite nextSteps_of_fresh. unfold firedRules.
  unfold defenderRule. now rewrite Hp, Hk, Hdef.
Qed.

Lemma defender_alert_recommends_system_health_witness :
  In "get_system_health"
     (nextStepsToCheck (freshReport (at_time 1000 allCritical))).
Proof.
  apply (defender_alert_recommends_system_health
           [at_time 1000 allCritical]).
  - vm_compute. left. reflexivity.
  - vm_compute. reflexivity.
Defined.

(** C3, as stated, fails twice.  When the only critical alert is
    "Windows Firewall is disabled" (CPU 20%, memory 30%, 60% of the disk
    free, Defender on), the recommendation set is empty.  And with 10% of
    the disk free and Defender disabled the Defender rule's probe is not
    deduplicated against the disk rule's. *)
Lemma security_rule_counterexample :
  let r := fst (getHealthAlerts initialCache (at_time 1000 firewallOnly)) in
  let d := fst (getHealthAlerts initialCache
                  (at_time 1000 lowDiskDefenderOff)) in
  critical (alerts r) = ["⚠️ Windows Firewall is disabled"] /\
  nextStepsToCheck r = [] /\
  ~ In "get_system_health" (nextStepsToCheck r) /\
  critical (alerts d) = ["⚠️ Windows Defender is disabled"] /\
  nextStepsToCheck d = ["get_system_health"; "get_system_health"].
Proof.
  cbv zeta. split; [vm_compute; reflexivity|].
  split; [vm_compute; reflexivity|].
  split; [|split; vm_compute; reflexivity].
  change (~ In "get_system_health" (@nil string)). intros [].
Qed.

(** *** The thresholds *)

(** C5, as amended.  The thresholds are exclusive bounds: a finite CPU
    reading [h / 100] raises a critical alert when it is above 90, a
    warning when it is above 80 and at most 90, and nothing at 80 or
    below; a memory reading raises a critical alert above 90, a warning
    above 85 and at most 90, and nothing at 85 or below.  So exactly 90 is
    a warning for both, and exactly 80 (CPU) or 85 (memory) raises no
    alert. *)
Theorem thresholds_are_strict (h : Z) (m : MemUsage) (a : AlertLists) :
  usagePercent m = Num h ->
  (90 * 100 < h ->
   cpuAlerts (Num h) a =
   pushCritical ("⚠️ CPU critically high: " ++ toString (Num h) ++ "%") a) /\
  (80 * 100 < h <= 90 * 100 ->
   cpuAlerts (Num h) a =
   pushWarning ("CPU elevated: " ++ toString (Num h) ++ "%") a) /\
  (h <= 80 * 100 -> cpuAlerts (Num h) a = a) /\
  (90 * 100 < h ->
   memoryAlerts m a =
   pushCritical ("⚠️ Memory critically high: " ++ toString (Num h) ++ "%") a) /\
  (85 * 100 < h <= 90 * 100 ->
   memoryAlerts m a =
   pushWarning ("Memory elevated: " ++ toString (Num h) ++ "%") a) /\
  (h <= 85 * 100 -> memoryAlerts m a = a).
Proof.
  intros Hm. unfold cpuAlerts, memoryAlerts. rewrite Hm.
  unfold gt, int.
  repeat split; intros H;
    repeat match goal with
      | |- context [?x <? ?y] =>
          let E := fresh "E" in
          destruct (Z.ltb_spec x y) as [E|E]; try lia
      end; reflexivity.
Qed.

Lemma thresholds_are_strict_witness :
  cpuAlerts (int 90) (classify 0 nominal) =
  pushWarning "CPU elevated: 90%" (classify 0 nominal) /\
  memoryAlerts (memory (int 85)) (classify 0 nominal) = classify 0 nominal.
Proof.
  destruct (thresholds_are_strict (90 * 100) (memory (int 90))
              (classify 0 nominal) eq_refl) as [_ [Hw _]].
  destruct (thresholds_are_strict (85 * 100) (memory (int 85))
              (classify 0 nominal) eq_refl) as [_ [_ [_ [_ [_ Hn]]]]].
  split.
  - apply Hw. lia.
  - apply Hn. lia.
Defined.

(** C5, as stated, fails: a CPU reading of exactly 90 and a memory reading
    of exactly 90 yield no critical alert, and a CPU reading of exactly 80
    and a memory reading of exactly 85 yield no warning. *)
Lemma thresholds_not_inclusive :
  critical (alerts (fst (getHealthAlerts initialCache
                           (at_time 1000 (withCpu (int 90)))))) = [] /\
  warning (alerts (fst (getHealthAlerts initialCache
                          (at_time 1000 (withCpu (int 80)))))) = [] /\
  critical (alerts (fst (getHealthAlerts initialCache
                           (at_time 1000 (withMemory (int 90)))))) = [] /\
  warning (alerts (fst (getHealthAlerts initialCache
                          (at_time 1000 (withMemory (int 85)))))) = [].
Proof. repeat split; vm_compute; reflexivity. Qed.

(** *** The summary *)

Lemma orElse_join_probes (n : list string) (fallback : string) :
  n = [] \/ n = ["get_performance_stats"] \/ n = ["get_system_health"] \/
  n = ["get_performance_stats"; "get_system_health"] \/
  n = ["get_system_health"; "get_system_health"] ->
  orElse (join ", " n) fallback =
  match n with [] => fallback | _ :: _ => join ", " n end.
Proof. intros [->|[->|[->|[->| ->]]]]; reflexivity. Qed.

Lemma generateSummary_shape (a : AlertLists) (n : list string) :
  info a = [] ->
  n = [] \/ n = ["get_performance_stats"] \/ n = ["get_system_health"] \/
  n = ["get_performance_stats"; "get_system_health"] \/
  n = ["get_system_health"; "get_system_health"] ->
  (critical a <> [] ->
   generateSummary a n =
   "🔴 CRITICAL: " ++ join "; " (firstn 2 (critical a)) ++ ". Run: " ++
   match n with [] => "get_performance_stats" | _ :: _ => join ", " n end) /\
  (critical a = [] -> warning a <> [] ->
   generateSummary a n =
   "🟡 WARNING: " ++ join "; " (firstn 2 (warning a)) ++ ". Run: " ++
   match n with [] => "investigate further" | _ :: _ => join ", " n end) /\
  (critical a = [] -> warning a = [] ->
   generateSummary a n = "✅ System healthy (score: 100/100)").
Proof.
  intros Hinfo Hn. unfold generateSummary, slice0.
  rewrite !(orElse_join_probes n _ Hn), Hinfo.
  repeat split.
  - intros Hc. destruct (critical a); [congruence|reflexivity].
  - intros Hc Hw. rewrite Hc.
    destruct (warning a); [congruence|reflexivity].
  - intros Hc Hw. unfold calculateHealthScore. rewrite Hc, Hw. reflexivity.
Qed.

(** C8, as amended.  In every returned report: with a critical alert the
    summary leads with the first one or two critical messages, followed by
    the recommended probes or, when none is recommended, by
    [get_performance_stats]; otherwise with a warning it leads with the
    first one or two warnings, followed by the recommended probes or by
    "investigate further"; otherwise it states that the system is healthy
    with the score, which is then 100. *)
Theorem summary_composition (calls : list Invocation) (r : Report) :
  In r (fst (run initialCache calls)) ->
  (critical (alerts r) <> [] ->
   actionableSummary r =
   "🔴 CRITICAL: " ++ join "; " (firstn 2 (critical (alerts r))) ++
   ". Run: " ++
   match nextStepsToCheck r with
   | [] => "get_performance_stats"
   | _ :: _ => join ", " (nextStepsToCheck r)
   end) /\
  (critical (alerts r) = [] -> warning (alerts r) <> [] ->
   actionableSummary r =
   "🟡 WARNING: " ++ join "; " (firstn 2 (warning (alerts r))) ++
   ". Run: " ++
   match nextStepsToCheck r with
   | [] => "investigate further"
   | _ :: _ => join ", " (nextStepsToCheck r)
   end) /\
  (critical (alerts r) = [] -> warning (alerts r) = [] ->
   actionableSummary r = "✅ System healthy (score: 100/100)" /\
   score (systemHealthScore r) = 100).
Proof.
  intros Hin.
  destruct (returned_is_fresh calls r Hin) as [i [_ ->]].
  pose proof (nextSteps_cases i) as Hn. cbv zeta in Hn.
  pose proof (classify_info (stamp i) (readings i)) as Hinfo.
  destruct (generateSummary_shape _ _ Hinfo Hn) as [Hc [Hw Hh]].
  split; [exact Hc|]. split; [exact Hw|].
  intros Ec Ew. split; [exact (Hh Ec Ew)|].
  cbn [systemHealthScore alerts freshReport] in *.
  rewrite calculateHealthScore_score, Ec, Ew. reflexivity.
Qed.

Lemma summary_composition_witness :
  actionableSummary (freshReport (at_time 1000 firewallOnly)) =
  "🔴 CRITICAL: ⚠️ Windows Firewall is disabled. Run: get_performance_stats".
Proof.
  destruct (summary_composition
              [at_time 1000 firewallOnly]
              (freshReport (at_time 1000 firewallOnly))) as [Hc _].
  - vm_compute. left. reflexivity.
  - rewrite Hc; [vm_compute; reflexivity|].
    vm_compute. discriminate.
Defined.

(** C8, as stated, fails: when the firewall alert is the only one, no
    probe is recommended, yet the summary ends with
    "Run: get_performance_stats" instead of the (empty) list of
    recommended probes. *)
Lemma summary_names_unrecommended_probe :
  let r := fst (getHealthAlerts initialCache (at_time 1000 firewallOnly)) in
  nextStepsToCheck r = [] /\
  actionableSummary r =
  "🔴 CRITICAL: ⚠️ Windows Firewall is disabled. Run: get_performance_stats" /\
  ~ SummaryAsSpecified r.
Proof.
  cbv zeta. split; [vm_compute; reflexivity|].
  split; [vm_compute; reflexivity|].
  intros [Hc _].
  assert (Hne : critical (alerts (fst (getHealthAlerts initialCache
                                         (at_time 1000 firewallOnly)))) <> []).
  { vm_compute. discriminate. }
  specialize (Hc Hne). vm_compute in Hc. discriminate Hc.
Qed.

(** *** The cache *)

Lemma getHealthAlerts_hit (c : Cache) (i : Invocation) (cached : Report) :
  alertCache c = Some cached ->
  now i - cacheTimestamp c < CACHE_TTL ->
  getHealthAlerts c i = (cached, c).
Proof.
  intros Hc Hage. unfold getHealthAlerts. rewrite Hc.
  destruct (Z.ltb_spec (now i - cacheTimestamp c) CACHE_TTL); [reflexivity|lia].
Qed.

Lemma getHealthAlerts_expired (c : Cache) (i : Invocation) :
  CACHE_TTL <= now i - cacheTimestamp c ->
  getHealthAlerts c i =
    (freshReport i,
     {| alertCache := Some (freshReport i); cacheTimestamp := now i |}).
Proof.
  intros Hage. unfold getHealthAlerts.
  destruct (alertCache c); [|reflexivity].
  destruct (Z.ltb_spec (now i - cacheTimestamp c) CACHE_TTL); [lia|reflexivity].
Qed.

Lemma getHealthAlerts_stamped (c : Cache) (i : Invocation) :
  stampedCache c -> promptStamp i -> stampedCache (snd (getHealthAlerts c i)).
Proof.
  intros Hc Hi.
  destruct (getHealthAlerts_cases c i) as [[cached [_ ->]]| ->]; [exact Hc|].
  intros r Hr. simpl in Hr. inversion Hr; subst.
  cbn [snd cacheTimestamp]. rewrite freshReport_timestamp. exact Hi.
Qed.

Lemma run_stamped (calls : list Invocation) :
  forall c, stampedCache c -> Forall promptStamp calls ->
            stampedCache (snd (run c calls)).
Proof.
  induction calls as [|i rest IH]; intros c Hc Hall; [exact Hc|].
  inversion Hall as [|? ? Hi Hrest]; subst.
  simpl. pose proof (getHealthAlerts_stamped c i Hc Hi) as Hstep.
  destruct (getHealthAlerts c i) as [r1 c1].
  specialize (IH c1 Hstep Hrest).
  destruct (run c1 rest) as [rs c2]. exact IH.
Qed.

(** After any invocation the cache holds the report just returned, so a
    second invocation within the time-to-live of the instant recorded in
    the cache returns the same report. *)
Lemma consecutive_calls_identical (c : Cache) (i1 i2 : Invocation) :
  let '(r1, c1) := getHealthAlerts c i1 in
  now i2 - cacheTimestamp c1 < CACHE_TTL ->
  getHealthAlerts c1 i2 = (r1, c1).
Proof.
  destruct (getHealthAlerts_cases c i1) as [[cached [Hc ->]]| ->];
    intros Hage; now apply getHealthAlerts_hit.
Qed.

(** C4.  With a cached report whose age [now - cacheTimestamp] is below
    the 3000 ms time-to-live, [getHealthAlerts] returns that very report,
    time stamp and cache metadata included, and leaves the cache as it is.
    Once the age has reached the time-to-live it returns the freshly
    computed report and stores it with the current instant.  In a session
    whose time stamps are read promptly, the fresh report's time stamp is
    strictly later than that of the report it replaces. *)
Theorem cache_contract (c : Cache) (i : Invocation) (cached : Report) :
  alertCache c = Some cached ->
  (now i - cacheTimestamp c < 3000 -> getHealthAlerts c i = (cached, c)) /\
  (3000 <= now i - cacheTimestamp c ->
   getHealthAlerts c i =
     (freshReport i,
      {| alertCache := Some (freshReport i); cacheTimestamp := now i |}) /\
   timestamp (alerts (freshReport i)) = stamp i /\
   cachedAt (cacheInfo (freshReport i)) = cachedStamp i) /\
  (forall calls,
     Forall promptStamp calls -> c = snd (run initialCache calls) ->
     promptStamp i ->
     3000 <= now i - cacheTimestamp c ->
     timestamp (alerts cached) < timestamp (alerts (fst (getHealthAlerts c i)))).
Proof.
  intros Hc. split; [|split].
  - intros Hage. now apply getHealthAlerts_hit.
  - intros Hage. split; [now apply getHealthAlerts_expired|].
    split; [apply freshReport_timestamp|reflexivity].
  - intros calls Hall Hrun Hi Hage.
    rewrite (getHealthAlerts_expired c i Hage).
    assert (Hst : stampedCache c).
    { rewrite Hrun. apply run_stamped; [|exact Hall].
      intros r Hr. discriminate Hr. }
    specialize (Hst cached Hc).
    cbn [fst]. rewrite freshReport_timestamp.
    unfold promptStamp in Hi. unfold CACHE_TTL in *. lia.
Qed.

Lemma cache_contract_witness :
  let c := snd (run initialCache [at_time 1000 nominal]) in
  getHealthAlerts c (at_time 2000 allCritical) =
    (freshReport (at_time 1000 nominal), c) /\
  fst (getHealthAlerts c (at_time 4000 allCritical)) =
    freshReport (at_time 4000 allCritical) /\
  timestamp (alerts (freshReport (at_time 1000 nominal))) <
  timestamp (alerts (fst (getHealthAlerts c (at_time 4000 allCritical)))).
Proof.
  cbv zeta.
  set (c := snd (run initialCache [at_time 1000 nominal])).
  assert (Hc : alertCache c = Some (freshReport (at_time 1000 nominal)))
    by reflexivity.
  destruct (cache_contract c (at_time 2000 allCritical) _ Hc) as [Hhit _].
  destruct (cache_contract c (at_time 4000 allCritical) _ Hc)
    as [_ [Hmiss Hnewer]].
  split; [|split].
  - apply Hhit. vm_compute. reflexivity.
  - destruct Hmiss as [-> _]; [vm_compute; discriminate|reflexivity].
  - apply (Hnewer [at_time 1000 nominal]).
    + repeat constructor; vm_compute; discriminate.
    + reflexivity.
    + split; vm_compute; [discriminate|reflexivity].
    + vm_compute. discriminate.
Defined.

(** *** Failing collectors *)

Lemma getDiskQuickCheck_failure parseFloat (volume : exec_result) :
  volume = Rejected \/ volume = Thrown ->
  getDiskQuickCheck parseFloat volume =
  {| percentFree := NA; diskWarning := false; diskCritical := false |}.
Proof. intros [-> | ->]; reflexivity. Qed.

(** Output that [parseFloat] cannot read is reported as ["N/A"] too. *)
Lemma getDiskQuickCheck_unparsable parseFloat (stdout : string) :
  parseFloat (trim stdout) = NaN ->
  getDiskQuickCheck parseFloat (Resolved stdout) =
  {| percentFree := NA; diskWarning := false; diskCritical := false |}.
Proof. intros H. unfold getDiskQuickCheck. now rewrite H. Qed.

(** An unavailable disk reading raises no alert and fires no rule. *)
Lemma disk_unavailable_is_silent (r : Readings) (a : AlertLists) :
  percentFree (diskUsage r) = NA ->
  diskAlerts (diskUsage r) a = a /\ diskRule r = false.
Proof.
  intros H. unfold diskAlerts, diskRule. now rewrite H.
Qed.

(** The outer [catch] of [getSecurityQuickCheck]: a call that throws
    gives the neutral default. *)
Lemma getSecurityQuickCheck_thrown (defender firewall : exec_result) :
  defender = Thrown \/ firewall = Thrown ->
  getSecurityQuickCheck defender firewall =
  {| defenderDisabled := false; firewallDisabled := false |}.
Proof.
  intros [-> | ->]; [reflexivity|].
  unfold getSecurityQuickCheck. now destruct (caught defender).
Qed.

(** A rejected Defender query reads as "not disabled". *)
Lemma defender_rejection_is_neutral (firewall : exec_result) :
  defenderDisabled (getSecurityQuickCheck Rejected firewall) = false.
Proof.
  unfold getSecurityQuickCheck. now destruct (caught firewall).
Qed.

(** A rejected firewall query reads as "no profile enabled". *)
Lemma firewall_rejection_is_alert (defender : exec_result) :
  defender <> Thrown ->
  firewallDisabled (getSecurityQuickCheck defender Rejected) = true.
Proof.
  intros H. destruct defender; [reflexivity|reflexivity|congruence].
Qed.

(** C6, evaluated where it breaks.  When every PowerShell call is
    rejected (CPU 20%, memory 30%), the disk reading degrades to ["N/A"]
    and Defender to "not disabled", but the rejected firewall query is
    read as zero enabled profiles: the security reading reports the
    firewall disabled and the report carries a critical alert and loses
    15 points. *)
Theorem firewall_query_failure_raises_alert (parseFloat : string -> number) :
  let rd := collect parseFloat (int 20) (memory (int 30))
                    Rejected Rejected Rejected in
  let r := fst (getHealthAlerts initialCache (at_time 1000 rd)) in
  percentFree (diskUsage rd) = NA /\
  securityStatus rd =
    {| defenderDisabled := false; firewallDisabled := true |} /\
  critical (alerts r) = ["⚠️ Windows Firewall is disabled"] /\
  score (systemHealthScore r) = 85.
Proof. cbv zeta. repeat split; vm_compute; reflexivity. Qed.

End AlertsSpec.

(** ** Properties of the thermal and network probes *)

Module ProbeSpec.

Import Js ProbeSamples.

Lemma getThermalStatus_hit (c : Thermal.Cache) (i : Thermal.Invocation)
    (cached : Thermal.Report) :
  Thermal.thermalCache c = Some cached ->
  Thermal.now i - Thermal.cacheTimestamp c < Thermal.CACHE_TTL ->
  Thermal.getThermalStatus c i = (cached, c).
Proof.
  intros Hc Hage. unfold Thermal.getThermalStatus. rewrite Hc.
  destruct (Z.ltb_spec (Thermal.now i - Thermal.cacheTimestamp c)
              Thermal.CACHE_TTL); [reflexivity|lia].
Qed.

Lemma checkInternetConnectivity_hit (c : Network.Cache) (now : Z)
    (ping : exec_result) (cached : Network.Connectivity) :
  Network.connectivityCache c = Some cached ->
  now - Network.connectivityTimestamp c < Network.CONNECTIVITY_CACHE_TTL ->
  Network.checkInternetConnectivity c now ping =
  ({| Network.connected := Network.connected cached;
      Network.checkedServer := Network.checkedServer cached;
      Network.error := Network.error cached;
      Network.fromCache := Some true |}, c).
Proof.
  intros Hc Hage. unfold Network.checkInternetConnectivity. rewrite Hc.
  destruct (Z.ltb_spec (now - Network.connectivityTimestamp c)
              Network.CONNECTIVITY_CACHE_TTL); [reflexivity|lia].
Qed.

(** What [getNetworkStatus] takes from the invocation itself, whatever
    the cache holds. *)
Lemma getNetworkStatus_recomputed (c : Network.Cache)
    (i : Network.Invocation) :
  let r := fst (Network.getNetworkStatus c i) in
  Network.timestamp r = Network.stamp i /\
  Network.interfaces r = Network.netInterfaces i /\
  Network.connectedDevices r = Network.devices i.
Proof.
  cbv zeta. unfold Network.getNetworkStatus.
  destruct (Network.checkInternetConnectivity c _ _) as [k c'].
  destruct (Network.assess k _) as [sev recs]. repeat split.
Qed.

Lemma getNetworkStatus_connectivity (c : Network.Cache)
    (i : Network.Invocation) :
  Network.internetConnectivity (fst (Network.getNetworkStatus c i)) =
    fst (Network.checkInternetConnectivity c (Network.now i) (Network.ping i))
  /\
  snd (Network.getNetworkStatus c i) =
    snd (Network.checkInternetConnectivity c (Network.now i) (Network.ping i)).
Proof.
  unfold Network.getNetworkStatus.
  destruct (Network.checkInternetConnectivity c _ _) as [k c'].
  destruct (Network.assess k _) as [sev recs]. split; reflexivity.
Qed.

Lemma getThermalStatus_expired (c : Thermal.Cache) (i : Thermal.Invocation) :
  Thermal.CACHE_TTL <= Thermal.now i - Thermal.cacheTimestamp c ->
  Thermal.getThermalStatus c i =
    (Thermal.freshReport i,
     {| Thermal.thermalCache := Some (Thermal.freshReport i);
        Thermal.cacheTimestamp := Thermal.now i |}).
Proof.
  intros Hage. unfold Thermal.getThermalStatus.
  destruct (Thermal.thermalCache c); [|reflexivity].
  destruct (Z.ltb_spec (Thermal.now i - Thermal.cacheTimestamp c)
              Thermal.CACHE_TTL); [lia|reflexivity].
Qed.

Lemma checkInternetConnectivity_expired (c : Network.Cache) (now : Z)
    (ping : exec_result) :
  Network.CONNECTIVITY_CACHE_TTL <= now - Network.connectivityTimestamp c ->
  Network.checkInternetConnectivity c now ping =
    (Network.pingResult ping,
     {| Network.connectivityCache := Some (Network.pingResult ping);
        Network.connectivityTimestamp := now |}).
Proof.
  intros Hage. unfold Network.checkInternetConnectivity.
  destruct (Network.connectivityCache c); [|reflexivity].
  destruct (Z.ltb_spec (now - Network.connectivityTimestamp c)
              Network.CONNECTIVITY_CACHE_TTL); [lia|reflexivity].
Qed.

Lemma getThermalStatus_empty (c : Thermal.Cache) (i : Thermal.Invocation) :
  Thermal.thermalCache c = None ->
  Thermal.getThermalStatus c i =
    (Thermal.freshReport i,
     {| Thermal.thermalCache := Some (Thermal.freshReport i);
        Thermal.cacheTimestamp := Thermal.now i |}).
Proof.
  intros Hc. unfold Thermal.getThermalStatus. rewrite Hc. reflexivity.
Qed.

Lemma checkInternetConnectivity_empty (c : Network.Cache) (now : Z)
    (ping : exec_result) :
  Network.connectivityCache c = None ->
  Network.checkInternetConnectivity c now ping =
    (Network.pingResult ping,
     {| Network.connectivityCache := Some (Network.pingResult ping);
        Network.connectivityTimestamp := now |}).
Proof.
  intros Hc. unfold Network.checkInternetConnectivity. rewrite Hc.
  reflexivity.
Qed.

(** C7, as amended.  The thermal probe caches its whole report, for
    10000 ms: while less than 10000 ms have passed since the cached
    computation, [getThermalStatus] returns the cached report itself and
    leaves the cache as it is; once 10000 ms or more have passed it
    returns the report computed from the current readings and stores
    that report with the current instant.  The network probe caches only
    the connectivity check, for 30000 ms: while less than 30000 ms have
    passed since the cached ping, [getNetworkStatus] leaves the cache as
    it is and reports the cached connectivity marked [fromCache: true];
    once 30000 ms or more have passed it reports the outcome of a new
    ping, without the mark, and stores it with the current instant.  On
    either side the time stamp, the interfaces and the devices of the
    network report are those of the current invocation.  With nothing
    cached yet, each probe computes and stores in the same way. *)
Theorem probe_cache_contracts :
  (forall (c : Thermal.Cache) (i : Thermal.Invocation) cached,
      Thermal.thermalCache c = Some cached ->
      (Thermal.now i - Thermal.cacheTimestamp c < 10000 ->
       Thermal.getThermalStatus c i = (cached, c)) /\
      (10000 <= Thermal.now i - Thermal.cacheTimestamp c ->
       Thermal.getThermalStatus c i =
         (Thermal.freshReport i,
          {| Thermal.thermalCache := Some (Thermal.freshReport i);
             Thermal.cacheTimestamp := Thermal.now i |}))) /\
  (forall (c : Thermal.Cache) (i : Thermal.Invocation),
      Thermal.thermalCache c = None ->
      Thermal.getThermalStatus c i =
        (Thermal.freshReport i,
         {| Thermal.thermalCache := Some (Thermal.freshReport i);
            Thermal.cacheTimestamp := Thermal.now i |})) /\
  (forall (c : Network.Cache) (i : Network.Invocation) cached,
      Network.connectivityCache c = Some cached ->
      let r := fst (Network.getNetworkStatus c i) in
      (Network.now i - Network.connectivityTimestamp c < 30000 ->
       snd (Network.getNetworkStatus c i) = c /\
       Network.internetConnectivity r =
         {| Network.connected := Network.connected cached;
            Network.checkedServer := Network.checkedServer cached;
            Network.error := Network.error cached;
            Network.fromCache := Some true |}) /\
      (30000 <= Network.now i - Network.connectivityTimestamp c ->
       snd (Network.getNetworkStatus c i) =
         {| Network.connectivityCache :=
              Some (Network.pingResult (Network.ping i));
            Network.connectivityTimestamp := Network.now i |} /\
       Network.internetConnectivity r =
         Network.pingResult (Network.ping i)) /\
      Network.timestamp r = Network.stamp i /\
      Network.interfaces r = Network.netInterfaces i /\
      Network.connectedDevices r = Network.devices i) /\
  (forall (c : Network.Cache) (i : Network.Invocation),
      Network.connectivityCache c = None ->
      snd (Network.getNetworkStatus c i) =
        {| Network.connectivityCache :=
             Some (Network.pingResult (Network.ping i));
           Network.connectivityTimestamp := Network.now i |} /\
      Network.internetConnectivity (fst (Network.getNetworkStatus c i)) =
        Network.pingResult (Network.ping i)).
Proof.
  split; [|split; [|split]].
  - intros c i cached Hc. split; intros Hage.
    + now apply getThermalStatus_hit.
    + now apply getThermalStatus_expired.
  - intros c i Hc. now apply getThermalStatus_empty.
  - intros c i cached Hc. cbv zeta.
    destruct (getNetworkStatus_connectivity c i) as [Hk Hs].
    rewrite Hk, Hs. split; [|split].
    + intros Hage.
      rewrite (checkInternetConnectivity_hit c _ _ cached Hc Hage).
      split; reflexivity.
    + intros Hage.
      rewrite (checkInternetConnectivity_expired c _ _ Hage).
      split; reflexivity.
    + apply getNetworkStatus_recomputed.
  - intros c i Hc.
    destruct (getNetworkStatus_connectivity c i) as [Hk Hs].
    rewrite Hk, Hs.
    rewrite (checkInternetConnectivity_empty c _ _ Hc).
    split; reflexivity.
Qed.

Lemma probe_cache_contracts_witness :
  (let c := snd (Thermal.getThermalStatus Thermal.initialCache
                   (thermalCall 1000)) in
   Thermal.getThermalStatus c (thermalCall 9000) =
     (Thermal.freshReport (thermalCall 1000), c) /\
   fst (Thermal.getThermalStatus c (thermalCall 11000)) =
     Thermal.freshReport (thermalCall 11000)) /\
  (let c := snd (Network.getNetworkStatus Network.initialCache
                   (networkCall 1000 1800)) in
   Network.fromCache
     (Network.internetConnectivity
        (fst (Network.getNetworkStatus c (networkCall 2000 2010))))
   = Some true /\
   Network.fromCache
     (Network.internetConnectivity
        (fst (Network.getNetworkStatus c (networkCall 31000 31800))))
   = None /\
   Network.timestamp (fst (Network.getNetworkStatus c (networkCall 2000 2010)))
   = 2010).
Proof.
  destruct probe_cache_contracts as [Hthermal [_ [Hnetwork _]]].
  split; cbv zeta.
  - split.
    + apply (Hthermal _ (thermalCall 9000)
               (Thermal.freshReport (thermalCall 1000)));
        [reflexivity|vm_compute; reflexivity].
    + destruct (Hthermal
                  (snd (Thermal.getThermalStatus Thermal.initialCache
                          (thermalCall 1000)))
                  (thermalCall 11000)
                  (Thermal.freshReport (thermalCall 1000)) eq_refl)
        as [_ Hexpired].
      rewrite Hexpired; [reflexivity|vm_compute; discriminate].
  - pose (c := snd (Network.getNetworkStatus Network.initialCache
                      (networkCall 1000 1800))).
    destruct (Hnetwork c (networkCall 2000 2010)
                (Network.pingResult (Resolved "True")) eq_refl)
      as [Hhit [_ [Hts _]]].
    destruct (Hnetwork c (networkCall 31000 31800)
                (Network.pingResult (Resolved "True")) eq_refl)
      as [_ [Hexpired _]].
    fold c. split; [|split].
    + destruct Hhit as [_ Hk]; [vm_compute; reflexivity|].
      rewrite Hk. reflexivity.
    + destruct Hexpired as [_ Hk]; [vm_compute; discriminate|].
      rewrite Hk. reflexivity.
    + exact Hts.
Defined.

(** C7, as stated, fails for the network probe: a second invocation one
    second after the first, well within the 30 s window, returns a
    different report, with a new time stamp and a connectivity object
    that now carries [fromCache: true]; the reports differ even when the
    second invocation reads exactly what the first one read. *)
Lemma network_report_not_cached :
  let first := Network.getNetworkStatus Network.initialCache
                 (networkCall 1000 1800) in
  let second := Network.getNetworkStatus (snd first) (networkCall 2000 2010) in
  let again := Network.getNetworkStatus (snd first) (networkCall 1000 1800) in
  2000 - 1000 < Network.CONNECTIVITY_CACHE_TTL /\
  fst second <> fst first /\
  Network.timestamp (fst first) = 1800 /\
  Network.timestamp (fst second) = 2010 /\
  Network.fromCache (Network.internetConnectivity (fst first)) = None /\
  Network.fromCache (Network.internetConnectivity (fst second)) = Some true /\
  fst again <> fst first.
Proof.
  cbv zeta.
  split; [vm_compute; reflexivity|].
  split; [intros H; apply (f_equal Network.timestamp) in H;
          vm_compute in H; discriminate H|].
  split; [vm_compute; reflexivity|].
  split; [vm_compute; reflexivity|].
  split; [vm_compute; reflexivity|].
  split; [vm_compute; reflexivity|].
  intros H.
  apply (f_equal (fun r => Network.fromCache (Network.internetConnectivity r)))
    in H.
  vm_compute in H. discriminate H.
Qed.

End ProbeSpec.

(** ** Further properties of the primary entrypoint *)

Module AlertsExtra.

Import Js Alerts Samples Props AlertsSpec.

(** *** How many alerts a report can carry *)

Lemma gt_90_gt_80 (x : number) :
  gt x (int 90) = true -> gt x (int 80) = true.
Proof.
  destruct x as [|h]; simpl; [discriminate|].
  intros H. apply Z.ltb_lt in H. apply Z.ltb_lt. lia.
Qed.

Lemma gt_90_gt_85 (x : number) :
  gt x (int 90) = true -> gt x (int 85) = true.
Proof.
  destruct x as [|h]; simpl; [discriminate|].
  intros H. apply Z.ltb_lt in H. apply Z.ltb_lt. lia.
Qed.

Lemma lt_5_lt_20 (x : number) :
  lt x (int 5) = true -> lt x (int 20) = true.
Proof.
  destruct x as [|h]; simpl; [discriminate|].
  intros H. apply Z.ltb_lt in H. apply Z.ltb_lt. lia.
Qed.

Lemma cpuAlerts_warning cpu a :
  warning (cpuAlerts cpu a) =
  (warning a ++
   if negb (gt cpu (int 90)) && gt cpu (int 80)
   then [("CPU elevated: " ++ toString cpu ++ "%")%string] else [])%list.
Proof.
  unfold cpuAlerts.
  destruct (gt cpu (int 90)); simpl; [now rewrite app_nil_r|].
  destruct (gt cpu (int 80)); simpl; [reflexivity|now rewrite app_nil_r].
Qed.

Lemma memoryAlerts_warning m a :
  warning (memoryAlerts m a) =
  (warning a ++
   if negb (gt (usagePercent m) (int 90)) && gt (usagePercent m) (int 85)
   then [("Memory elevated: " ++ toString (usagePercent m) ++ "%")%string]
   else [])%list.
Proof.
  unfold memoryAlerts.
  destruct (gt (usagePercent m) (int 90)); simpl; [now rewrite app_nil_r|].
  destruct (gt (usagePercent m) (int 85)); simpl;
    [reflexivity|now rewrite app_nil_r].
Qed.

Lemma diskAlerts_warning d a :
  warning (diskAlerts d a) =
  (warning a ++
   if negb (lt (toNumber (percentFree d)) (int 5))
      && lt (toNumber (percentFree d)) (int 20)
   then [("Low disk space: " ++ vtoString (percentFree d) ++ "% free")%string]
   else [])%list.
Proof.
  unfold diskAlerts.
  destruct (lt (toNumber (percentFree d)) (int 5)); simpl;
    [now rewrite app_nil_r|].
  destruct (lt (toNumber (percentFree d)) (int 20)); simpl;
    [reflexivity|now rewrite app_nil_r].
Qed.

Lemma securityAlerts_warning s a : warning (securityAlerts s a) = warning a.
Proof.
  unfold securityAlerts.
  now destruct (defenderDisabled s), (firewallDisabled s).
Qed.

Lemma classify_warning stamp r :
  warning (classify stamp r) =
  ((if negb (gt (cpuUsage r) (int 90)) && gt (cpuUsage r) (int 80)
    then [("CPU elevated: " ++ toString (cpuUsage r) ++ "%")%string]
    else []) ++
   (if negb (gt (usagePercent (memUsage r)) (int 90))
       && gt (usagePercent (memUsage r)) (int 85)
    then [("Memory elevated: " ++
           toString (usagePercent (memUsage r)) ++ "%")%string]
    else []) ++
   (if negb (lt (toNumber (percentFree (diskUsage r))) (int 5))
       && lt (toNumber (percentFree (diskUsage r))) (int 20)
    then [("Low disk space: " ++
           vtoString (percentFree (diskUsage r)) ++ "% free")%string]
    else []))%list.
Proof.
  unfold classify.
  rewrite securityAlerts_warning, diskAlerts_warning,
    memoryAlerts_warning, cpuAlerts_warning.
  simpl. now rewrite <- !app_assoc.
Qed.

(** The three numeric checks raise one alert each at most, the two
    security checks one critical alert each. *)
Lemma classify_lengths stamp r :
  (List.length (critical (classify stamp r)) <= 5)%nat /\
  (List.length (warning (classify stamp r)) <= 3)%nat /\
  (List.length (critical (classify stamp r))
   + List.length (warning (classify stamp r)) <= 5)%nat.
Proof.
  rewrite classify_critical, classify_warning.
  destruct (gt (cpuUsage r) (int 90)), (gt (cpuUsage r) (int 80)),
    (gt (usagePercent (memUsage r)) (int 90)),
    (gt (usagePercent (memUsage r)) (int 85)),
    (lt (toNumber (percentFree (diskUsage r))) (int 5)),
    (lt (toNumber (percentFree (diskUsage r))) (int 20)),
    (defenderDisabled (securityStatus r)),
    (firewallDisabled (securityStatus r));
    cbn [negb andb app List.length]; lia.
Qed.

(** X1.  A returned report carries at most five critical alerts, at most
    three warnings and at most five alerts in all, so its score lies
    between 25 and 100: the floor at 0 of [calculateHealthScore] is never
    reached. *)
Theorem alert_counts_bounded (calls : list Invocation) (r : Report) :
  In r (fst (run initialCache calls)) ->
  (List.length (critical (alerts r)) <= 5)%nat /\
  (List.length (warning (alerts r)) <= 3)%nat /\
  (List.length (critical (alerts r))
   + List.length (warning (alerts r)) <= 5)%nat /\
  25 <= score (systemHealthScore r) <= 100 /\
  score (systemHealthScore r) =
    100 - 15 * Z.of_nat (List.length (critical (alerts r)))
        - 5 * Z.of_nat (List.length (warning (alerts r))).
Proof.
  intros Hin.
  destruct (returned_is_fresh calls r Hin) as [i [_ ->]].
  cbn [alerts systemHealthScore freshReport].
  destruct (classify_lengths (stamp i) (readings i)) as [Hc [Hw Ht]].
  rewrite calculateHealthScore_score. unfold specScore.
  repeat split; lia.
Qed.

Lemma alert_counts_bounded_witness :
  score (systemHealthScore (freshReport (at_time 1000 allCritical))) = 25.
Proof.
  destruct (alert_counts_bounded [at_time 1000 allCritical]
              (freshReport (at_time 1000 allCritical)))
    as [_ [_ [_ [_ Hs]]]].
  - vm_compute. left. reflexivity.
  - rewrite Hs. vm_compute. reflexivity.
Defined.

(** X2.  In a returned report, warnings alone never lower the status
    band: without a critical alert the status is Good.  The status
    Critical needs at least four critical alerts. *)
Theorem status_in_practice (calls : list Invocation) (r : Report) :
  In r (fst (run initialCache calls)) ->
  (critical (alerts r) = [] -> status (systemHealthScore r) = "Good") /\
  (status (systemHealthScore r) = "Critical" ->
   (4 <= List.length (critical (alerts r)))%nat).
Proof.
  intros Hin.
  destruct (returned_is_fresh calls r Hin) as [i [_ ->]].
  cbn [alerts systemHealthScore freshReport].
  destruct (classify_lengths (stamp i) (readings i)) as [Hc [Hw Ht]].
  pose proof (calculateHealthScore_status
                (classify (stamp i) (readings i))) as Hs.
  cbv zeta in Hs. rewrite calculateHealthScore_score in Hs.
  unfold specScore in Hs. destruct Hs as [Hgood [Hfair [Hpoor _]]].
  split.
  - intros Hnil. apply Hgood. rewrite Hnil. simpl List.length. lia.
  - intros Hcrit.
    destruct (Nat.le_gt_cases 4
                (List.length (critical (classify (stamp i) (readings i)))))
      as [Hge|Hlt]; [exact Hge|exfalso].
    set (c := Z.of_nat (List.length (critical (classify (stamp i)
                                                 (readings i))))) in *.
    set (w := Z.of_nat (List.length (warning (classify (stamp i)
                                               (readings i))))) in *.
    assert (Hs : 40 <= Z.max 0 (100 - 15 * c - 5 * w)) by lia.
    destruct (Z_le_gt_dec 80 (Z.max 0 (100 - 15 * c - 5 * w))) as [H80|H80].
    { rewrite (Hgood H80) in Hcrit. discriminate Hcrit. }
    destruct (Z_le_gt_dec 60 (Z.max 0 (100 - 15 * c - 5 * w))) as [H60|H60].
    { rewrite Hfair in Hcrit by lia. discriminate Hcrit. }
    rewrite Hpoor in Hcrit by lia. discriminate Hcrit.
Qed.

Lemma status_in_practice_witness :
  status (systemHealthScore (freshReport (at_time 1000 (withCpu (int 85)))))
  = "Good".
Proof.
  destruct (status_in_practice [at_time 1000 (withCpu (int 85))]
              (freshReport (at_time 1000 (withCpu (int 85)))))
    as [Hgood _].
  - vm_compute. left. reflexivity.
  - apply Hgood. vm_compute. reflexivity.
Defined.

(** *** What the cap at two recommendations keeps *)

(** X3.  The cap never hides a probe: [get_performance_stats] is in the
    recommendation set exactly when CPU is above 80 or memory above 85,
    [get_system_health] exactly when less than 20% of the disk is free or
    Defender is disabled, and no other probe is ever recommended. *)
Theorem recommended_probes (calls : list Invocation) (r : Report) :
  In r (fst (run initialCache calls)) ->
  exists i, In i calls /\ r = freshReport i /\
    (In "get_performance_stats" (nextStepsToCheck r) <->
     performanceRule (readings i) = true) /\
    (In "get_system_health" (nextStepsToCheck r) <->
     diskRule (readings i) = true \/ defenderRule (readings i) = true) /\
    (forall p, In p (nextStepsToCheck r) ->
               p = "get_performance_stats" \/ p = "get_system_health").
Proof.
  intros Hin.
  destruct (returned_is_fresh calls r Hin) as [i [Hi ->]].
  exists i. split; [exact Hi|]. split; [reflexivity|].
  rewrite nextSteps_of_fresh. unfold firedRules.
  destruct (performanceRule _), (diskRule _), (defenderRule _); simpl;
    repeat split; intros; intuition (try discriminate; try congruence).
Qed.

Lemma recommended_probes_witness :
  In "get_system_health"
     (nextStepsToCheck (freshReport (at_time 1000 lowDiskDefenderOff))).
Proof.
  destruct (recommended_probes [at_time 1000 lowDiskDefenderOff]
              (freshReport (at_time 1000 lowDiskDefenderOff)))
    as [i [Hi [_ [_ [Hsys _]]]]].
  - vm_compute. left. reflexivity.
  - apply Hsys. destruct Hi as [<-|[]]. left. vm_compute. reflexivity.
Defined.

(** X4.  Every alert but the firewall's comes with a recommendation:
    the recommendation set of a returned report is empty exactly when the
    report has no warning and no critical alert other than "Windows
    Firewall is disabled". *)
Theorem no_recommendation_iff (calls : list Invocation) (r : Report) :
  In r (fst (run initialCache calls)) ->
  (nextStepsToCheck r = [] <->
   warning (alerts r) = [] /\
   forall m, In m (critical (alerts r)) ->
             m = "⚠️ Windows Firewall is disabled").
Proof.
  intros Hin.
  destruct (returned_is_fresh calls r Hin) as [i [_ ->]].
  rewrite nextSteps_of_fresh. cbn [alerts freshReport].
  rewrite classify_critical, classify_warning.
  unfold firedRules, performanceRule, diskRule, defenderRule.
  destruct (gt (cpuUsage (readings i)) (int 90)) eqn:C90;
    [rewrite (gt_90_gt_80 _ C90)|];
    (destruct (gt (usagePercent (memUsage (readings i))) (int 90)) eqn:M90;
       [rewrite (gt_90_gt_85 _ M90)|]);
    (destruct (lt (toNumber (percentFree (diskUsage (readings i)))) (int 5))
       eqn:D5; [rewrite (lt_5_lt_20 _ D5)|]);
    destruct (defenderDisabled (securityStatus (readings i)));
    destruct (firewallDisabled (securityStatus (readings i)));
    try destruct (gt (cpuUsage (readings i)) (int 80));
    try destruct (gt (usagePercent (memUsage (readings i))) (int 85));
    try destruct (lt (toNumber (percentFree (diskUsage (readings i))))
                     (int 20));
    cbn [negb andb orb app firstn];
    (split;
     [ intros Hn; first
         [ discriminate Hn
         | split; [reflexivity|];
           intros m Hm; simpl in Hm;
           destruct Hm as [<-|[]]; reflexivity
         | split; [reflexivity|]; intros m [] ]
     | intros [Hw Hc]; first
         [ reflexivity
         | discriminate Hw
         | exfalso; specialize (Hc _ (or_introl eq_refl));
           cbn in Hc; discriminate Hc ] ]).
Qed.

Lemma no_recommendation_iff_witness :
  nextStepsToCheck (freshReport (at_time 1000 firewallOnly)) = [].
Proof.
  apply (no_recommendation_iff [at_time 1000 firewallOnly]).
  - vm_compute. left. reflexivity.
  - split; [vm_compute; reflexivity|].
    intros m Hm. vm_compute in Hm. destruct Hm as [<-|[]]. reflexivity.
Defined.

(** *** When the summary says healthy *)

(** X5.  A returned report says "System healthy" exactly when it carries
    no critical alert and no warning, which is exactly when its score is
    100. *)
Theorem healthy_summary_iff (calls : list Invocation) (r : Report) :
  In r (fst (run initialCache calls)) ->
  (actionableSummary r = "✅ System healthy (score: 100/100)" <->
   critical (alerts r) = [] /\ warning (alerts r) = []) /\
  (score (systemHealthScore r) = 100 <->
   critical (alerts r) = [] /\ warning (alerts r) = []).
Proof.
  intros Hin.
  destruct (returned_is_fresh calls r Hin) as [i [_ ->]].
  pose proof (nextSteps_cases i) as Hn. cbv zeta in Hn.
  pose proof (classify_info (stamp i) (readings i)) as Hinfo.
  destruct (generateSummary_shape _ _ Hinfo Hn) as [Hc [Hw Hh]].
  change (actionableSummary (freshReport i))
    with (generateSummary (classify (stamp i) (readings i))
            (nextStepsToCheck (freshReport i))).
  remember (nextStepsToCheck (freshReport i)) as n eqn:En. clear En Hn.
  cbn [alerts systemHealthScore freshReport].
  remember (classify (stamp i) (readings i)) as a eqn:Ea. clear Ea Hinfo.
  split.
  - split.
    + intros Hsum.
      destruct (critical a) as [|c cs] eqn:Ec.
      * destruct (warning a) as [|w ws] eqn:Ew; [now split|].
        rewrite Hw in Hsum by (reflexivity || discriminate).
        cbn in Hsum. discriminate Hsum.
      * rewrite Hc in Hsum by discriminate.
        cbn in Hsum. discriminate Hsum.
    + intros [Ec Ew]. now apply Hh.
  - rewrite calculateHealthScore_score. unfold specScore.
    split.
    + intros Hs.
      destruct (critical a); [|simpl List.length in Hs; lia].
      destruct (warning a); [now split|simpl List.length in Hs; lia].
    + intros [-> ->]. reflexivity.
Qed.

Lemma healthy_summary_iff_witness :
  actionableSummary (freshReport (at_time 1000 nominal)) =
  "✅ System healthy (score: 100/100)".
Proof.
  destruct (healthy_summary_iff [at_time 1000 nominal]
              (freshReport (at_time 1000 nominal))) as [[_ Hs] _].
  - vm_compute. left. reflexivity.
  - apply Hs. split; vm_compute; reflexivity.
Defined.

(** *** How often the cache is refilled *)

(** *** The two guarded collectors *)

Lemma app_one_neq {A} (l : list A) (x : A) : (l ++ [x])%list <> l.
Proof.
  intros H. apply (f_equal (@List.length A)) in H.
  rewrite length_app in H. simpl in H. lia.
Qed.

Lemma pushCritical_neq m a : pushCritical m a <> a.
Proof.
  intros H. apply (f_equal critical) in H. simpl in H.
  exact (app_one_neq _ _ H).
Qed.

Lemma pushWarning_neq m a : pushWarning m a <> a.
Proof.
  intros H. apply (f_equal warning) in H. simpl in H.
  exact (app_one_neq _ _ H).
Qed.

(** X7.  Whatever PowerShell answers and however [parseFloat] reads it,
    the reading of [getDiskQuickCheck] is never NaN (an unreadable answer
    becomes "N/A"), and its two flags agree with what the aggregator does
    with the reading: [critical] is set exactly when the disk check adds a
    critical alert, [warning] exactly when it adds an alert at all, which
    is exactly when the disk rule of [buildNextSteps] fires. *)
Theorem disk_flags_agree (parseFloat : string -> number)
    (volume : exec_result) (a : AlertLists) :
  let d := getDiskQuickCheck parseFloat volume in
  percentFree d <> Val NaN /\
  (diskCritical d = true <-> critical (diskAlerts d a) <> critical a) /\
  (diskWarning d = true <-> diskAlerts d a <> a) /\
  diskWarning d = lt (toNumber (percentFree d)) (int 20).
Proof.
  cbv zeta. unfold getDiskQuickCheck.
  assert (Hna : forall d,
             percentFree d = NA -> diskCritical d = false ->
             diskWarning d = false ->
             percentFree d <> Val NaN /\
             (diskCritical d = true <-> critical (diskAlerts d a) <> critical a) /\
             (diskWarning d = true <-> diskAlerts d a <> a) /\
             diskWarning d = lt (toNumber (percentFree d)) (int 20)).
  { intros d Hp Hc Hw. unfold diskAlerts. rewrite Hp, Hc, Hw.
    cbn [toNumber lt]. repeat split; try discriminate; congruence. }
  destruct volume as [stdout| |]; [|now apply Hna|now apply Hna].
  destruct (parseFloat (trim stdout)) as [|h] eqn:Ep; [now apply Hna|].
  cbn [isNaN percentFree diskCritical diskWarning].
  unfold diskAlerts. cbn [percentFree toNumber lt int].
  destruct (h <? 5 * 100) eqn:E5.
  - assert (E20 : (h <? 20 * 100) = true).
    { apply Z.ltb_lt in E5. apply Z.ltb_lt. lia. }
    rewrite E20. repeat split; try discriminate; try reflexivity.
    + intros _. cbn [critical pushCritical]. apply app_one_neq.
    + intros _. apply pushCritical_neq.
  - destruct (h <? 20 * 100) eqn:E20.
    + repeat split; try discriminate; try reflexivity.
      * intros H. cbn [critical pushWarning] in H. congruence.
      * intros _. apply pushWarning_neq.
    + repeat split; try discriminate; try reflexivity;
        intros H; congruence.
Qed.

(** X8.  What [getSecurityQuickCheck] reports, read on the outcomes of
    its two queries.  Defender is reported disabled exactly when no call
    threw and the Defender query answered "True" (white space aside).
    The firewall is reported disabled exactly when no call threw and the
    firewall query was rejected, answered nothing but white space, or
    answered a text that [parseInt] reads as 0. *)
Theorem security_reading_characterised (defender firewall : exec_result) :
  let s := getSecurityQuickCheck defender firewall in
  (defenderDisabled s = true <->
   firewall <> Thrown /\
   exists out, defender = Resolved out /\ trim out = "True") /\
  (firewallDisabled s = true <->
   defender <> Thrown /\
   (firewall = Rejected \/
    exists out, firewall = Resolved out /\
                (trim out = "" \/ parseInt (trim out) = int 0))).
Proof.
  cbv zeta. unfold getSecurityQuickCheck.
  assert (Hzero : forall n, strictEq n (int 0) = true <-> n = int 0).
  { intros [|h]; simpl; split; try discriminate.
    - intros H. apply Z.eqb_eq in H. now subst.
    - intros H. inversion H. reflexivity. }
  destruct defender as [dout| |]; destruct firewall as [fout| |];
    cbn [caught defenderDisabled firewallDisabled].
  - split.
    + rewrite String.eqb_eq. split.
      * intros H. split; [discriminate|]. now exists dout.
      * intros [_ [out [E H]]]. now inversion E; subst.
    + rewrite Hzero. unfold orElse.
      destruct (String.eqb_spec (trim fout) "") as [Ee|Ene].
      * split; [intros _|reflexivity].
        split; [discriminate|]. right. exists fout. split; [reflexivity|now left].
      * split.
        -- intros H. split; [discriminate|]. right. exists fout.
           split; [reflexivity|now right].
        -- intros [_ [H|[out [E [H|H]]]]]; [discriminate| |];
             inversion E; subst; [contradiction|exact H].
  - split.
    + rewrite String.eqb_eq. split.
      * intros H. split; [discriminate|]. now exists dout.
      * intros [_ [out [E H]]]. now inversion E; subst.
    + split; [intros _|reflexivity]. split; [discriminate|now left].
  - split; (split; [discriminate|]).
    + intros [H _]. now elim H.
    + intros [_ [H|[out [H _]]]]; discriminate.
  - split.
    + split; [discriminate|]. intros [_ [out [E _]]]. discriminate.
    + rewrite Hzero. unfold orElse.
      destruct (String.eqb_spec (trim fout) "") as [Ee|Ene].
      * split; [intros _|reflexivity].
        split; [discriminate|]. right. exists fout. split; [reflexivity|now left].
      * split.
        -- intros H. split; [discriminate|]. right. exists fout.
           split; [reflexivity|now right].
        -- intros [_ [H|[out [E [H|H]]]]]; [discriminate| |];
             inversion E; subst; [contradiction|exact H].
  - split.
    + split; [discriminate|]. intros [_ [out [E _]]]. discriminate.
    + split; [intros _|reflexivity]. split; [discriminate|now left].
  - split; (split; [discriminate|]).
    + intros [H _]. now elim H.
    + intros [_ [H|[out [H _]]]]; discriminate.
  - split; (split; [discriminate|]).
    + intros [_ [out [E _]]]. discriminate.
    + intros [H _]. now elim H.
  - split; (split; [discriminate|]).
    + intros [_ [out [E _]]]. discriminate.
    + intros [H _]. now elim H.
  - split; (split; [discriminate|]).
    + intros [_ [out [E _]]]. discriminate.
    + intros [H _]. now elim H.
Qed.

End AlertsExtra.

(** ** Properties of overlapping invocations *)

Module OverlapExtra.

Import Js Alerts AlertsOverlap Samples.

Lemma getHealthAlerts_refill (c : Cache) (i : Invocation) :
  alertCache c <> None ->
  let c' := snd (getHealthAlerts c i) in
  alertCache c' <> None /\
  (c' = c \/ cacheTimestamp c + CACHE_TTL <= cacheTimestamp c').
Proof.
  intros Hfull. cbv zeta. unfold getHealthAlerts.
  destruct (alertCache c) as [cached|] eqn:Ec; [|congruence].
  destruct (Z.ltb_spec (now i - cacheTimestamp c) CACHE_TTL) as [Hlt|Hge].
  - cbn [snd]. split; [congruence|now left].
  - cbn [snd alertCache cacheTimestamp]. split; [discriminate|right; lia].
Qed.

Lemma getHealthAlerts_two_phase (c : Cache) (i : Invocation) :
  getHealthAlerts c i =
    match start c (now i) (stamp i) with
    | Served cached => (cached, c)
    | Awaiting p => resume p (readings i) (cachedStamp i)
    end.
Proof.
  destruct i as [n st r cs]. unfold getHealthAlerts, start. cbn [now stamp].
  destruct (alertCache c); [|reflexivity].
  destruct (n - cacheTimestamp c <? CACHE_TTL); reflexivity.
Qed.

Lemma exec_alone (c : Cache) (i : Invocation) :
  exec (idle c) (alone i) = idle (snd (getHealthAlerts c i)).
Proof.
  rewrite getHealthAlerts_two_phase.
  unfold exec, alone, idle. cbn [fold_left step cache awaiting].
  destruct (start c (now i) (stamp i)) as [cached|p]; reflexivity.
Qed.

Lemma exec_app (s : State) (es1 es2 : list event) :
  exec s (es1 ++ es2)%list = exec (exec s es1) es2.
Proof. apply fold_left_app. Qed.

Lemma exec_alone_run (calls : list Invocation) (c : Cache) :
  exec (idle c) (flat_map alone calls) = idle (snd (run c calls)).
Proof.
  revert c. induction calls as [|i rest IH]; intros c; [reflexivity|].
  cbn [flat_map]. rewrite exec_app, exec_alone, IH.
  cbn [run]. destruct (getHealthAlerts c i) as [r c1]. cbn [snd].
  destruct (run c1 rest) as [rs c2]. reflexivity.
Qed.

Lemma run_refill (c : Cache) (calls : list Invocation) :
  alertCache c <> None ->
  snd (run c calls) = c \/
  cacheTimestamp c + CACHE_TTL <= cacheTimestamp (snd (run c calls)).
Proof.
  revert c. induction calls as [|i rest IH]; intros c Hfull; [now left|].
  simpl.
  destruct (getHealthAlerts_refill c i Hfull) as [Hfull1 Hstep].
  destruct (getHealthAlerts c i) as [r1 c1]. cbn [snd] in *.
  specialize (IH c1 Hfull1).
  destruct (run c1 rest) as [rs c2]. cbn [snd] in *.
  unfold CACHE_TTL in *.
  destruct Hstep as [->|Hstep]; [exact IH|].
  right. destruct IH as [->|IH]; lia.
Qed.

Lemma overlap_writes (c : Cache) (now1 stamp1 now2 stamp2 : Z)
    (r1 r2 : Readings) (cached1 cached2 : Z) :
  alertCache c = None \/
  (CACHE_TTL <= now1 - cacheTimestamp c /\
   CACHE_TTL <= now2 - cacheTimestamp c) ->
  let first :=
    freshReport {| now := now1; stamp := stamp1; readings := r1;
                   cachedStamp := cached1 |} in
  let second :=
    freshReport {| now := now2; stamp := stamp2; readings := r2;
                   cachedStamp := cached2 |} in
  let s := exec (idle c)
             [Call now1 stamp1; Call now2 stamp2; Settle 1 r2 cached2] in
  cache s = {| alertCache := Some second; cacheTimestamp := now2 |} /\
  exec s [Settle 0 r1 cached1] =
    idle {| alertCache := Some first; cacheTimestamp := now1 |}.
Proof.
  intros Hmiss. cbv zeta.
  assert (H1 : start c now1 stamp1 =
               Awaiting {| startedAt := now1; startStamp := stamp1 |}).
  { unfold start. destruct (alertCache c); [|reflexivity].
    destruct Hmiss as [Hmiss|[Hmiss _]]; [discriminate|].
    destruct (Z.ltb_spec (now1 - cacheTimestamp c) CACHE_TTL);
      [lia|reflexivity]. }
  assert (H2 : start c now2 stamp2 =
               Awaiting {| startedAt := now2; startStamp := stamp2 |}).
  { unfold start. destruct (alertCache c); [|reflexivity].
    destruct Hmiss as [Hmiss|[_ Hmiss]]; [discriminate|].
    destruct (Z.ltb_spec (now2 - cacheTimestamp c) CACHE_TTL);
      [lia|reflexivity]. }
  unfold exec, idle. cbn [fold_left step cache awaiting].
  rewrite H1. cbn [cache awaiting app]. rewrite H2.
  cbn [cache awaiting app nth_error]. split; reflexivity.
Qed.

(** X6.  [getHealthAlerts] is its part before the [await] followed by
    its part after it, and invocations that run one at a time behave as
    sessions do: once the cache holds a report they leave it untouched
    or stamp it at least 3000 ms later, so the recorded instant never
    goes back.  Invocations that overlap do not keep this.  When two of
    them both miss the cache and the second finishes first, the cache
    holds the second's report stamped with the second's start, and the
    first then overwrites it with its own report, stamped with its own,
    earlier start, however little time has passed. *)
Theorem refill_spacing_needs_no_overlap :
  (forall (c : Cache) (i : Invocation),
      getHealthAlerts c i =
        match start c (now i) (stamp i) with
        | Served cached => (cached, c)
        | Awaiting p => resume p (readings i) (cachedStamp i)
        end) /\
  (forall (c : Cache) (calls : list Invocation),
      let s := exec (idle c) (flat_map alone calls) in
      s = idle (snd (run c calls)) /\
      (alertCache c <> None ->
       cache s = c \/ cacheTimestamp c + 3000 <= cacheTimestamp (cache s))) /\
  (forall (c : Cache) (now1 stamp1 now2 stamp2 : Z) (r1 r2 : Readings)
          (cached1 cached2 : Z),
      alertCache c = None \/
      (3000 <= now1 - cacheTimestamp c /\ 3000 <= now2 - cacheTimestamp c) ->
      let first :=
        freshReport {| now := now1; stamp := stamp1; readings := r1;
                       cachedStamp := cached1 |} in
      let second :=
        freshReport {| now := now2; stamp := stamp2; readings := r2;
                       cachedStamp := cached2 |} in
      let s := exec (idle c)
                 [Call now1 stamp1; Call now2 stamp2; Settle 1 r2 cached2] in
      cache s = {| alertCache := Some second; cacheTimestamp := now2 |} /\
      exec s [Settle 0 r1 cached1] =
        idle {| alertCache := Some first; cacheTimestamp := now1 |}).
Proof.
  split; [exact getHealthAlerts_two_phase|]. split.
  - intros c calls. cbv zeta. rewrite exec_alone_run.
    split; [reflexivity|]. intros Hfull. cbn [idle cache].
    exact (run_refill c calls Hfull).
  - intros c now1 stamp1 now2 stamp2 r1 r2 cached1 cached2 Hmiss.
    exact (overlap_writes c now1 stamp1 now2 stamp2 r1 r2 cached1 cached2
             Hmiss).
Qed.

Lemma refill_spacing_needs_no_overlap_witness :
  (let c := snd (run initialCache [at_time 1000 nominal]) in
   cache (exec (idle c)
            (flat_map alone [at_time 2000 allCritical;
                             at_time 3500 allCritical])) = c) /\
  (let s := exec (idle initialCache)
              [Call 1000 1000; Call 1500 1500;
               Settle 1 allCritical 1700] in
   cacheTimestamp (cache s) = 1500 /\
   cacheTimestamp (cache (exec s [Settle 0 nominal 1900])) = 1000).
Proof.
  destruct refill_spacing_needs_no_overlap as [_ [Hseq Hoverlap]].
  split; cbv zeta.
  - destruct (Hseq (snd (run initialCache [at_time 1000 nominal]))
                [at_time 2000 allCritical; at_time 3500 allCritical])
      as [_ [H|H]].
    + vm_compute. discriminate.
    + exact H.
    + exfalso. vm_compute in H. apply H. reflexivity.
  - destruct (Hoverlap initialCache 1000 1000 1500 1500
                nominal allCritical 1900 1700)
      as [H2 H1]; [now left|].
    cbv zeta in H1, H2. rewrite H1, H2. split; reflexivity.
Defined.

End OverlapExtra.

(** ** Further properties of the thermal probe *)

Module ThermalExtra.

Import Js JsOps Thermal ThermalCollectors.

Lemma string_app_assoc (s t u : string) : (s ++ t) ++ u = s ++ t ++ u.
Proof. induction s as [|c s IH]; simpl; [reflexivity|now rewrite IH]. Qed.

Lemma above_reflect (v : value) (n : Z) :
  isNumber v && gt (toNumber v) (int n) = true <-> above v n.
Proof.
  unfold above. destruct v as [|[|h]]; simpl.
  - split; [discriminate|]. intros [h [E _]]. discriminate.
  - split; [discriminate|]. intros [h [E _]]. discriminate.
  - rewrite Z.ltb_lt. split.
    + intros H. now exists h.
    + intros [h' [E H]]. now inversion E; subst.
Qed.

Lemma isTrue_reflect (t : throttle) : isTrue t = true <-> t = Known true.
Proof. destruct t as [[|]|]; simpl; split; congruence. Qed.

(** The chain of tests of [getThermalStatus], with its order resolved. *)
Lemma assess_outcome (cpuTemp gpuTemp : value) (throttling : throttle) :
  let hot := (isNumber cpuTemp && gt (toNumber cpuTemp) (int 95))
             || isTrue throttling in
  let warm := (isNumber cpuTemp && gt (toNumber cpuTemp) (int 85))
              || (isNumber gpuTemp && gt (toNumber gpuTemp) (int 85)) in
  fst (fst (assess cpuTemp gpuTemp throttling)) =
    (if hot then "critical" else if warm then "warning" else "info") /\
  snd (assess cpuTemp gpuTemp throttling) =
    (if hot then ["get_performance_stats"] else []).
Proof.
  cbv zeta. unfold assess.
  destruct (isNumber cpuTemp && gt (toNumber cpuTemp) (int 95));
    [now split|].
  destruct (isTrue throttling); [now split|].
  destruct (isNumber cpuTemp && gt (toNumber cpuTemp) (int 85));
    [now split|].
  destruct (isNumber gpuTemp && gt (toNumber gpuTemp) (int 85));
    [now split|].
  destruct (isNumber cpuTemp && le (toNumber cpuTemp) (int 85)); now split.
Qed.

Lemma freshReport_assess (i : Invocation) :
  severity (freshReport i) =
    fst (fst (assess (cpuTemp i) (gpuTemp i) (throttling i))) /\
  nextStepsToCheck (freshReport i) =
    snd (assess (cpuTemp i) (gpuTemp i) (throttling i)).
Proof.
  unfold freshReport.
  destruct (assess (cpuTemp i) (gpuTemp i) (throttling i)) as [[sev recs] nxt].
  now split.
Qed.

Lemma thermal_severity_parts (i : Invocation) :
  (severity (freshReport i) = "critical" <->
   above (cpuTemp i) 95 \/ throttling i = Known true) /\
  (nextStepsToCheck (freshReport i) = ["get_performance_stats"] <->
   above (cpuTemp i) 95 \/ throttling i = Known true).
Proof.
  destruct (freshReport_assess i) as [-> ->].
  destruct (assess_outcome (cpuTemp i) (gpuTemp i) (throttling i))
    as [-> ->].
  rewrite <- !above_reflect, <- isTrue_reflect.
  destruct (isNumber (cpuTemp i) && gt (toNumber (cpuTemp i)) (int 95)),
    (isTrue (throttling i)),
    (isNumber (cpuTemp i) && gt (toNumber (cpuTemp i)) (int 85)),
    (isNumber (gpuTemp i) && gt (toNumber (gpuTemp i)) (int 85));
    cbn [orb]; repeat split; intros; intuition (try discriminate).
Qed.

(** X9.  A freshly computed thermal report is critical exactly when the
    CPU temperature is a number above 95 or throttling is reported true;
    otherwise it is a warning exactly when the CPU or the GPU temperature
    is a number above 85, and info in all other cases.  The GPU alone
    never makes it critical, and [get_performance_stats] is the next step
    exactly for critical reports. *)
Theorem thermal_severity (i : Invocation) :
  let r := freshReport i in
  let hot := above (cpuTemp i) 95 \/ throttling i = Known true in
  let warm := above (cpuTemp i) 85 \/ above (gpuTemp i) 85 in
  (severity r = "critical" <-> hot) /\
  (severity r = "warning" <-> ~ hot /\ warm) /\
  (severity r = "info" <-> ~ hot /\ ~ warm) /\
  (nextStepsToCheck r = ["get_performance_stats"] <-> hot) /\
  (nextStepsToCheck r = [] <-> ~ hot).
Proof.
  cbv zeta.
  destruct (freshReport_assess i) as [-> ->].
  destruct (assess_outcome (cpuTemp i) (gpuTemp i) (throttling i))
    as [-> ->].
  rewrite <- !above_reflect, <- isTrue_reflect.
  destruct (isNumber (cpuTemp i) && gt (toNumber (cpuTemp i)) (int 95)),
    (isTrue (throttling i)),
    (isNumber (cpuTemp i) && gt (toNumber (cpuTemp i)) (int 85)),
    (isNumber (gpuTemp i) && gt (toNumber (gpuTemp i)) (int 85));
    cbn [orb]; repeat split; intros; intuition (try discriminate).
Qed.

(** X10.  When the CPU temperature is unavailable the summary of a fresh
    thermal report is the fixed "unavailable" text, whatever the GPU
    temperature and the throttling state: a report made critical by
    throttling then says nothing of throttling in its summary. *)
Theorem thermal_summary_without_cpu (i : Invocation) :
  cpuTemp i = NA ->
  actionableSummary (freshReport i) =
    "Temperature data unavailable (requires elevated privileges or hardware sensors)"
  /\ (throttling i = Known true -> severity (freshReport i) = "critical").
Proof.
  intros Hcpu. split.
  - unfold freshReport.
    destruct (assess _ _ _) as [[sev recs] nxt].
    cbn [actionableSummary]. unfold summary. now rewrite Hcpu.
  - intros Ht.
    destruct (freshReport_assess i) as [-> _].
    destruct (assess_outcome (cpuTemp i) (gpuTemp i) (throttling i))
      as [-> _].
    rewrite Hcpu, Ht. reflexivity.
Qed.

Lemma thermal_summary_without_cpu_witness :
  severity (freshReport ExtraSamples.throttledNoSensor) = "critical" /\
  actionableSummary (freshReport ExtraSamples.throttledNoSensor) =
    "Temperature data unavailable (requires elevated privileges or hardware sensors)".
Proof.
  destruct (thermal_summary_without_cpu ExtraSamples.throttledNoSensor)
    as [Hs Hc]; [reflexivity|].
  split; [apply Hc; vm_compute; reflexivity|exact Hs].
Defined.

(** X11.  [getGPUTemperature] answers "N/A" exactly when [nvidia-smi]
    fails or prints nothing.  Any other output is passed to [parseInt],
    so an output without a leading integer gives NaN, which the report
    treats as a number: the GPU unit is shown, the GPU never counts as
    above 85, and the summary of a report with a CPU temperature reads
    "GPU: NaN". *)
Theorem gpu_temperature_unreadable (out : string) (i : Invocation) :
  out <> "" ->
  parseInt (trim out) = NaN ->
  gpuTemp i = getGPUTemperature (Resolved out) ->
  (forall q, getGPUTemperature q = NA <->
             q = Rejected \/ q = Thrown \/ q = Resolved "") /\
  temperatureCelsius (gpu (freshReport i)) = Val NaN /\
  unit (gpu (freshReport i)) = "°C" /\
  ~ above (gpuTemp i) 85 /\
  (forall h, cpuTemp i = Val (Num h) -> throttling i <> Known true ->
     actionableSummary (freshReport i) =
     "CPU: " ++ toString (Num h) ++ "°C, GPU: NaN°C").
Proof.
  intros Hne Hnan Hgpu.
  assert (Hval : gpuTemp i = Val NaN).
  { rewrite Hgpu. unfold getGPUTemperature, truthy.
    destruct (String.eqb_spec out "") as [E|_]; [contradiction|].
    cbn [negb]. now rewrite Hnan. }
  split.
  { intros q. unfold getGPUTemperature, truthy. destruct q as [o| |].
    - destruct (String.eqb_spec o "") as [->|Ho]; cbn [negb].
      + split; [intros _; now right; right|reflexivity].
      + split; [discriminate|].
        intros [H|[H|H]]; try discriminate. inversion H. contradiction.
    - split; [intros _; now left|reflexivity].
    - split; [intros _; now right; left|reflexivity]. }
  assert (Hrep : gpu (freshReport i) =
                 {| temperatureCelsius := gpuTemp i;
                    unit := if isNumber (gpuTemp i) then "°C" else "N/A" |}
                 /\ actionableSummary (freshReport i) =
                    summary (cpuTemp i) (gpuTemp i) (throttling i)).
  { unfold freshReport. destruct (assess _ _ _) as [[sev recs] nxt].
    now split. }
  destruct Hrep as [Hg Hs]. rewrite Hg, Hs, Hval. cbn [temperatureCelsius unit isNumber].
  repeat split.
  - intros [h [E _]]. discriminate E.
  - intros h Hcpu Hthr. unfold summary. rewrite Hcpu.
    cbn [isNumber vtoString].
    destruct (isTrue (throttling i)) eqn:Et.
    + apply isTrue_reflect in Et. contradiction.
    + rewrite !string_app_assoc. reflexivity.
Qed.

Lemma gpu_temperature_unreadable_witness :
  actionableSummary (freshReport ExtraSamples.unsupportedGpu) =
  "CPU: 61.5°C, GPU: NaN°C".
Proof.
  destruct (gpu_temperature_unreadable "[N/A]
" ExtraSamples.unsupportedGpu) as [_ [_ [_ [_ Hs]]]].
  - discriminate.
  - vm_compute. reflexivity.
  - reflexivity.
  - rewrite (Hs 6150); [vm_compute; reflexivity|reflexivity|].
    vm_compute. discriminate.
Defined.

(** X12.  With the CPU temperature not above 95, a fresh thermal report
    is critical exactly when the throttling query answers "True" (white
    space aside): a throttling query that fails, or answers anything
    else, never raises the severity to critical. *)
Theorem throttling_query_effect (now : Z) (cpuTemp : value)
    (nvidia throttlingQuery fanQuery : exec_result) (stamp cachedStamp : Z) :
  ~ above cpuTemp 95 ->
  (severity (freshReport (invocation now cpuTemp nvidia throttlingQuery
                            fanQuery stamp cachedStamp)) = "critical" <->
   exists out, throttlingQuery = Resolved out /\ trim out = "True").
Proof.
  intros Hcool.
  destruct (thermal_severity_parts (invocation now cpuTemp nvidia
              throttlingQuery fanQuery stamp cachedStamp)) as [Hc _].
  rewrite Hc. cbn [Thermal.cpuTemp Thermal.throttling invocation].
  unfold checkThermalThrottling. split.
  - intros [H|H]; [contradiction|].
    destruct throttlingQuery as [o| |]; try discriminate.
    exists o. split; [reflexivity|].
    apply String.eqb_eq. injection H as H. exact H.
  - intros [o [-> Ho]]. right. apply String.eqb_eq in Ho. now rewrite Ho.
Qed.

Lemma throttling_query_effect_witness :
  severity (freshReport ExtraSamples.throttledNoSensor) = "critical".
Proof.
  apply (throttling_query_effect 1000 NA Rejected (Resolved "True
") (Resolved "3") 1150 1150).
  - intros [h [E _]]. discriminate E.
  - eexists. split; [reflexivity|vm_compute; reflexivity].
Defined.

End ThermalExtra.

(** ** Further properties of the network probe *)

Module NetworkExtra.

Import Js JsOps Network NetworkCollectors.

(** *** The interfaces *)

Lemma findFamily_existsb (f : string) (addrs : list Address) :
  existsb (fun a => String.eqb (family a) f) addrs =
  match findFamily f addrs with Some _ => true | None => false end.
Proof.
  unfold findFamily. induction addrs as [|a rest IH]; [reflexivity|].
  simpl. destruct (String.eqb (family a) f); [reflexivity|exact IH].
Qed.

Lemma orElse_not_empty (s fallback : string) :
  fallback <> "" -> orElse s fallback <> "".
Proof.
  intros Hf. unfold orElse.
  destruct (String.eqb_spec s "") as [E|E]; [exact Hf|exact E].
Qed.

(** X13.  [getNetworkInterfaces] lists, in the order of the operating
    system, exactly the entries that have an IPv4 or an IPv6 address, and
    no field of a listed interface is ever empty: what is missing reads
    "N/A". *)
Theorem interfaces_listed (entries : list (string * list Address)) :
  map name (getNetworkInterfaces entries) =
  map fst
    (filter (fun e =>
               existsb (fun a => String.eqb (family a) "IPv4") (snd e)
               || existsb (fun a => String.eqb (family a) "IPv6") (snd e))
            entries) /\
  Forall (fun i => ipv4 i <> "" /\ ipv6 i <> "" /\ mac i <> "")
         (getNetworkInterfaces entries).
Proof.
  induction entries as [|[n addrs] rest [IHn IHf]]; [now split|].
  cbn [getNetworkInterfaces filter snd].
  rewrite !findFamily_existsb.
  assert (Hfields : forall a4 a6,
             orElse (addressOf a4) "N/A" <> "" /\
             orElse (addressOf a6) "N/A" <> "" /\
             orElse (orElse (macOf a4) (macOf a6)) "N/A" <> "").
  { intros. repeat split; apply orElse_not_empty; discriminate. }
  destruct (findFamily "IPv4" addrs) as [a4|] eqn:E4;
    destruct (findFamily "IPv6" addrs) as [a6|] eqn:E6;
    cbn [orb map fst name];
    try (split; [now rewrite IHn|constructor; [apply Hfields|exact IHf]]).
  now split.
Qed.

Lemma findFamily_real (f : string) (addrs : list Address) (a : Address) :
  Forall realAddress addrs -> findFamily f addrs = Some a -> realAddress a.
Proof.
  unfold findFamily. intros Hall Hfind.
  apply find_some in Hfind as [Hin _].
  rewrite Forall_forall in Hall. now apply Hall.
Qed.

Lemma orElse_real (a : Address) :
  realAddress a -> String.eqb (orElse (address a) "N/A") "N/A" = false.
Proof.
  intros [Hne Hna]. unfold orElse.
  destruct (String.eqb_spec (address a) "") as [E|_]; [contradiction|].
  now apply String.eqb_neq.
Qed.

(** X14.  When every address the operating system lists is real (not
    empty, not the text "N/A"), every interface listed by
    [getNetworkInterfaces] counts as active in [getNetworkStatus]: the
    filter of the summary removes nothing, so the summary of an
    unreachable network counts all listed interfaces. *)
Theorem listed_interfaces_are_active
    (entries : list (string * list Address))
    (connectivity : Connectivity) (d : Devices) :
  Forall wellFormedEntry entries ->
  filter (fun i => negb (String.eqb (ipv4 i) "N/A")
                   || negb (String.eqb (ipv6 i) "N/A"))
         (getNetworkInterfaces entries) = getNetworkInterfaces entries /\
  (connected connectivity = false ->
   summary (getNetworkInterfaces entries) connectivity d =
   let n := Z.of_nat (List.length (getNetworkInterfaces entries)) in
   "❌ No internet connectivity - " ++ toString (int n) ++
   " interface" ++ plural (negb (n =? 1)) ++ " detected but unreachable").
Proof.
  intros Hwf.
  assert (Hfilter :
    filter (fun i => negb (String.eqb (ipv4 i) "N/A")
                     || negb (String.eqb (ipv6 i) "N/A"))
           (getNetworkInterfaces entries) = getNetworkInterfaces entries).
  { induction entries as [|[n addrs] rest IH]; [reflexivity|].
    inversion Hwf as [|? ? Hhead Hrest]; subst.
    unfold wellFormedEntry in Hhead. cbn [snd] in Hhead.
    cbn [getNetworkInterfaces].
    destruct (findFamily "IPv4" addrs) as [a4|] eqn:E4;
      destruct (findFamily "IPv6" addrs) as [a6|] eqn:E6;
      [ | | |now apply IH];
      cbn [filter ipv4 ipv6 addressOf];
      try rewrite (orElse_real a4 (findFamily_real _ _ _ Hhead E4));
      try rewrite (orElse_real a6 (findFamily_real _ _ _ Hhead E6));
      cbn [negb orb]; rewrite ?orb_true_r; now rewrite IH. }
  split; [exact Hfilter|].
  intros Hdown. unfold summary. rewrite Hdown, Hfilter. reflexivity.
Qed.

Lemma listed_interfaces_are_active_witness :
  List.length (getNetworkInterfaces ExtraSamples.twoEntries) = 2%nat /\
  filter (fun i => negb (String.eqb (ipv4 i) "N/A")
                   || negb (String.eqb (ipv6 i) "N/A"))
         (getNetworkInterfaces ExtraSamples.twoEntries) =
  getNetworkInterfaces ExtraSamples.twoEntries.
Proof.
  split; [reflexivity|].
  apply (listed_interfaces_are_active ExtraSamples.twoEntries
           (pingResult Rejected) (getConnectedDevices Rejected Rejected Rejected)).
  repeat constructor; simpl; discriminate.
Defined.

(** *** The connected devices *)

Lemma orZero_num (n : number) :
  exists h, orZero n = Num h /\
            (strictEq (orZero n) (int 0) = true <-> h = 0).
Proof.
  destruct n as [|h]; simpl.
  - exists 0. split; [reflexivity|]. split; reflexivity.
  - destruct (Z.eqb_spec h 0) as [->|Hne].
    + exists 0. split; [reflexivity|]. split; reflexivity.
    + exists h. split; [reflexivity|]. simpl.
      rewrite Z.eqb_eq. reflexivity.
Qed.

(** X15.  [getConnectedDevices] always answers in one of three shapes:
    the counts of [Get-PnpDevice], both numbers and not both zero, with
    their sum as total; or the USB count of the WMI fallback, with
    Bluetooth "N/A" and the USB count as total; or "N/A" three times.
    A count is never NaN, and the total is "N/A" only when the USB count
    is. *)
Theorem connected_devices_shapes (pnpUsb pnpBt wmiUsb : exec_result) :
  let d := getConnectedDevices pnpUsb pnpBt wmiUsb in
  ((exists u b,
      (u <> 0 \/ b <> 0) /\
      usbDevices d = Val (Num u) /\ bluetoothDevices d = Val (Num b) /\
      totalConnectedDevices d = Val (Num (u + b)) /\
      method d = Some "Get-PnpDevice") \/
   (exists u,
      usbDevices d = Val (Num u) /\ bluetoothDevices d = NA /\
      totalConnectedDevices d = Val (Num u) /\
      method d = Some "WMI (USB only)") \/
   (usbDevices d = NA /\ bluetoothDevices d = NA /\
    totalConnectedDevices d = NA /\ method d = None)) /\
  (totalConnectedDevices d = NA <-> usbDevices d = NA) /\
  deviceError d = None.
Proof.
  cbv zeta. unfold getConnectedDevices.
  assert (Hwmi : forall q,
    match getWMIDeviceCount q with
    | Some d =>
        exists u, usbDevices d = Val (Num u) /\ bluetoothDevices d = NA /\
                  totalConnectedDevices d = Val (Num u) /\
                  method d = Some "WMI (USB only)" /\ deviceError d = None
    | None => True
    end).
  { intros [o| |]; simpl; trivial.
    destruct (orZero_num (parseInt (trim o))) as [u [-> _]].
    exists u. repeat split. }
  destruct (getPnpDeviceCount pnpUsb pnpBt) as [d|] eqn:Epnp.
  - unfold getPnpDeviceCount in Epnp.
    destruct pnpUsb as [uo| |]; try discriminate.
    destruct pnpBt as [bo| |]; try discriminate.
    destruct (orZero_num (parseInt (trim uo))) as [u [Eu Hu]].
    destruct (orZero_num (parseInt (trim bo))) as [b [Eb Hb]].
    destruct (strictEq (orZero (parseInt (trim uo))) (int 0)) eqn:Su;
      destruct (strictEq (orZero (parseInt (trim bo))) (int 0)) eqn:Sb;
      cbn [andb] in Epnp; try discriminate;
      injection Epnp as <-; rewrite Eu, Eb; cbn;
      (split; [left; exists u, b; repeat split|
               split; [split; discriminate|reflexivity]]).
    + right. intros Hz. apply Hb in Hz. discriminate Hz.
    + left. intros Hz. apply Hu in Hz. discriminate Hz.
    + left. intros Hz. apply Hu in Hz. discriminate Hz.
  - specialize (Hwmi wmiUsb).
    destruct (getWMIDeviceCount wmiUsb) as [d|].
    + destruct Hwmi as [u [Hu [Hb [Ht [Hm He]]]]].
      split; [right; left; now exists u|].
      rewrite Hu, Ht. split; [split; discriminate|exact He].
    + cbn. split; [right; right; repeat split|].
      split; [split; reflexivity|reflexivity].
Qed.

(** *** The severity of a network report *)

Lemma getNetworkStatus_severity (c : Cache) (i : Invocation) :
  severity (fst (getNetworkStatus c i)) =
  fst (assess (fst (checkInternetConnectivity c (now i) (ping i)))
              (devices i)).
Proof.
  unfold getNetworkStatus.
  destruct (checkInternetConnectivity c _ _) as [k c'].
  cbn [fst]. now destruct (assess k _) as [sev recs].
Qed.

Lemma devices_method (pnpUsb pnpBt wmiUsb : exec_result) :
  let d := getConnectedDevices pnpUsb pnpBt wmiUsb in
  match getPnpDeviceCount pnpUsb pnpBt with
  | Some _ =>
      isNA (usbDevices d) || isNA (bluetoothDevices d) = false /\
      method d = Some "Get-PnpDevice"
  | None =>
      isNA (usbDevices d) || isNA (bluetoothDevices d) = true /\
      method d <> Some "Get-PnpDevice"
  end.
Proof.
  cbv zeta. unfold getConnectedDevices.
  destruct (getPnpDeviceCount pnpUsb pnpBt) as [d|] eqn:Epnp.
  - unfold getPnpDeviceCount in Epnp.
    destruct pnpUsb as [uo| |]; try discriminate.
    destruct pnpBt as [bo| |]; try discriminate.
    destruct (_ && _) in Epnp; try discriminate.
    injection Epnp as <-. now split.
  - destruct wmiUsb as [wo| |]; cbn; split; (reflexivity || discriminate).
Qed.

(** X16.  A network report is critical exactly when the connectivity
    check says not connected.  When connected, it is a warning exactly
    when [Get-PnpDevice] gave no usable counts (a query failed or both
    counts are zero), and info otherwise: a report is info only if
    [Get-PnpDevice] found at least one USB or Bluetooth device. *)
Theorem network_severity (c : Cache) (now : Z)
    (entries : list (string * list Address))
    (ping pnpUsb pnpBt wmiUsb : exec_result) (stamp : Z) :
  let r := fst (getNetworkStatus c
                  (invocation now entries ping pnpUsb pnpBt wmiUsb stamp)) in
  let up := connected (internetConnectivity r) in
  (severity r = "critical" <-> up = false) /\
  (severity r = "warning" <->
   up = true /\ getPnpDeviceCount pnpUsb pnpBt = None) /\
  (severity r = "info" <->
   up = true /\ method (connectedDevices r) = Some "Get-PnpDevice").
Proof.
  cbv zeta.
  set (i := invocation now entries ping pnpUsb pnpBt wmiUsb stamp).
  rewrite (getNetworkStatus_severity c i).
  destruct (ProbeSpec.getNetworkStatus_connectivity c i) as [-> _].
  destruct (ProbeSpec.getNetworkStatus_recomputed c i) as [_ [_ ->]].
  set (k := fst (checkInternetConnectivity c (Network.now i) (Network.ping i))).
  cbn [devices i invocation].
  pose proof (devices_method pnpUsb pnpBt wmiUsb) as Hm. cbv zeta in Hm.
  unfold assess.
  destruct (connected k); cbn [negb];
    [|repeat split; intros; intuition discriminate].
  destruct (getPnpDeviceCount pnpUsb pnpBt) as [d|];
    destruct Hm as [-> Hm];
    repeat split; intros; try reflexivity; try discriminate;
    try exact Hm; intuition (try discriminate; try congruence).
Qed.

(** *** The cached ping *)



End NetworkExtra.

(** ** Properties of the system probe *)

Module SystemHealthExtra.

Import Js JsOps SystemHealth SystemHealthProps.

Lemma isFalse_reflect (t : tri) : isFalse t = true <-> t = Known false.
Proof. destruct t as [[|]|]; simpl; split; congruence. Qed.

Lemma below_reflect (v : value) (n : Z) :
  isNumber v && lt (toNumber v) (int n) = true <-> below v n.
Proof.
  unfold below. destruct v as [|[|h]]; simpl.
  - split; [discriminate|]. intros [h [E _]]. discriminate.
  - split; [discriminate|]. intros [h [E _]]. discriminate.
  - rewrite Z.ltb_lt. split.
    + intros H. now exists h.
    + intros [h' [E H]]. now inversion E; subst.
Qed.

Lemma fromTo_reflect (v : value) (a b : Z) :
  isNumber v && ge (toNumber v) (int a) && lt (toNumber v) (int b) = true
  <-> fromTo v a b.
Proof.
  unfold fromTo. destruct v as [|[|h]]; simpl.
  - split; [discriminate|]. intros [h [E _]]. discriminate.
  - split; [discriminate|]. intros [h [E _]]. discriminate.
  - rewrite andb_true_iff, Z.leb_le, Z.ltb_lt. split.
    + intros H. now exists h.
    + intros [h' [E H]]. now inversion E; subst.
Qed.

Lemma fromUpTo_reflect (v : value) (a b : Z) :
  isNumber v && ge (toNumber v) (int a) && le (toNumber v) (int b) = true
  <-> fromUpTo v a b.
Proof.
  unfold fromUpTo. destruct v as [|[|h]]; simpl.
  - split; [discriminate|]. intros [h [E _]]. discriminate.
  - split; [discriminate|]. intros [h [E _]]. discriminate.
  - rewrite andb_true_iff, !Z.leb_le. split.
    + intros H. now exists h.
    + intros [h' [E H]]. now inversion E; subst.
Qed.

(** *** The three groups of checks, one at a time *)

Section Checks.

Variables (defender : Defender) (firewall : Firewall) (updates : Updates)
          (errors : SystemErrors) (disk : Disk).

(** The tests of [getSystemHealth] as booleans. *)
Let hot : bool :=
  isFalse (active defender) || isFalse (firewallActive firewall)
  || (isNumber (percentFree disk)
      && lt (toNumber (percentFree disk)) (int 5))
  || (isNumber (errors24h errors)
      && gt (toNumber (errors24h errors)) (int 10)).

Let warm : bool :=
  (isNumber (percentFree disk)
   && ge (toNumber (percentFree disk)) (int 5)
   && lt (toNumber (percentFree disk)) (int 20))
  || (isNumber (errors24h errors)
      && ge (toNumber (errors24h errors)) (int 5)
      && le (toNumber (errors24h errors)) (int 10)).

Let updating : bool :=
  isTrue (pending updates) && negb (isNA (updateCount updates)).

Let start : Findings :=
  {| severity := "info"; recommendations := []; nextStepsToCheck := [];
     criticalIssues := []; warnings := [] |}.

Lemma criticalChecks_outcome :
  let f := criticalChecks defender firewall errors disk start in
  severity f = (if hot then "critical" else "info") /\
  nextStepsToCheck f =
    (if isNumber (errors24h errors)
        && gt (toNumber (errors24h errors)) (int 10)
     then ["get_performance_stats"] else []) /\
  (criticalIssues f = [] <-> hot = false) /\
  warnings f = [].
Proof.
  cbv zeta. unfold criticalChecks, hot, start.
  destruct (isFalse (active defender)),
    (isFalse (firewallActive firewall)),
    (isNumber (percentFree disk)
     && lt (toNumber (percentFree disk)) (int 5)),
    (isNumber (errors24h errors)
     && gt (toNumber (errors24h errors)) (int 10));
    cbn [severity nextStepsToCheck criticalIssues warnings orb app];
    repeat split; intros; try reflexivity; discriminate.
Qed.

Lemma warningChecks_critical (f : Findings) :
  severity f = "critical" -> warningChecks updates errors disk f = f.
Proof. intros H. unfold warningChecks. now rewrite H. Qed.

Lemma warningChecks_calm (f : Findings) :
  severity f = "info" ->
  let g := warningChecks updates errors disk f in
  severity g = (if warm then "warning" else "info") /\
  nextStepsToCheck g = nextStepsToCheck f /\
  criticalIssues g = criticalIssues f /\
  (warnings f = [] ->
   (warnings g = [] <-> warm = false /\ updating = false)).
Proof.
  intros H. cbv zeta. unfold warningChecks, warm, updating. rewrite H.
  replace (String.eqb "info" "critical") with false by reflexivity.
  destruct (isNumber (percentFree disk)
            && ge (toNumber (percentFree disk)) (int 5)
            && lt (toNumber (percentFree disk)) (int 20)),
    (isNumber (errors24h errors)
     && ge (toNumber (errors24h errors)) (int 5)
     && le (toNumber (errors24h errors)) (int 10)),
    (isTrue (pending updates) && negb (isNA (updateCount updates)));
    cbn [severity nextStepsToCheck criticalIssues warnings orb];
    (split; [try reflexivity; exact H|]);
    (split; [reflexivity|]); (split; [reflexivity|]);
    intros Hw; rewrite ?Hw; cbn [app];
    split; intros H0; try discriminate H0; try reflexivity;
    try (split; reflexivity);
    destruct H0 as [H1 H2]; try discriminate H1; discriminate H2.
Qed.

Lemma infoChecks_keeps (f : Findings) :
  let g := infoChecks defender firewall disk f in
  severity g = severity f /\ nextStepsToCheck g = nextStepsToCheck f /\
  criticalIssues g = criticalIssues f /\ warnings g = warnings f.
Proof.
  cbv zeta. unfold infoChecks.
  destruct (String.eqb (severity f) "info"); repeat split.
Qed.

(** The outcome of the checks, with the order of the tests resolved. *)
Lemma findings_outcome :
  let f := findings defender firewall updates errors disk in
  severity f =
    (if hot then "critical" else if warm then "warning" else "info") /\
  nextStepsToCheck f =
    (if isNumber (errors24h errors)
        && gt (toNumber (errors24h errors)) (int 10)
     then ["get_performance_stats"] else []) /\
  (criticalIssues f = [] <-> hot = false) /\
  (hot = false -> (warnings f = [] <-> warm = false /\ updating = false)) /\
  (hot = true -> warnings f = []).
Proof.
  cbv zeta. unfold findings. fold start.
  destruct criticalChecks_outcome as [Hs [Hn [Hc Hw]]]. cbv zeta in *.
  set (f1 := criticalChecks defender firewall errors disk start) in *.
  destruct (infoChecks_keeps (warningChecks updates errors disk f1))
    as [-> [-> [-> ->]]].
  destruct hot eqn:Ehot.
  - rewrite (warningChecks_critical f1 Hs).
    split; [exact Hs|]. split; [exact Hn|]. split; [exact Hc|].
    split; [discriminate|]. intros _. exact Hw.
  - destruct (warningChecks_calm f1 Hs) as [-> [-> [-> Hw2]]].
    split; [reflexivity|]. split; [exact Hn|]. split; [exact Hc|].
    split; [intros _; exact (Hw2 Hw)|discriminate].
Qed.

End Checks.

Lemma hot_reflect (defender : Defender) (firewall : Firewall)
    (errors : SystemErrors) (disk : Disk) :
  isFalse (active defender) || isFalse (firewallActive firewall)
  || (isNumber (percentFree disk)
      && lt (toNumber (percentFree disk)) (int 5))
  || (isNumber (errors24h errors)
      && gt (toNumber (errors24h errors)) (int 10)) = true
  <-> criticalCondition defender firewall errors disk.
Proof.
  unfold criticalCondition.
  rewrite !orb_true_iff, !isFalse_reflect, below_reflect,
    ThermalExtra.above_reflect.
  tauto.
Qed.

Lemma warm_reflect (errors : SystemErrors) (disk : Disk) :
  (isNumber (percentFree disk)
   && ge (toNumber (percentFree disk)) (int 5)
   && lt (toNumber (percentFree disk)) (int 20))
  || (isNumber (errors24h errors)
      && ge (toNumber (errors24h errors)) (int 5)
      && le (toNumber (errors24h errors)) (int 10)) = true
  <-> warningCondition errors disk.
Proof.
  unfold warningCondition.
  rewrite orb_true_iff, fromTo_reflect, fromUpTo_reflect. tauto.
Qed.

Lemma buildSummary_mark (defender : Defender) (firewall : Firewall)
    (disk : Disk) (f : Findings) :
  (exists rest,
     buildSummary defender firewall disk f = "🔴 CRITICAL: " ++ rest)
  <-> criticalIssues f <> [].
Proof.
  unfold buildSummary.
  destruct (criticalIssues f) as [|c cs].
  - split; [|intros H; now elim H].
    intros [rest Hrest]. exfalso.
    destruct (warnings f); destruct (isNumber (percentFree disk));
      cbn in Hrest; discriminate Hrest.
  - split; [discriminate|]. intros _.
    cbn [List.length Nat.ltb Nat.leb]. eexists. reflexivity.
Qed.

(** X18.  A system report is critical exactly when Defender or the
    firewall is known to be inactive, less than 5% of the disk is free,
    or more than 10 errors were logged; otherwise it is a warning exactly
    when between 5% and 20% of the disk is free or 5 to 10 errors were
    logged; otherwise info.  Its summary starts with the critical mark
    exactly when it is critical, and [get_performance_stats] is the next
    step exactly when more than 10 errors were logged. *)
Theorem system_severity (defender : Defender) (firewall : Firewall)
    (updates : Updates) (errors : SystemErrors) (disk : Disk) (stamp : Z) :
  let r := getSystemHealth defender firewall updates errors disk stamp in
  let hot := criticalCondition defender firewall errors disk in
  let warm := warningCondition errors disk in
  (reportSeverity r = "critical" <-> hot) /\
  (reportSeverity r = "warning" <-> ~ hot /\ warm) /\
  (reportSeverity r = "info" <-> ~ hot /\ ~ warm) /\
  ((exists rest, actionableSummary r = "🔴 CRITICAL: " ++ rest) <-> hot) /\
  (reportNextSteps r = ["get_performance_stats"] <->
   ThermalCollectors.above (errors24h errors) 10) /\
  (reportNextSteps r = [] <->
   ~ ThermalCollectors.above (errors24h errors) 10).
Proof.
  cbv zeta. unfold getSystemHealth.
  cbn [reportSeverity actionableSummary reportNextSteps].
  pose proof (findings_outcome defender firewall updates errors disk) as H.
  cbv zeta in H. destruct H as [Hs [Hn [Hc [Hw0 Hw1]]]].
  rewrite Hs, Hn.
  rewrite <- hot_reflect, <- warm_reflect, <- ThermalExtra.above_reflect.
  set (f := findings defender firewall updates errors disk) in *.
  set (hot := isFalse (active defender) || isFalse (firewallActive firewall)
              || (isNumber (percentFree disk)
                  && lt (toNumber (percentFree disk)) (int 5))
              || (isNumber (errors24h errors)
                  && gt (toNumber (errors24h errors)) (int 10))) in *.
  set (warm := (isNumber (percentFree disk)
                && ge (toNumber (percentFree disk)) (int 5)
                && lt (toNumber (percentFree disk)) (int 20))
               || (isNumber (errors24h errors)
                   && ge (toNumber (errors24h errors)) (int 5)
                   && le (toNumber (errors24h errors)) (int 10))) in *.
  assert (Hsum : (exists rest,
                    buildSummary defender firewall disk f =
                    "🔴 CRITICAL: " ++ rest) <-> hot = true).
  { rewrite buildSummary_mark. destruct hot.
    - split; [reflexivity|]. intros _ H. apply Hc in H. discriminate H.
    - split; [|discriminate]. intros H. elim H. now apply Hc. }
  split; [|split; [|split; [|split; [exact Hsum|]]]].
  - destruct hot; [split; reflexivity|].
    destruct warm; split; discriminate.
  - destruct hot; [split; [discriminate|intros [H _]; now elim H]|].
    destruct warm; split; try discriminate; try (intros [_ H]; discriminate);
      intros _; split; [discriminate|reflexivity].
  - destruct hot; [split; [discriminate|intros [H _]; now elim H]|].
    destruct warm; split; try discriminate;
      try (intros [_ H]; now elim H);
      intros _; split; discriminate.
  - destruct (isNumber (errors24h errors)
              && gt (toNumber (errors24h errors)) (int 10));
      repeat split; intros; try reflexivity; try discriminate;
      intuition discriminate.
Qed.

(** X19.  Pending updates never change the severity of a system
    report: the severity is the same whatever the update reading.  They
    do show in the summary: a report with pending updates and nothing
    else to report has severity info, a summary that announces the
    updates behind the warning mark, and the recommendation "System
    security and stability look good". *)
Theorem pending_updates_keep_severity (defender : Defender)
    (firewall : Firewall) (updates updates' : Updates)
    (errors : SystemErrors) (disk : Disk) (stamp : Z) :
  let r := getSystemHealth defender firewall updates errors disk stamp in
  reportSeverity r =
    reportSeverity
      (getSystemHealth defender firewall updates' errors disk stamp) /\
  (forall n,
     ~ criticalCondition defender firewall errors disk ->
     ~ warningCondition errors disk ->
     pending updates = Known true -> updateCount updates = Val n ->
     reportSeverity r = "info" /\
     actionableSummary r =
       "🟡 " ++ toString n ++ " Windows update" ++
       (if notOne (Val n) then "s" else "") ++ " pending" /\
     In "System security and stability look good"
        (reportRecommendations r)).
Proof.
  cbv zeta. split.
  - unfold getSystemHealth. cbn [reportSeverity].
    pose proof (findings_outcome defender firewall updates errors disk) as H.
    pose proof (findings_outcome defender firewall updates' errors disk)
      as H'.
    cbv zeta in H, H'. destruct H as [-> _]. destruct H' as [-> _].
    reflexivity.
  - intros n Hhot Hwarm Hp Hn.
    rewrite <- hot_reflect in Hhot. rewrite <- warm_reflect in Hwarm.
    apply not_true_is_false in Hhot. apply not_true_is_false in Hwarm.
    apply orb_false_iff in Hhot as [Hhot He].
    apply orb_false_iff in Hhot as [Hhot Hd].
    apply orb_false_iff in Hhot as [Hdef Hfw].
    apply orb_false_iff in Hwarm as [Hwd Hwe].
    unfold getSystemHealth, buildSummary, findings, criticalChecks.
    cbn [reportSeverity actionableSummary reportRecommendations].
    rewrite Hdef, Hfw, Hd, He.
    unfold warningChecks. cbn [severity].
    replace (String.eqb "info" "critical") with false by reflexivity.
    rewrite Hwd, Hwe, Hp, Hn.
    cbn [isTrue isNA negb andb severity warnings recommendations
         criticalIssues app].
    unfold infoChecks. cbn [severity].
    replace (String.eqb "info" "info") with true by reflexivity.
    cbn [severity warnings criticalIssues recommendations
         List.length Nat.ltb Nat.leb join vtoString].
    split; [reflexivity|]. split; [reflexivity|].
    destruct (isTrue (active defender)), (isTrue (firewallActive firewall)),
      (isNumber (percentFree disk)
       && ge (toNumber (percentFree disk)) (int 20));
      cbn [app In]; tauto.
Qed.

Lemma pending_updates_keep_severity_witness :
  let r := getSystemHealth (getDefenderStatus (Resolved "False"))
             (getFirewallStatus (Resolved "3"))
             (getPendingUpdates (Resolved "3"))
             (getSystemErrors (Resolved "0")) ExtraSamples.roomyDisk 1000 in
  reportSeverity r = "info" /\
  actionableSummary r = "🟡 3 Windows updates pending".
Proof.
  cbv zeta.
  destruct (pending_updates_keep_severity
              (getDefenderStatus (Resolved "False"))
              (getFirewallStatus (Resolved "3"))
              (getPendingUpdates (Resolved "3"))
              (getPendingUpdates Rejected)
              (getSystemErrors (Resolved "0")) ExtraSamples.roomyDisk 1000)
    as [_ H].
  destruct (H (int 3)) as [Hs [Hsum _]].
  - intros Hc. apply hot_reflect in Hc. vm_compute in Hc. discriminate Hc.
  - intros Hw. apply warm_reflect in Hw. vm_compute in Hw. discriminate Hw.
  - reflexivity.
  - reflexivity.
  - split; [exact Hs|]. rewrite Hsum. vm_compute. reflexivity.
Defined.

(** X20.  When all five queries fail, the system report is not a
    warning: its severity is info, its summary reads "System healthy"
    with nothing named as active, and its one recommendation is "System
    security and stability look good". *)
Theorem all_queries_failed_reads_healthy (parseFloat : string -> number)
    (q1 q2 q3 q4 q5 : exec_result) (stamp : Z) :
  q1 = Rejected \/ q1 = Thrown -> q2 = Rejected \/ q2 = Thrown ->
  q3 = Rejected \/ q3 = Thrown -> q4 = Rejected \/ q4 = Thrown ->
  q5 = Rejected \/ q5 = Thrown ->
  let r := probe parseFloat q1 q2 q3 q4 q5 stamp in
  reportSeverity r = "info" /\
  actionableSummary r = "✅ System healthy ( active)" /\
  reportRecommendations r = ["System security and stability look good"] /\
  reportNextSteps r = [].
Proof.
  intros [-> | ->] [-> | ->] [-> | ->] [-> | ->] [-> | ->];
    cbv zeta; repeat split; vm_compute; reflexivity.
Qed.

Lemma all_queries_failed_reads_healthy_witness :
  actionableSummary
    (probe (fun _ => NaN) Rejected Rejected Thrown Rejected Rejected 1000)
  = "✅ System healthy ( active)".
Proof.
  apply (all_queries_failed_reads_healthy (fun _ => NaN) Rejected Rejected
           Thrown Rejected Rejected 1000);
    first [now left|now right].
Defined.

(** X21.  [getFirewallStatus] reports the firewall inactive exactly when
    the query answers and [parseInt] does not read a positive number from
    the answer, and "Unknown" exactly when the query fails.  So, unlike a
    failed query, an answer that cannot be read as a positive count makes
    the system report critical. *)
Theorem firewall_status_reading (query : exec_result) :
  (firewallActive (getFirewallStatus query) = Known false <->
   exists out, query = Resolved out /\
               gt (parseInt (trim out)) (int 0) = false) /\
  (firewallActive (getFirewallStatus query) = Unknown <->
   query = Rejected \/ query = Thrown) /\
  (forall parseFloat q1 q3 q4 q5 stamp,
     firewallActive (getFirewallStatus query) = Known false ->
     reportSeverity (probe parseFloat q1 query q3 q4 q5 stamp) = "critical").
Proof.
  split; [|split].
  - destruct query as [out| |]; simpl.
    + split.
      * intros H. exists out. split; [reflexivity|]. now injection H.
      * intros [o [E H]]. injection E as <-. now rewrite H.
    + split; [discriminate|]. intros [o [E _]]. discriminate E.
    + split; [discriminate|]. intros [o [E _]]. discriminate E.
  - destruct query as [out| |]; simpl.
    + split; [discriminate|]. intros [H|H]; discriminate H.
    + split; [intros _; now left|reflexivity].
    + split; [intros _; now right|reflexivity].
  - intros parseFloat q1 q3 q4 q5 stamp Hfw.
    unfold probe, getSystemHealth. cbn [reportSeverity].
    pose proof (findings_outcome (getDefenderStatus q1)
                  (getFirewallStatus query) (getPendingUpdates q3)
                  (getSystemErrors q4) (getDiskHealth parseFloat q5)) as H.
    cbv zeta in H. destruct H as [-> _].
    rewrite Hfw. cbn [isFalse]. now rewrite orb_true_r.
Qed.

End SystemHealthExtra.

(** ** Properties of the performance probe and of the uptime *)

Module PerformanceExtra.

Import Js JsOps Performance.

Ltac by_length H :=
  apply (f_equal (@List.length string)) in H;
  rewrite ?length_app in H; simpl in H; lia.

(** X22.  The performance probe and the primary entrypoint classify the
    same CPU and memory readings alike: the probe's severity is critical
    exactly when the entrypoint's CPU and memory checks add a critical
    alert, warning exactly when they add a warning but no critical alert,
    and info exactly when they add nothing.  [get_thermal_status] is the
    next step exactly for critical reports. *)
Theorem performance_agrees_with_alerts (options : Options)
    (cpuUsage : number) (memory : Alerts.MemUsage) (diskIO : DiskIO)
    (processQuery : processes_result) (cores stamp : Z)
    (a : Alerts.AlertLists) :
  let r := getPerformanceStats options cpuUsage memory diskIO processQuery
             cores stamp in
  let a' := Alerts.memoryAlerts memory (Alerts.cpuAlerts cpuUsage a) in
  (severity r = "critical" <-> Alerts.critical a' <> Alerts.critical a) /\
  (severity r = "warning" <->
   Alerts.critical a' = Alerts.critical a /\
   Alerts.warning a' <> Alerts.warning a) /\
  (severity r = "info" <-> a' = a) /\
  (nextStepsToCheck r = ["get_thermal_status"] <-> severity r = "critical") /\
  (nextStepsToCheck r = [] <-> severity r <> "critical").
Proof.
  cbv zeta. unfold getPerformanceStats.
  cbn [severity nextStepsToCheck].
  rewrite AlertsSpec.memoryAlerts_critical, AlertsSpec.cpuAlerts_critical,
    AlertsExtra.memoryAlerts_warning, AlertsExtra.cpuAlerts_warning.
  assert (Hsame : Alerts.memoryAlerts memory (Alerts.cpuAlerts cpuUsage a) = a
                  <-> gt cpuUsage (int 80) = false /\
                      gt (Alerts.usagePercent memory) (int 85) = false).
  { unfold Alerts.memoryAlerts, Alerts.cpuAlerts.
    destruct (gt cpuUsage (int 90)) eqn:C90;
      [rewrite (AlertsExtra.gt_90_gt_80 _ C90)|];
      (destruct (gt (Alerts.usagePercent memory) (int 90)) eqn:M90;
         [rewrite (AlertsExtra.gt_90_gt_85 _ M90)|]);
      try destruct (gt cpuUsage (int 80));
      try destruct (gt (Alerts.usagePercent memory) (int 85));
      (split; [intros H|intros [H1 H2]; try discriminate; reflexivity]);
      try (split; reflexivity); exfalso;
      first [ apply (f_equal Alerts.critical) in H; simpl in H; by_length H
            | apply (f_equal Alerts.warning) in H; simpl in H; by_length H ]. }
  rewrite Hsame.
  destruct (gt cpuUsage (int 90)) eqn:C90;
    [rewrite (AlertsExtra.gt_90_gt_80 _ C90)|];
    (destruct (gt (Alerts.usagePercent memory) (int 90)) eqn:M90;
       [rewrite (AlertsExtra.gt_90_gt_85 _ M90)|]);
    try destruct (gt cpuUsage (int 80));
    try destruct (gt (Alerts.usagePercent memory) (int 85));
    cbn [orb negb andb];
    rewrite ?app_nil_r;
    repeat split; intros;
    try reflexivity; try discriminate; try congruence;
    try (intros H'; by_length H');
    try match goal with
        | H : _ /\ _ |- _ => destruct H as [H1 H2];
            first [ discriminate
                  | exfalso; by_length H1
                  | exfalso; apply H2; reflexivity ]
        | H : _ <> _ |- _ => exfalso; apply H; reflexivity
        end.
Qed.

End PerformanceExtra.

Module HealthExtra.

Import Health.

Lemma floor_div (n : Z) (d m : positive) :
  Qfloor ((n # d) / inject_Z (Zpos m)) = n / Zpos d / Zpos m.
Proof.
  cbn. rewrite Z.mul_1_r, Pos2Z.inj_mul. symmetry. apply Z.div_div; lia.
Qed.

(** The remainder of a non-negative fraction by a whole number keeps the
    fraction's denominator. *)
Lemma rem_fraction (n : Z) (d m : positive) :
  0 <= n ->
  rem (n # d) (inject_Z (Zpos m)) =
    (Zpos d * ((n / Zpos d) mod Zpos m) + n mod Zpos d) # d.
Proof.
  intros Hn.
  unfold rem, trunc, Qminus, Qplus, Qopp, Qdiv, Qmult, Qinv, inject_Z.
  cbn [Qnum Qden].
  rewrite Z.quot_div_nonneg by lia.
  rewrite !Z.mul_1_r, !Pos.mul_1_r, Pos2Z.inj_mul.
  rewrite <- Z.div_div by lia.
  f_equal.
  pose proof (Z.div_mod n (Zpos d) ltac:(lia)) as E.
  pose proof (Z.div_mod (n / Zpos d) (Zpos m) ltac:(lia)) as E'.
  nia.
Qed.

Lemma floor_fraction (x r : Z) (d : positive) :
  0 <= r < Zpos d ->
  Qfloor ((Zpos d * x + r) # d) = x.
Proof.
  intros Hr. unfold Qfloor.
  rewrite Z.mul_comm, Z.div_add_l by lia.
  rewrite (Z.div_small r) by lia. apply Z.add_0_r.
Qed.

Lemma floor_fraction_div (x r : Z) (d k : positive) :
  0 <= r < Zpos d ->
  Qfloor (((Zpos d * x + r) # d) / inject_Z (Zpos k)) = x / Zpos k.
Proof.
  intros Hr. rewrite floor_div. f_equal.
  now apply (floor_fraction x r d).
Qed.

(** X23.  For a non-negative uptime, fraction of a second included, the
    four numbers that [getUptime] prints add up to the whole seconds of
    the uptime, its [Math.floor], with hours below 24 and minutes and
    seconds below 60: the fraction of a second is dropped and nothing
    else. *)
Theorem uptime_parts_add_up (u : Q) :
  (0 <= u)%Q ->
  days u * 86400 + hours u * 3600 + minutes u * 60 + seconds u = Qfloor u /\
  0 <= days u /\ 0 <= hours u < 24 /\
  0 <= minutes u < 60 /\ 0 <= seconds u < 60.
Proof.
  destruct u as [n d]. intros Hu.
  assert (Hn : 0 <= n) by (unfold Qle in Hu; cbn in Hu; lia).
  assert (Hq : 0 <= n / Zpos d) by (apply Z.div_pos; lia).
  pose proof (Z.mod_pos_bound n (Zpos d) ltac:(lia)) as Hr.
  unfold days, hours, minutes, seconds.
  change (24 * 3600) with 86400.
  rewrite !rem_fraction by exact Hn.
  rewrite floor_div, !floor_fraction_div, floor_fraction by exact Hr.
  unfold Qfloor. generalize dependent (n / Zpos d). intros q Hq.
  Z.to_euclidean_division_equations. lia.
Qed.

Lemma uptime_parts_add_up_witness :
  formatted (getUptime (92014 # 100)) = "0d 0h 15m 20s" /\
  formatted (getUptime (9378499 # 100)) = "1d 2h 3m 4s" /\
  days (9378499 # 100) * 86400 + hours (9378499 # 100) * 3600
  + minutes (9378499 # 100) * 60 + seconds (9378499 # 100) = 93784.
Proof.
  split; [vm_compute; reflexivity|].
  split; [vm_compute; reflexivity|].
  destruct (uptime_parts_add_up (9378499 # 100)) as [H _].
  - unfold Qle. cbn. lia.
  - rewrite H. reflexivity.
Defined.

End HealthExtra.

(** ** Properties of the battery probe *)

Module BatteryExtra.

Import Js JsOps Battery.

(** X24.  A battery report is a warning exactly when a battery is taken
    to be present and its charge is read as a number below 25, whatever
    the battery status (charging or not); in every other case it is info.
    It is never critical and never names a next step. *)
Theorem battery_severity (stamp : Z) (countQuery planQuery : exec_result)
    (basicQuery : basic_query) (acQuery : exec_result) :
  let r := getBatteryStatus stamp countQuery planQuery basicQuery acQuery in
  (severity r = "warning" <->
   checkBatteryExists countQuery = true /\
   exists b h, basicQuery = BatteryObject b /\
               EstimatedChargeRemaining b = Some (Num h) /\ h < 25 * 100) /\
  (severity r = "warning" \/ severity r = "info") /\
  severity r <> "critical" /\
  nextStepsToCheck r = [].
Proof.
  cbv zeta. unfold getBatteryStatus.
  destruct (checkBatteryExists countQuery); cbn [negb].
  - destruct basicQuery as [b|]; cbn [getBatteryBasic].
    + destruct (EstimatedChargeRemaining b) as [[|h]|] eqn:Ec;
        cbn [severity nextStepsToCheck basicCharge lt].
      * repeat split; try discriminate; try (now right).
        intros [_ [b' [h [E [Hc _]]]]]. injection E as <-.
        rewrite Ec in Hc. discriminate Hc.
      * unfold int. destruct (Z.ltb_spec h (25 * 100)) as [Hlt|Hge].
        -- repeat split; try discriminate; try (now left).
           now exists b, h.
        -- repeat split; try discriminate; try (now right).
           intros [_ [b' [h' [E [Hc Hlt]]]]]. injection E as <-.
           rewrite Ec in Hc. injection Hc as <-. lia.
      * repeat split; try discriminate; try (now right).
        intros [_ [b' [h [E [Hc _]]]]]. injection E as <-.
        rewrite Ec in Hc. discriminate Hc.
    + cbn [severity nextStepsToCheck].
      repeat split; try discriminate; try (now right).
      intros [_ [b' [h [E _]]]]. discriminate E.
  - cbn [severity nextStepsToCheck].
    repeat split; try discriminate; try (now right).
    intros [H _]. discriminate H.
Qed.

(** X25.  The report describes a desktop system exactly when the battery
    count query answers and [parseInt] does not read a positive number
    from the answer: an unreadable count is taken as no battery, a failed
    query as a battery.  A desktop report is the same whatever the other
    battery queries would answer. *)
Theorem desktop_report_iff (stamp : Z) (countQuery planQuery : exec_result)
    (basicQuery : basic_query) (acQuery : exec_result) :
  let r := getBatteryStatus stamp countQuery planQuery basicQuery acQuery in
  (method r = "No Battery" <->
   exists out, countQuery = Resolved out /\
               gt (parseInt (trim out)) (int 0) = false) /\
  (method r = "No Battery" ->
   forall basicQuery' acQuery',
     getBatteryStatus stamp countQuery planQuery basicQuery' acQuery' = r).
Proof.
  cbv zeta. unfold getBatteryStatus.
  destruct countQuery as [out| |]; cbn [checkBatteryExists negb].
  - destruct (gt (parseInt (trim out)) (int 0)) eqn:Eg; cbn [negb].
    + split.
      * split.
        -- intros H. exfalso.
           destruct (getBatteryBasic basicQuery); cbn [method] in H;
             discriminate H.
        -- intros [o [E H]]. injection E as <-. congruence.
      * intros H. exfalso.
        destruct (getBatteryBasic basicQuery); cbn [method] in H;
          discriminate H.
    + split; [|reflexivity].
      split; [intros _; now exists out|reflexivity].
  - split.
    + split.
      * intros H. exfalso.
        destruct (getBatteryBasic basicQuery); cbn [method] in H;
          discriminate H.
      * intros [o [E _]]. discriminate E.
    + intros H. exfalso.
      destruct (getBatteryBasic basicQuery); cbn [method] in H;
        discriminate H.
  - split.
    + split.
      * intros H. exfalso.
        destruct (getBatteryBasic basicQuery); cbn [method] in H;
          discriminate H.
      * intros [o [E _]]. discriminate E.
    + intros H. exfalso.
      destruct (getBatteryBasic basicQuery); cbn [method] in H;
        discriminate H.
Qed.

End BatteryExtra.
